(** * change-tracker: a shallow embedding of [ChangeTrackerImpl]

    The development follows [packages/change-tracker/src/types.ts] and
    [packages/change-tracker/src/index.ts].  The class keeps its state in
    three places: the private fields [config] and [fileStates] (a
    reference to a JavaScript [Map]), the history file on disk, and the
    [Map] objects themselves, which live on the JavaScript heap and can
    be reached by whoever holds a reference to them.  All three are made
    explicit in [State], and every method is a computation in a small
    state-and-exception monad over it.

    Conventions.
    - A string is a sequence of UTF-16 code units.  The strings of the
      model are those whose code units are all below 256, one [ascii]
      per code unit, so that [String.length] and indexing count code
      units.
    - [Map]s and [Set]s are finite maps and sets.  A plain object used
      as a dictionary ([Record<string, T>], the parsed history,
      [newFingerprints]) is the finite map of its own properties; reading
      [o[key]] goes on to the prototype chain when [o] has no own
      property [key], and writing [o["__proto__"] = v] reaches the
      setter that [Object.prototype] has under that key.  The order in
      which keys are visited is not modelled.
    - A [Map] is an object with an identity; the states it holds are
      values.  [trackChanges] creates each state object for one slot of
      one [Map] and stores it nowhere else, so assigning to a field of
      such an object is the same as replacing the slot.
    - The configuration object handed to the constructor is the
      tracker's own from then on: the caller keeps no reference to it.
    - [await] is sequencing: one method runs at a time.
    - The disk holds regular files, each under one path: two paths name
      the same file only when they are the same string.  The file system
      answers each call by refusing it with an error code or by carrying
      it out; which calls it refuses, and how far a refused write got,
      is part of the state. *)

From Stdlib Require Import ZArith Ascii String List.
From Stdlib.Strings Require Import Byte.
From stdpp Require Import base tactics option list gmap strings fin_maps pretty.

Local Open Scope Z_scope.

(** ** [createHash("md5")]: the MD5 message digest (RFC 1321)

    [createFingerprint] calls Node's [crypto] module.  The digest is
    written out so that fingerprints compute: 32-bit words are [Z] with
    the wrap-around made explicit. *)
Module MD5.

Definition wrap (x : Z) : Z := x mod 2 ^ 32.

Definition add32 (x y : Z) : Z := wrap (x + y).

Definition not32 (x : Z) : Z := Z.lxor x 0xffffffff.

Definition rotl32 (x s : Z) : Z :=
  wrap (Z.lor (Z.shiftl x s) (Z.shiftr x (32 - s))).

(** [floor (2^32 * abs (sin (i + 1)))] for [i = 0 .. 63]. *)
Definition K : list Z :=
  [ 0xd76aa478; 0xe8c7b756; 0x242070db; 0xc1bdceee;
    0xf57c0faf; 0x4787c62a; 0xa8304613; 0xfd469501;
    0x698098d8; 0x8b44f7af; 0xffff5bb1; 0x895cd7be;
    0x6b901122; 0xfd987193; 0xa679438e; 0x49b40821;
    0xf61e2562; 0xc040b340; 0x265e5a51; 0xe9b6c7aa;
    0xd62f105d; 0x02441453; 0xd8a1e681; 0xe7d3fbc8;
    0x21e1cde6; 0xc33707d6; 0xf4d50d87; 0x455a14ed;
    0xa9e3e905; 0xfcefa3f8; 0x676f02d9; 0x8d2a4c8a;
    0xfffa3942; 0x8771f681; 0x6d9d6122; 0xfde5380c;
    0xa4beea44; 0x4bdecfa9; 0xf6bb4b60; 0xbebfbc70;
    0x289b7ec6; 0xeaa127fa; 0xd4ef3085; 0x04881d05;
    0xd9d4d039; 0xe6db99e5; 0x1fa27cf8; 0xc4ac5665;
    0xf4292244; 0x432aff97; 0xab9423a7; 0xfc93a039;
    0x655b59c3; 0x8f0ccc92; 0xffeff47d; 0x85845dd1;
    0x6fa87e4f; 0xfe2ce6e0; 0xa3014314; 0x4e0811a1;
    0xf7537e82; 0xbd3af235; 0x2ad7d2bb; 0xeb86d391 ].

(** Per-step left-rotation amounts. *)
Definition shifts : list Z :=
  [ 7; 12; 17; 22; 7; 12; 17; 22; 7; 12; 17; 22; 7; 12; 17; 22;
    5;  9; 14; 20; 5;  9; 14; 20; 5;  9; 14; 20; 5;  9; 14; 20;
    4; 11; 16; 23; 4; 11; 16; 23; 4; 11; 16; 23; 4; 11; 16; 23;
    6; 10; 15; 21; 6; 10; 15; 21; 6; 10; 15; 21; 6; 10; 15; 21 ].

Definition nthZ (l : list Z) (i : Z) : Z := nth (Z.to_nat i) l 0.

(** The four chaining variables [(a, b, c, d)]. *)
Definition chain : Type := Z * Z * Z * Z.

Definition init : chain :=
  (0x67452301, 0xefcdab89, 0x98badcfe, 0x10325476).

(** One of the 64 steps on a block given as its 16 little-endian words. *)
Definition step (M : list Z) (st : chain) (i : Z) : chain :=
  let '(a, b, c, d) := st in
  let '(f, g) :=
    if i <? 16 then (Z.lor (Z.land b c) (Z.land (not32 b) d), i)
    else if i <? 32 then
      (Z.lor (Z.land d b) (Z.land (not32 d) c), (5 * i + 1) mod 16)
    else if i <? 48 then (Z.lxor b (Z.lxor c d), (3 * i + 5) mod 16)
    else (Z.lxor c (Z.lor b (not32 d)), (7 * i) mod 16) in
  let f' := add32 (add32 (add32 f a) (nthZ K i)) (nthZ M g) in
  (d, add32 b (rotl32 f' (nthZ shifts i)), b, c).

Definition le_word (bs : list Z) : Z :=
  nthZ bs 0 + 2 ^ 8 * nthZ bs 1 + 2 ^ 16 * nthZ bs 2 + 2 ^ 24 * nthZ bs 3.

Fixpoint group (size : nat) (count : nat) (l : list Z) : list (list Z) :=
  match count with
  | O => []
  | S count' => firstn size l :: group size count' (skipn size l)
  end.

Definition words_of_block (block : list Z) : list Z :=
  map le_word (group 4 16 block).

Definition process (st : chain) (block : list Z) : chain :=
  let M := words_of_block block in
  let '(a0, b0, c0, d0) := st in
  let '(a, b, c, d) := fold_left (step M) (map Z.of_nat (seq 0 64)) st in
  (add32 a0 a, add32 b0 b, add32 c0 c, add32 d0 d).

Definition le_bytes (count : nat) (x : Z) : list Z :=
  map (fun k => (x / 2 ^ (8 * Z.of_nat k)) mod 256) (seq 0 count).

(** A single [1] bit, zeros up to 56 modulo 64, then the bit length as a
    64-bit little-endian integer. *)
Definition pad (msg : list Z) : list Z :=
  let len := Z.of_nat (length msg) in
  let zeros := Z.to_nat ((55 - len) mod 64) in
  msg ++ [0x80] ++ repeat 0 zeros ++ le_bytes 8 ((8 * len) mod 2 ^ 64).

Definition digest (msg : list Z) : chain :=
  let padded := pad msg in
  fold_left process (group 64 (length padded / 64) padded) init.

Definition hex_digit (n : Z) : ascii :=
  nth (Z.to_nat n) (list_ascii_of_string "0123456789abcdef") "0"%char.

Definition hex_byte (b : Z) (rest : string) : string :=
  String (hex_digit (b / 16)) (String (hex_digit (b mod 16)) rest).

Definition hex_word (w : Z) (rest : string) : string :=
  hex_byte (w mod 256)
    (hex_byte ((w / 2 ^ 8) mod 256)
       (hex_byte ((w / 2 ^ 16) mod 256)
          (hex_byte ((w / 2 ^ 24) mod 256) rest))).

(** [createHash("md5").update(bytes).digest("hex")] *)
Definition digest_hex (bytes : list byte) : string :=
  let '(a, b, c, d) := digest (map (fun x => Z.of_N (Byte.to_N x)) bytes) in
  hex_word a (hex_word b (hex_word c (hex_word d EmptyString))).

End MD5.

(** [Buffer.from(text)]: the UTF-8 encoding of [text], one byte for a
    code unit below 128 and two bytes for a code unit from 128 to 255. *)
Definition utf8 (c : ascii) : list byte :=
  let n := N_of_ascii c in
  if (n <? 128)%N then [byte_of_ascii c]
  else [byte_of_ascii (ascii_of_N (192 + n / 64));
        byte_of_ascii (ascii_of_N (128 + n mod 64))].

Definition Buffer_from (text : string) : list byte :=
  flat_map utf8 (list_ascii_of_string text).

(** ** JavaScript values that reach the tracker *)

(** What [JSON.parse] returns.  Integers stand for JSON numbers: a
    number is only tested for being zero and handed on.  A string is
    given by its code units, one [ascii] each. *)
#[warnings="-register-all"]
Inductive json :=
  | JNull
  | JBool (b : bool)
  | JNumber (n : Z)
  | JString (s : string)
  | JArray (items : list json)
  | JObject (members : gmap string json).

(** The built-in objects that a parsed value inherits properties from. *)
Inductive Intrinsic :=
  | Object_prototype
  | Array_prototype
  | String_prototype
  | Number_prototype
  | Boolean_prototype.

(** What reading a property of a parsed value can give: a parsed value, a
    function that a built-in prototype holds under a name, or such a
    prototype itself. *)
Inductive value :=
  | Parsed (v : json)
  | Method (home : Intrinsic) (name : string)
  | Prototype (object : Intrinsic).

(** The text of a file, up to what [JSON.parse] makes of it: a
    [SyntaxError], or the value the text denotes. *)
Inductive Text :=
  | Malformed
  | Document (value : json).

(** The calls into [fs/promises].  [Mkdir path] stands for
    [mkdir(dirname(path), { recursive: true })] and [Rm path] for
    [rm(path, { force: true })]. *)
Inductive Syscall :=
  | ReadFile (path : string)
  | Mkdir (path : string)
  | WriteFile (path : string) (data : Text)
  | Rm (path : string).

Inductive Errno := ENOENT | EACCES | EPERM | EISDIR | ENOTDIR | ENOSPC | EROFS.

(** ** types.ts *)

(** [contents: Buffer].  The type admits only buffers; the test suite
    also passes [undefined] through a cast, so that value is kept. *)
Inductive Contents :=
  | Buffer (bytes : list byte)
  | Undefined.

Record HasContents := { contents : Contents }.

(** [FileDataCollection<T> = Record<string, T>] *)
Abbreviation FileDataCollection := (gmap string HasContents).

(** [this.config], by what reading each field gives; [None] is
    [undefined], whether the field is missing or holds [undefined]. *)
Record ChangeTrackerConfig := {
  historyPath : option string;
  enabled : option bool
}.

(** A field of an object literal: left out, or written with a value,
    which can be [undefined]. *)
Inductive Field (A : Type) :=
  | Absent
  | Present (value : option A).
Arguments Absent {A}.
Arguments Present {A} value.

(** The object handed to [enable], field by field: spreading it copies a
    field that is written, [undefined] included, and skips one that is
    left out. *)
Record ChangeTrackerOptions := {
  historyPath_field : Field string;
  enabled_field : Field bool
}.

Inductive FileChangeStatus := new | modified | unchanged | untracked.

(** [previousFingerprint] is declared a string; at run time it holds
    whatever reading the history under the path gave. *)
Record FileChangeState := {
  status : FileChangeStatus;
  previousFingerprint : option value
}.

(** [FileFingerprints = Record<string, string>]: the own properties. *)
Abbreviation FileFingerprints := (gmap string string).

(** The contents of a [FileStates = Map<string, FileChangeState>]. *)
Abbreviation FileStates := (gmap string FileChangeState).

Inductive ChangeTrackerErrorType :=
  | HISTORY_PATH_NOT_SET
  | HISTORY_READ_ERROR
  | HISTORY_WRITE_ERROR.

(** Everything that can be thrown: [ChangeTrackerError] from types.ts,
    and the errors of the platform ([fs], [JSON.parse], and the
    [TypeError]s of [hash.update] and of reading a property of [null]). *)
#[warnings="-register-all"]
Inductive Exception :=
  | ChangeTrackerError (type : ChangeTrackerErrorType) (message : string)
      (cause : option Exception)
  | SystemError (code : Errno) (syscall : Syscall)
  | SyntaxError
  | TypeError (message : string).

(** ** The state and the monad *)

Definition loc := positive.

Record State := {
  (** [this.config] *)
  config : ChangeTrackerConfig;
  (** [this.fileStates]: the field is never assigned after construction,
      the [Map] it points to is updated in place *)
  fileStates : loc;
  (** the [Map] objects that exist *)
  heap : gmap loc FileStates;
  (** the regular files *)
  disk : gmap string Text;
  (** which calls the file system refuses, and with which error *)
  fault : Syscall -> option Errno;
  (** whether a write that is refused had already opened its file *)
  torn : Syscall -> bool;
  (** the calls made so far, oldest first *)
  syscalls : list Syscall
}.

Definition set_config (f : ChangeTrackerConfig -> ChangeTrackerConfig)
    (st : State) : State :=
  {| config := f (config st); fileStates := fileStates st; heap := heap st;
     disk := disk st; fault := fault st; torn := torn st;
     syscalls := syscalls st |}.

Definition set_heap (f : gmap loc FileStates -> gmap loc FileStates)
    (st : State) : State :=
  {| config := config st; fileStates := fileStates st; heap := f (heap st);
     disk := disk st; fault := fault st; torn := torn st;
     syscalls := syscalls st |}.

Definition set_disk (f : gmap string Text -> gmap string Text)
    (st : State) : State :=
  {| config := config st; fileStates := fileStates st; heap := heap st;
     disk := f (disk st); fault := fault st; torn := torn st;
     syscalls := syscalls st |}.

Definition log_syscall (call : Syscall) (st : State) : State :=
  {| config := config st; fileStates := fileStates st; heap := heap st;
     disk := disk st; fault := fault st; torn := torn st;
     syscalls := syscalls st ++ [call] |}.

(** How a call ends: it returns a value or throws.  Either way the state
    it leaves behind is kept. *)
Inductive Completion (A : Type) :=
  | Normal (value : A)
  | Throw (error : Exception).
Arguments Normal {A} value.
Arguments Throw {A} error.

Definition M (A : Type) : Type := State -> Completion A * State.

#[global] Instance M_ret : MRet M := fun A a st => (Normal a, st).

#[global] Instance M_bind : MBind M := fun A B f m st =>
  match m st with
  | (Normal a, st') => f a st'
  | (Throw e, st') => (Throw e, st')
  end.

Definition throw {A} (e : Exception) : M A := fun st => (Throw e, st).

Definition try_catch {A} (body : M A) (handler : Exception -> M A) : M A :=
  fun st =>
    match body st with
    | (Normal a, st') => (Normal a, st')
    | (Throw e, st') => handler e st'
    end.

(** A call that cannot touch the state. *)
Definition lift {A} (c : Completion A) : M A := fun st => (c, st).

Definition gets {A} (f : State -> A) : M A := fun st => (Normal (f st), st).

Definition modify (f : State -> State) : M unit := fun st => (Normal tt, f st).

(** [for (const x of l) body(x)] *)
Fixpoint for_each {A} (l : list A) (body : A -> M unit) : M unit :=
  match l with
  | [] => mret tt
  | x :: l' => body x;; for_each l' body
  end.

(** [l.reduce(f, init)] *)
Fixpoint reduce {A B} (f : B -> A -> M B) (init : B) (l : list A) : M B :=
  match l with
  | [] => mret init
  | x :: l' => acc ← f init x; reduce f acc l'
  end.

(** ** The platform: [Map], [Object], [JSON], [fs/promises] *)

(** [new Map(entries)]: a later entry replaces an earlier one with the
    same key; the new object is distinct from every existing one. *)
Definition Map_new (entries : list (string * FileChangeState)) : M loc :=
  fun st =>
    let l := fresh (dom (heap st)) in
    let m := foldl (fun m e => <[e.1 := e.2]> m) (∅ : FileStates) entries in
    (Normal l, set_heap <[l := m]> st).

(** [m.get(key)] *)
Definition Map_get (m : loc) (key : string) : M (option FileChangeState) :=
  gets (fun st => (heap st !!! m) !! key).

(** [m.set(key, value)] *)
Definition Map_set (m : loc) (key : string) (value : FileChangeState)
    : M unit :=
  modify (set_heap (fun h => <[m := <[key := value]> (h !!! m)]> h)).

(** [m.delete(key)] *)
Definition Map_delete (m : loc) (key : string) : M unit :=
  modify (set_heap (fun h => <[m := delete key (h !!! m)]> h)).

(** [m.clear()] *)
Definition Map_clear (m : loc) : M unit :=
  modify (set_heap <[m := ∅]>).

(** The keys a [for ... of m] loop visits. *)
Definition Map_keys (m : loc) : M (list string) :=
  gets (fun st => (map_to_list (heap st !!! m)).*1).

(** [Object.entries(o)] and [Object.keys(o)]: the own properties. *)
Definition Object_entries {A} (o : gmap string A) : list (string * A) :=
  map_to_list o.

Definition Object_keys {A} (o : gmap string A) : list string :=
  (map_to_list o).*1.

(** JavaScript truthiness; [None] is [undefined].  Objects, arrays and
    functions are all true. *)
Definition truthy (v : option value) : bool :=
  match v with
  | None | Some (Parsed JNull) => false
  | Some (Parsed (JBool b)) => b
  | Some (Parsed (JNumber n)) => negb (n =? 0)
  | Some (Parsed (JString s)) => negb (String.eqb s EmptyString)
  | Some (Parsed (JArray _)) | Some (Parsed (JObject _)) => true
  | Some (Method _ _) | Some (Prototype _) => true
  end.

(** The index an array-index key denotes, below [len]. *)
Definition array_index (key : string) (len : nat) : option nat :=
  List.find (fun i => String.eqb (pretty (N.of_nat i)) key) (seq 0 len).

(** The own property [key] of a parsed value; [None] when it has none. *)
Definition own_property (v : json) (key : string) : option json :=
  match v with
  | JNull | JBool _ | JNumber _ => None
  | JString s =>
      if String.eqb key "length"
      then Some (JNumber (Z.of_nat (String.length s)))
      else i ← array_index key (String.length s);
           Some (JString (substring i 1 s))
  | JArray items =>
      if String.eqb key "length"
      then Some (JNumber (Z.of_nat (length items)))
      else i ← array_index key (length items); items !! i
  | JObject members => members !! key
  end.

(** Where the prototype chain of a parsed value starts; every chain ends
    in [Object.prototype]. *)
Definition prototype_of (v : json) : option Intrinsic :=
  match v with
  | JNull => None
  | JBool _ => Some Boolean_prototype
  | JNumber _ => Some Number_prototype
  | JString _ => Some String_prototype
  | JArray _ => Some Array_prototype
  | JObject _ => Some Object_prototype
  end.

(** The names under which a built-in prototype holds a function
    (ECMAScript 2024 with its Annex B, as in Node 20 to 24).
    [Object.prototype] also has the accessor [__proto__], and the two
    prototypes with a [length] of their own are shadowed there by the
    [length] of every string and array. *)
Definition methods (proto : Intrinsic) : list string :=
  match proto with
  | Object_prototype =>
      [ "constructor"; "__defineGetter__"; "__defineSetter__";
        "hasOwnProperty"; "__lookupGetter__"; "__lookupSetter__";
        "isPrototypeOf"; "propertyIsEnumerable"; "toString"; "valueOf";
        "toLocaleString" ]
  | Array_prototype =>
      [ "constructor"; "at"; "concat"; "copyWithin"; "fill"; "find";
        "findIndex"; "findLast"; "findLastIndex"; "lastIndexOf"; "pop";
        "push"; "reverse"; "shift"; "unshift"; "slice"; "sort"; "splice";
        "includes"; "indexOf"; "join"; "keys"; "entries"; "values";
        "forEach"; "filter"; "flat"; "flatMap"; "map"; "every"; "some";
        "reduce"; "reduceRight"; "toReversed"; "toSorted"; "toSpliced";
        "with"; "toLocaleString"; "toString" ]
  | String_prototype =>
      [ "constructor"; "anchor"; "at"; "big"; "blink"; "bold"; "charAt";
        "charCodeAt"; "codePointAt"; "concat"; "endsWith"; "fontcolor";
        "fontsize"; "fixed"; "includes"; "indexOf"; "isWellFormed";
        "italics"; "lastIndexOf"; "link"; "localeCompare"; "match";
        "matchAll"; "normalize"; "padEnd"; "padStart"; "repeat"; "replace";
        "replaceAll"; "search"; "slice"; "small"; "split"; "strike"; "sub";
        "substr"; "substring"; "sup"; "startsWith"; "toString";
        "toWellFormed"; "trim"; "trimStart"; "trimLeft"; "trimEnd";
        "trimRight"; "toLocaleLowerCase"; "toLocaleUpperCase";
        "toLowerCase"; "toUpperCase"; "valueOf" ]
  | Number_prototype =>
      [ "constructor"; "toExponential"; "toFixed"; "toPrecision";
        "toString"; "valueOf"; "toLocaleString" ]
  | Boolean_prototype => [ "constructor"; "toString"; "valueOf" ]
  end.

Definition has_method (proto : Intrinsic) (key : string) : bool :=
  existsb (String.eqb key) (methods proto).

(** The function found under [key]: [trimLeft] and [trimRight] are
    second names of [trimStart] and [trimEnd]. *)
Definition method (proto : Intrinsic) (key : string) : value :=
  match proto with
  | String_prototype =>
      if String.eqb key "trimLeft" then Method String_prototype "trimStart"
      else if String.eqb key "trimRight" then Method String_prototype "trimEnd"
      else Method proto key
  | _ => Method proto key
  end.

(** What a value whose chain starts at [proto] inherits under [key]: the
    getter of [__proto__] answers with [proto] itself; a function of
    [proto] hides one of [Object.prototype]. *)
Definition inherited (proto : Intrinsic) (key : string) : option value :=
  if String.eqb key "__proto__" then Some (Prototype proto)
  else if has_method proto key then Some (method proto key)
  else if has_method Object_prototype key
       then Some (Method Object_prototype key)
  else None.

(** The property [key] of a parsed value, own or inherited; [None] is
    [undefined]. *)
Definition property (v : json) (key : string) : option value :=
  match own_property v key with
  | Some own => Some (Parsed own)
  | None => proto ← prototype_of v; inherited proto key
  end.

(** [v[key]]: reading a property of [null] throws. *)
Definition get_property (v : json) (key : string) : Completion (option value) :=
  match v with
  | JNull => Throw (TypeError "Cannot read properties of null")
  | _ => Normal (property v key)
  end.

(** [o[key] = value] on a plain object and for a string [value]: under
    [__proto__] the assignment reaches the setter of [Object.prototype],
    which ignores a value that is no object; under any other key it
    makes or replaces an own property. *)
Definition Object_set (o : FileFingerprints) (key : string) (value : string)
    : FileFingerprints :=
  if String.eqb key "__proto__" then o else <[key := value]> o.

(** [o[key]] on a plain object with string properties. *)
Definition Object_get (o : FileFingerprints) (key : string) : option value :=
  property (JObject (JString <$> o)) key.

Definition Intrinsic_eqb (a b : Intrinsic) : bool :=
  match a, b with
  | Object_prototype, Object_prototype
  | Array_prototype, Array_prototype
  | String_prototype, String_prototype
  | Number_prototype, Number_prototype
  | Boolean_prototype, Boolean_prototype => true
  | _, _ => false
  end.

(** [a !== b], where [b] was read from [newFingerprints].  Primitive
    values are compared by what they are, built-in objects by identity;
    an object or array that [JSON.parse] built is different from every
    [b], since [newFingerprints] holds no such object. *)
Definition strict_neq (a b : option value) : bool :=
  match a, b with
  | None, None => false
  | Some (Parsed JNull), Some (Parsed JNull) => false
  | Some (Parsed (JBool x)), Some (Parsed (JBool y)) => negb (Bool.eqb x y)
  | Some (Parsed (JNumber x)), Some (Parsed (JNumber y)) => negb (x =? y)
  | Some (Parsed (JString x)), Some (Parsed (JString y)) =>
      negb (String.eqb x y)
  | Some (Method p x), Some (Method q y) =>
      negb (Intrinsic_eqb p q && String.eqb x y)
  | Some (Prototype p), Some (Prototype q) => negb (Intrinsic_eqb p q)
  | _, _ => true
  end.

(** [JSON.parse(content)] *)
Definition JSON_parse (content : Text) : Completion json :=
  match content with
  | Malformed => Throw SyntaxError
  | Document value => Normal value
  end.

(** [JSON.stringify(fingerprints, null, 2)]: text that denotes the
    object with the same own string properties. *)
Definition JSON_stringify (fingerprints : FileFingerprints) : Text :=
  Document (JObject (JString <$> fingerprints)).

(** A call into the file system is recorded, then refused or let through. *)
Definition perform (call : Syscall) : M unit :=
  fun st =>
    match fault st call with
    | Some errno => (Throw (SystemError errno call), log_syscall call st)
    | None => (Normal tt, log_syscall call st)
    end.

(** [readFile(path, "utf8")] *)
Definition readFile (path : string) : M Text :=
  perform (ReadFile path);;
  content ← gets (fun st => disk st !! path);
  match content with
  | Some text => mret text
  | None => throw (SystemError ENOENT (ReadFile path))
  end.

(** [mkdir(dirname(path), { recursive: true })] *)
Definition mkdir_dirname (path : string) : M unit :=
  perform (Mkdir path).

(** [writeFile(path, data)] opens the file, which empties it, then
    writes [data], and is not atomic.  A call that is refused was refused
    on opening, the file being left as it was, or later, the file then
    holding only a part of [data].  The one [data] ever written is the
    text of an object, which ends with the closing brace: a part of it
    is not JSON. *)
Definition writeFile (path : string) (data : Text) : M unit :=
  try_catch (perform (WriteFile path data))
    (fun err =>
       opened ← gets (fun st => torn st (WriteFile path data));
       (if (opened : bool) then modify (set_disk <[path := Malformed]>)
        else (mret tt : M unit));;
       throw err);;
  modify (set_disk <[path := data]>).

(** [rm(path, { force: true })]: a missing file is not an error. *)
Definition rm_force (path : string) : M unit :=
  perform (Rm path);;
  modify (set_disk (delete path)).

(** ** index.ts: [ChangeTrackerImpl]

    Calls to the logger are left out: nothing it returns is used. *)

(** [constructor(private config)], in a world with the given files and
    a file system that behaves as [faults] and [tears] say. *)
Definition constructor (cfg : ChangeTrackerConfig) (files : gmap string Text)
    (faults : Syscall -> option Errno) (tears : Syscall -> bool) : State :=
  {| config := {| historyPath := historyPath cfg;
                  enabled := Some (default true (enabled cfg)) |};
     fileStates := 1%positive;
     heap := {[ 1%positive := ∅ ]};
     disk := files;
     fault := faults;
     torn := tears;
     syscalls := [] |}.

(** [hash.update] rejects a value that is no buffer with a [TypeError]. *)
Definition createFingerprint (file : HasContents) : Completion string :=
  match contents file with
  | Buffer bytes => Normal (MD5.digest_hex bytes)
  | Undefined => Throw (TypeError "ERR_INVALID_ARG_TYPE")
  end.

Definition loadHistory : M json :=
  cfg ← gets config;
  match historyPath cfg with
  | None | Some EmptyString =>
      throw (ChangeTrackerError HISTORY_PATH_NOT_SET
               "History path must be set to track changes" None)
  | Some path =>
      try_catch
        (content ← readFile path;
         history ← lift (JSON_parse content);
         mret history)
        (fun err => mret (JObject ∅))
  end.

Definition saveHistory (fingerprints : FileFingerprints) : M unit :=
  cfg ← gets config;
  match historyPath cfg with
  | None | Some EmptyString =>
      throw (ChangeTrackerError HISTORY_PATH_NOT_SET
               "History path must be set to track changes" None)
  | Some path =>
      try_catch
        (mkdir_dirname path;;
         writeFile path (JSON_stringify fingerprints))
        (fun err =>
           throw (ChangeTrackerError HISTORY_WRITE_ERROR
                    "Failed to save change history" (Some err)))
  end.

(** The [state] object that [trackChanges] builds for a path from what
    it read in the history and in [newFingerprints]. *)
Definition reconcile (previousFingerprint currentFingerprint : option value)
    : FileChangeState :=
  let isNew := negb (truthy previousFingerprint) in
  {| status :=
       if isNew then new
       else if strict_neq previousFingerprint currentFingerprint then modified
       else unchanged;
     previousFingerprint := if isNew then None else previousFingerprint |}.

Definition trackChanges (files : FileDataCollection) : M loc :=
  cfg ← gets config;
  if negb (default false (enabled cfg)) then
    Map_new
      ((fun filepath =>
          (filepath, {| status := untracked; previousFingerprint := None |}))
       <$> Object_keys files)
  else
    (* Load previous fingerprints *)
    loadedHistory ← loadHistory;
    (* Calculate new fingerprints *)
    newFingerprints ←
      reduce
        (fun (acc : FileFingerprints) '(filepath, file) =>
           fingerprint ← lift (createFingerprint file);
           mret (Object_set acc filepath fingerprint))
        ∅ (Object_entries files);
    (* Clear states for deleted files *)
    this_fileStates ← gets fileStates;
    let currentFiles : gset string := list_to_set (Object_keys files) in
    tracked ← Map_keys this_fileStates;
    for_each tracked
      (fun filepath =>
         if bool_decide (filepath ∈ currentFiles) then mret tt
         else Map_delete this_fileStates filepath);;
    (* Update file states *)
    for_each (Object_entries files)
      (fun '(filepath, file) =>
         previousFingerprint ← lift (get_property loadedHistory filepath);
         let currentFingerprint := Object_get newFingerprints filepath in
         let state := reconcile previousFingerprint currentFingerprint in
         Map_set this_fileStates filepath state);;
    (* Save new fingerprints *)
    saveHistory newFingerprints;;
    mret this_fileStates.

Definition getFileState (filepath : string) : M (option FileChangeState) :=
  this_fileStates ← gets fileStates;
  Map_get this_fileStates filepath.

Definition clearHistory : M unit :=
  cfg ← gets config;
  match historyPath cfg with
  | None | Some EmptyString =>
      throw (ChangeTrackerError HISTORY_PATH_NOT_SET
               "History path must be set to clear history" None)
  | Some path =>
      try_catch
        (rm_force path;;
         this_fileStates ← gets fileStates;
         Map_clear this_fileStates)
        (fun err =>
           throw (ChangeTrackerError HISTORY_WRITE_ERROR
                    "Failed to clear change history" (Some err)))
  end.

(** [{ ...this.config, ...options }], one field: a field that [options]
    has replaces the current one even when it holds [undefined]. *)
Definition spread {A} (current : option A) (field : Field A) : option A :=
  match field with
  | Absent => current
  | Present value => value
  end.

(** [enable(options)]: a boolean sets the flag; a configuration object is
    spread over the current configuration. *)
Definition enable (options : bool + ChangeTrackerOptions) : M unit :=
  match options with
  | inl flag =>
      modify (set_config (fun cfg =>
        {| historyPath := historyPath cfg; enabled := Some flag |}))
  | inr opts =>
      modify (set_config (fun cfg =>
        {| historyPath := spread (historyPath cfg) (historyPath_field opts);
           enabled := spread (enabled cfg) (enabled_field opts) |}))
  end.

(** ** Vocabulary of the statements *)

(** The tracker's own [Map] exists: true of every constructed tracker and
    kept by every method. *)
Definition allocated (st : State) : Prop :=
  is_Some (heap st !! fileStates st).

(** The entries of the [Map] a reference points to. *)
Definition Map_contents (l : loc) (st : State) : FileStates :=
  heap st !!! l.

Definition completed {A} (c : Completion A) : option A :=
  match c with
  | Normal a => Some a
  | Throw _ => None
  end.

(** The own properties of [newFingerprints] once the [reduce] of
    [trackChanges] has returned: the digest of every record, except
    under [__proto__], where the assignment left nothing. *)
Definition fingerprints (files : FileDataCollection) : FileFingerprints :=
  delete "__proto__"
    (omap (fun file => completed (createFingerprint file)) files).

(** The entries of [this.fileStates] once both loops of [trackChanges]
    have run. *)
Definition reconciled (loadedHistory : json) (files : FileDataCollection)
    : FileStates :=
  map_imap
    (fun filepath _ =>
       Some (reconcile (property loadedHistory filepath)
               (Object_get (fingerprints files) filepath)))
    files.

(** The values JavaScript takes for false, among those a history can
    hold under a path: [undefined], [null], [false], zero and the empty
    string. *)
Definition falsy (v : option value) : Prop :=
  v = None ∨ v = Some (Parsed JNull) ∨ v = Some (Parsed (JBool false))
  ∨ v = Some (Parsed (JNumber 0)) ∨ v = Some (Parsed (JString EmptyString)).

(** The keys under which every plain object has a property, whatever its
    own properties: those of [Object.prototype]. *)
Definition inherited_name (key : string) : bool :=
  String.eqb key "__proto__" || has_method Object_prototype key.

(** ** Sample trackers and inputs *)

Definition no_faults : Syscall -> option Errno := fun _ => None.

Definition no_tears : Syscall -> bool := fun _ => false.

(** The file system refuses one call with [EACCES]. *)
Definition refuse_mkdir (path : string) : Syscall -> option Errno :=
  fun call =>
    match call with
    | Mkdir p => if String.eqb p path then Some EACCES else None
    | _ => None
    end.

Definition refuse_rm (path : string) : Syscall -> option Errno :=
  fun call =>
    match call with
    | Rm p => if String.eqb p path then Some EACCES else None
    | _ => None
    end.

(** The disk is full: every write to [path] fails with [ENOSPC], after
    the file was opened. *)
Definition refuse_write (path : string) : Syscall -> option Errno :=
  fun call =>
    match call with
    | WriteFile p _ => if String.eqb p path then Some ENOSPC else None
    | _ => None
    end.

Definition all_torn : Syscall -> bool := fun _ => true.

Definition history_json : string := "history.json".

Definition sample_config : ChangeTrackerConfig :=
  {| historyPath := Some history_json; enabled := None |}.

(** [new ChangeTrackerImpl({ historyPath })] with no history on disk. *)
Definition fresh_tracker : State :=
  constructor sample_config ∅ no_faults no_tears.

(** [new ChangeTrackerImpl({ historyPath, enabled: false })] *)
Definition disabled_tracker : State :=
  constructor {| historyPath := Some history_json; enabled := Some false |}
    ∅ no_faults no_tears.

(** A tracker built with the empty string as history path. *)
Definition pathless_tracker : State :=
  constructor {| historyPath := Some EmptyString; enabled := None |}
    ∅ no_faults no_tears.

(** [{ contents: Buffer.from(text) }] *)
Definition file_of (text : string) : HasContents :=
  {| contents := Buffer (Buffer_from text) |}.

Definition files_x : FileDataCollection := {[ "a.txt"%string := file_of "x" ]}.

Definition files_y : FileDataCollection :=
  {[ "a.txt"%string := file_of "y"; "b.txt"%string := file_of "y" ]}.

Definition files_b : FileDataCollection := {[ "b.txt"%string := file_of "y" ]}.

Definition files_invalid : FileDataCollection :=
  {[ "a.txt"%string := file_of "x";
     "test.txt"%string := {| contents := Undefined |} ]}.

(** A file named [constructor], as
    [{ constructor: { contents: Buffer.from("x") } }]. *)
Definition files_constructor : FileDataCollection :=
  {[ "constructor"%string := file_of "x" ]}.

(** A file named [__proto__] next to [a.txt], as
    [{ ["__proto__"]: { contents: Buffer.from("x") }, "a.txt": ... }],
    and the same two files with other contents. *)
Definition files_proto : FileDataCollection :=
  {[ "__proto__"%string := file_of "x"; "a.txt"%string := file_of "x" ]}.

Definition files_proto_y : FileDataCollection :=
  {[ "__proto__"%string := file_of "y"; "a.txt"%string := file_of "y" ]}.

(** A tracker that has seen [files_x], on a file system that refuses to
    remove the history file. *)
Definition undeletable_tracker : State :=
  (trackChanges files_x
     (constructor sample_config ∅ (refuse_rm history_json) no_tears)).2.

(** A tracker on a file system that refuses to create the directory of
    the history file. *)
Definition unwritable_tracker : State :=
  constructor sample_config ∅ (refuse_mkdir history_json) no_tears.

(** The tracker after [trackChanges(files_x)], and the history it wrote. *)
Definition seen_x : State := (trackChanges files_x fresh_tracker).2.

Definition history_x : json :=
  JObject {[ "a.txt"%string := JString "9dd4e461268c8034f5c8564e155c67a6" ]}.

(** A new tracker over the history file that a run on [files_x] leaves,
    on a disk that is full. *)
Definition full_disk_tracker : State :=
  constructor sample_config {[ history_json := Document history_x ]}
    (refuse_write history_json) all_torn.

(** A tracker whose history file is valid JSON but maps a path to a
    number, and one whose history file is the JSON text [null]. *)
Definition tampered_history : json :=
  JObject {[ "a.txt"%string := JNumber 42 ]}.

Definition tampered_tracker : State :=
  constructor sample_config {[ history_json := Document tampered_history ]}
    no_faults no_tears.

Definition null_history_tracker : State :=
  constructor sample_config {[ history_json := Document JNull ]}
    no_faults no_tears.

(** A tracker whose history file is not JSON. *)
Definition corrupted_tracker : State :=
  constructor sample_config {[ history_json := Malformed ]} no_faults no_tears.

(** The state a computation leaves behind, and how it completed. *)
Definition after {A} (m : M A) (st : State) : State := (m st).2.

Definition completion {A} (m : M A) (st : State) : Completion A := (m st).1.

(** ** More sample trackers *)

(** A tracker that has seen [a.txt] and [b.txt], whose history file was
    then overwritten with the JSON text [null]. *)
Definition nulled_tracker : State :=
  set_disk <[history_json := Document JNull]>
    (trackChanges files_y fresh_tracker).2.

Definition other_json : string := "other.json".

(** [enable({ historyPath: "other.json", enabled: true })] *)
Definition switch_history : bool + ChangeTrackerOptions :=
  inr {| historyPath_field := Present (Some other_json);
         enabled_field := Present (Some true) |}.

(** [enable({ historyPath: "other.json" })] and
    [enable({ historyPath: "other.json", enabled: undefined })] *)
Definition move_history : bool + ChangeTrackerOptions :=
  inr {| historyPath_field := Present (Some other_json);
         enabled_field := Absent |}.

Definition move_history_undefined : bool + ChangeTrackerOptions :=
  inr {| historyPath_field := Present (Some other_json);
         enabled_field := Present None |}.

(** ** Vocabulary of the further properties *)

(** The errors the methods let out: [HISTORY_PATH_NOT_SET] without a
    cause, [HISTORY_WRITE_ERROR] around the error of a file-system call,
    and the [TypeError]s of the platform. *)
Definition surfaced (e : Exception) : bool :=
  match e with
  | ChangeTrackerError HISTORY_PATH_NOT_SET _ None => true
  | ChangeTrackerError HISTORY_WRITE_ERROR _ (Some (SystemError _ _)) => true
  | TypeError _ => true
  | _ => false
  end.

(** A state as [trackChanges] stores it: never [untracked], and with a
    previous fingerprint exactly when [modified] or [unchanged]. *)
Definition stored_state (s : FileChangeState) : Prop :=
  status s ≠ untracked ∧
  (is_Some (previousFingerprint s)
   ↔ status s = modified ∨ status s = unchanged).

(** The state a run gives to an input path when the history it loaded is
    the empty object: [new], unless the path names a property that the
    empty object inherits. *)
Definition fresh_start (path : string) : FileChangeState :=
  if String.eqb path "__proto__"
  then {| status := unchanged;
          previousFingerprint := Some (Prototype Object_prototype) |}
  else if has_method Object_prototype path
  then {| status := modified;
          previousFingerprint := Some (Method Object_prototype path) |}
  else {| status := new; previousFingerprint := None |}.

(** What a refused [saveHistory] can leave on disk for a disk [before]:
    every file as it was, or the history file holding a part of the
    text. *)
Definition partly_written (p : string) (before now : gmap string Text)
    : Prop :=
  now = before ∨ now = <[p := Malformed]> before.

(** The calls of the [ChangeTracker] interface, and a caller that makes
    them one after the other, going on after an error. *)
Inductive Call :=
  | call_trackChanges (files : FileDataCollection)
  | call_getFileState (filepath : string)
  | call_clearHistory
  | call_enable (options : bool + ChangeTrackerOptions).

Definition call (st : State) (c : Call) : State :=
  match c with
  | call_trackChanges files => after (trackChanges files) st
  | call_getFileState filepath => after (getFileState filepath) st
  | call_clearHistory => after clearHistory st
  | call_enable options => after (enable options) st
  end.

Definition session (calls : list Call) (st : State) : State :=
  foldl call st calls.

(** * Properties *)

(** ** The monad *)

Lemma run_bind {A B} (m : M A) (f : A -> M B) (st : State) :
  (m ≫= f) st =
  match m st with
  | (Normal a, st') => f a st'
  | (Throw e, st') => (Throw e, st')
  end.
Proof. reflexivity. Qed.

Lemma set_heap_insert_id (st : State) (l : loc) (m : FileStates) :
  heap st !! l = Some m -> set_heap <[l := m]> st = st.
Proof.
  intros Hl. unfold set_heap. rewrite (insert_id _ _ _ Hl). by destruct st.
Qed.

Lemma get_property_not_null (v : json) (key : string) :
  v ≠ JNull -> get_property v key = Normal (property v key).
Proof. by destruct v. Qed.

(** ** Reading and writing properties *)

Lemma inherited_name_spec (key : string) :
  inherited Object_prototype key
  = if String.eqb key "__proto__" then Some (Prototype Object_prototype)
    else if has_method Object_prototype key
         then Some (Method Object_prototype key)
    else None.
Proof.
  unfold inherited. destruct (String.eqb key "__proto__"); [done|].
  by destruct (has_method Object_prototype key).
Qed.

Lemma inherited_name_false (key : string) :
  inherited_name key = false -> inherited Object_prototype key = None.
Proof.
  unfold inherited_name. rewrite inherited_name_spec.
  intros [-> ->]%orb_false_elim. done.
Qed.

(** A plain object: its own properties first, then [Object.prototype]. *)
Lemma property_object (members : gmap string json) (key : string) :
  property (JObject members) key
  = match members !! key with
    | Some own => Some (Parsed own)
    | None => inherited Object_prototype key
    end.
Proof. unfold property. cbn. by destruct (members !! key). Qed.

Lemma Object_get_lookup (o : FileFingerprints) (key : string) :
  Object_get o key
  = match o !! key with
    | Some fingerprint => Some (Parsed (JString fingerprint))
    | None => inherited Object_prototype key
    end.
Proof.
  unfold Object_get. rewrite property_object, lookup_fmap.
  by destruct (o !! key).
Qed.

Lemma Object_set_lookup (o : FileFingerprints) (key k : string)
    (value : string) :
  Object_set o key value !! k
  = if decide (key = "__proto__"%string) then o !! k
    else <[key := value]> o !! k.
Proof.
  unfold Object_set. case_decide as Hk.
  - subst key. done.
  - apply String.eqb_neq in Hk. by rewrite Hk.
Qed.

(** ** The loops of [trackChanges] *)

Section loops.
Context (files : FileDataCollection).

(** The callback of the [reduce] that computes [newFingerprints]. *)
Local Abbreviation add_fingerprint :=
  (fun (acc : FileFingerprints) '(filepath, file) =>
     fingerprint ← lift (createFingerprint file);
     mret (Object_set acc filepath fingerprint)).

Lemma reduce_fingerprints_list (l : list (string * HasContents))
    (acc : FileFingerprints) (st : State) :
  NoDup l.*1 ->
  Forall (fun e => contents e.2 ≠ Undefined) l ->
  ∃ r, reduce add_fingerprint acc l st = (Normal r, st) ∧
       ∀ k, r !! k =
            if decide (k = "__proto__"%string) then acc !! k
            else match (list_to_map l : FileDataCollection) !! k with
                 | Some file => completed (createFingerprint file)
                 | None => acc !! k
                 end.
Proof.
  revert acc. induction l as [|[k0 f0] l IH]; intros acc Hnd Hok.
  - exists acc. split; [done|]. intros k. simpl. rewrite lookup_empty.
    by case_decide.
  - apply NoDup_cons in Hnd as [Hk0 Hnd].
    apply Forall_cons in Hok as [Hf0 Hok]. simpl in Hf0.
    destruct (contents f0) as [bytes|] eqn:Hc; [|done].
    destruct (IH (Object_set acc k0 (MD5.digest_hex bytes)) Hnd Hok)
      as (r & Hr & Hlook).
    exists r. split.
    + simpl. rewrite run_bind. unfold lift, createFingerprint.
      rewrite Hc. exact Hr.
    + intros k. rewrite Hlook.
      destruct (decide (k = "__proto__"%string)) as [->|Hproto].
      * rewrite Object_set_lookup. case_decide as Hk0'; [done|].
        by rewrite lookup_insert_ne.
      * cbn [list_to_map foldr fst snd]. rewrite Object_set_lookup.
        destruct (decide (k = k0)) as [->|Hne].
        -- rewrite lookup_insert_eq.
           rewrite (proj1 (not_elem_of_list_to_map _ _) Hk0).
           rewrite decide_False by done. rewrite lookup_insert_eq.
           unfold createFingerprint. by rewrite Hc.
        -- assert (k0 ≠ k) by congruence.
           rewrite !lookup_insert_ne by done.
           destruct (list_to_map l !! k); [done|]. by case_decide.
Qed.

Lemma reduce_fingerprints (st : State) :
  (∀ path file, files !! path = Some file -> contents file ≠ Undefined) ->
  reduce add_fingerprint ∅ (Object_entries files) st
  = (Normal (fingerprints files), st).
Proof.
  intros Hok.
  destruct (reduce_fingerprints_list (map_to_list files) ∅ st)
    as (r & Hr & Hlook).
  - apply NoDup_fst_map_to_list.
  - apply Forall_forall. intros [k f] Hin.
    apply elem_of_map_to_list in Hin. simpl. eauto.
  - unfold Object_entries. rewrite Hr. do 2 f_equal.
    apply map_eq. intros k. rewrite Hlook, list_to_map_to_list.
    unfold fingerprints. case_decide as Hk.
    + subst k. by rewrite lookup_delete_eq, lookup_empty.
    + rewrite lookup_delete_ne by done. rewrite lookup_omap.
      destruct (files !! k); [done|]. by rewrite lookup_empty.
Qed.

Lemma reduce_fingerprints_throw_list (l : list (string * HasContents))
    (acc : FileFingerprints) (st : State) :
  Exists (fun e => contents e.2 = Undefined) l ->
  reduce add_fingerprint acc l st
  = (Throw (TypeError "ERR_INVALID_ARG_TYPE"), st).
Proof.
  revert acc. induction l as [|[k0 f0] l IH]; intros acc Hex.
  - by apply Exists_nil in Hex.
  - simpl. rewrite run_bind. unfold lift, createFingerprint.
    destruct (contents f0) as [bytes|] eqn:Hc; [|done].
    apply Exists_cons in Hex as [Hex|Hex]; [simpl in Hex; congruence|].
    by apply IH.
Qed.

Lemma reduce_fingerprints_throw (st : State) (path : string)
    (file : HasContents) :
  files !! path = Some file -> contents file = Undefined ->
  reduce add_fingerprint ∅ (Object_entries files) st
  = (Throw (TypeError "ERR_INVALID_ARG_TYPE"), st).
Proof.
  intros Hin Hc. apply reduce_fingerprints_throw_list.
  apply Exists_exists. exists (path, file). split; [|done].
  by apply elem_of_map_to_list.
Qed.

(** The body of the loop that drops the states of deleted files. *)
Local Abbreviation drop_deleted l :=
  (fun filepath : string =>
     if bool_decide (filepath ∈ (list_to_set (Object_keys files) : gset string))
     then mret tt
     else Map_delete l filepath).

Lemma drop_deleted_list (l : loc) (keys : list string) (m : FileStates)
    (st : State) :
  heap st !! l = Some m ->
  for_each keys (drop_deleted l) st
  = (Normal tt,
     set_heap
       <[l := filter (fun kv => is_Some (files !! kv.1) ∨ kv.1 ∉ keys) m]>
       st).
Proof.
  revert m st. induction keys as [|k keys IH]; intros m st Hl.
  - simpl. unfold mret, M_ret. f_equal. symmetry.
    apply set_heap_insert_id. rewrite Hl. f_equal. symmetry.
    apply map_filter_id. intros i x _. right. simpl. apply not_elem_of_nil.
  - simpl. rewrite run_bind. case_bool_decide as Hk.
    + unfold mret at 1, M_ret at 1. rewrite (IH m st Hl). do 3 f_equal.
      apply map_filter_ext. intros i x _. simpl.
      rewrite elem_of_list_to_set in Hk. unfold Object_keys in Hk.
      apply list_elem_of_fmap in Hk as ([k' f] & -> & Hk).
      apply elem_of_map_to_list in Hk. simpl in *.
      rewrite not_elem_of_cons. split; [|tauto].
      intros [?|?]; [tauto|].
      destruct (decide (i = k')) as [->|]; [left; eauto|tauto].
    + unfold Map_delete, modify.
      rewrite (IH (delete k m)); last first.
      { simpl. rewrite lookup_total_alt, Hl. simpl.
        by rewrite lookup_insert_eq. }
      f_equal. unfold set_heap. simpl. f_equal.
      rewrite lookup_total_alt, Hl. simpl. rewrite insert_insert_eq.
      f_equal. apply map_eq. intros i.
      rewrite !map_lookup_filter. simpl.
      destruct (decide (i = k)) as [->|Hne].
      * rewrite lookup_delete_eq. simpl.
        destruct (m !! k); simpl; [|done].
        rewrite option_guard_False; [done|].
        intros [Hin|Hnin]; [|apply Hnin; left].
        apply Hk. rewrite elem_of_list_to_set. unfold Object_keys.
        destruct Hin as [file Hfile]. apply list_elem_of_fmap.
        exists (k, file). split; [done|]. by apply elem_of_map_to_list.
      * rewrite lookup_delete_ne by done.
        destruct (m !! i); simpl; [|done].
        apply option_guard_iff. rewrite not_elem_of_cons. tauto.
Qed.

Lemma drop_deleted_run (l : loc) (st : State) (m : FileStates) :
  heap st !! l = Some m ->
  for_each (map_to_list m).*1 (drop_deleted l) st
  = (Normal tt,
     set_heap <[l := filter (fun kv => is_Some (files !! kv.1)) m]> st).
Proof.
  intros Hl. rewrite (drop_deleted_list _ _ m st Hl). do 3 f_equal.
  apply map_filter_ext. intros i x Hi. simpl. split; [|tauto].
  intros [?|Hnin]; [done|]. exfalso. apply Hnin.
  apply list_elem_of_fmap. exists (i, x). split; [done|].
  by apply elem_of_map_to_list.
Qed.

(** The body of the loop that sets the state of every input file. *)
Local Abbreviation set_state l loadedHistory newFingerprints :=
  (fun '(filepath, file) =>
     previousFingerprint ← lift (get_property loadedHistory filepath);
     Map_set l filepath
       (reconcile previousFingerprint
          (Object_get (newFingerprints : FileFingerprints) filepath))).

Lemma set_state_list (l : loc) (h : json) (fps : FileFingerprints)
    (entries : list (string * HasContents)) (m : FileStates) (st : State) :
  h ≠ JNull ->
  heap st !! l = Some m ->
  for_each entries (set_state l h fps) st
  = (Normal tt,
     set_heap
       <[l := foldl
                (fun acc e =>
                   <[e.1 := reconcile (property h e.1) (Object_get fps e.1)]>
                     acc)
                m entries]>
       st).
Proof.
  intros Hh. revert m st.
  induction entries as [|[k f] entries IH]; intros m st Hl.
  - simpl. unfold mret, M_ret. f_equal. symmetry.
    by apply set_heap_insert_id.
  - simpl. rewrite !run_bind. unfold lift.
    rewrite (get_property_not_null h k Hh). simpl.
    rewrite (IH (<[k := reconcile (property h k) (Object_get fps k)]> m)).
    + f_equal. unfold set_heap. simpl. f_equal.
      rewrite lookup_total_alt, Hl. simpl. by rewrite insert_insert_eq.
    + simpl. rewrite lookup_total_alt, Hl. simpl.
      by rewrite lookup_insert_eq.
Qed.

Lemma set_state_null (l : loc) (fps : FileFingerprints)
    (entry : string * HasContents) (entries : list (string * HasContents))
    (st : State) :
  for_each (entry :: entries) (set_state l JNull fps) st
  = (Throw (TypeError "Cannot read properties of null"), st).
Proof. by destruct entry. Qed.

Lemma foldl_insert_lookup {A} (g : string -> FileChangeState)
    (entries : list (string * A)) (m : FileStates) (k : string) :
  foldl (fun acc e => <[e.1 := g e.1]> acc) m entries !! k
  = if decide (k ∈ entries.*1) then Some (g k) else m !! k.
Proof.
  revert m. induction entries as [|[k0 x] entries IH]; intros m.
  - cbn [foldl]. rewrite decide_False; [done|]. apply not_elem_of_nil.
  - cbn [foldl]. rewrite IH, fmap_cons. cbn [fst].
    destruct (decide (k = k0)) as [->|Hne].
    + rewrite lookup_insert_eq.
      rewrite (decide_True (P := k0 ∈ k0 :: entries.*1)) by left.
      by case_decide.
    + rewrite lookup_insert_ne by congruence.
      case_decide as Hk.
      * by rewrite decide_True by by right.
      * rewrite decide_False; [done|].
        rewrite elem_of_cons. tauto.
Qed.

Lemma reconciled_spec (h : json) (m : FileStates) :
  foldl
    (fun acc e =>
       <[e.1 := reconcile (property h e.1)
                  (Object_get (fingerprints files) e.1)]> acc)
    (filter (fun kv => is_Some (files !! kv.1)) m)
    (Object_entries files)
  = reconciled h files.
Proof.
  apply map_eq. intros k.
  rewrite (foldl_insert_lookup
             (fun k => reconcile (property h k)
                         (Object_get (fingerprints files) k))).
  unfold reconciled. rewrite map_lookup_imap.
  case_decide as Hk.
  - apply list_elem_of_fmap in Hk as ([k' f] & -> & Hk).
    apply elem_of_map_to_list in Hk. simpl. by rewrite Hk.
  - destruct (files !! k) as [f|] eqn:Hf; simpl.
    + exfalso. apply Hk. apply list_elem_of_fmap.
      exists (k, f). split; [done|]. by apply elem_of_map_to_list.
    + apply map_lookup_filter_None. right. intros x _ [y Hy]. simpl in Hy.
      congruence.
Qed.

End loops.

(** ** [loadHistory] and [saveHistory] *)

Lemma loadHistory_unset (st : State) :
  historyPath (config st) = None ∨ historyPath (config st) = Some EmptyString ->
  loadHistory st
  = (Throw (ChangeTrackerError HISTORY_PATH_NOT_SET
              "History path must be set to track changes" None), st).
Proof.
  intros Hp. unfold loadHistory. rewrite run_bind. unfold gets.
  by destruct Hp as [-> | ->].
Qed.

Lemma loadHistory_set (st : State) (p : string) :
  historyPath (config st) = Some p -> p ≠ EmptyString ->
  loadHistory st
  = (Normal match fault st (ReadFile p), disk st !! p with
            | None, Some (Document value) => value
            | _, _ => JObject ∅
            end,
     log_syscall (ReadFile p) st).
Proof.
  intros Hp Hne. unfold loadHistory. rewrite run_bind. unfold gets.
  rewrite Hp. destruct p as [|a p]; [done|].
  unfold try_catch, readFile. rewrite !run_bind. unfold perform.
  destruct (fault st (ReadFile (String a p))); [done|].
  rewrite run_bind. unfold gets. cbn [disk log_syscall].
  destruct (disk st !! String a p) as [[|value]|]; done.
Qed.

Lemma loadHistory_inv (st st1 : State) (h : json) :
  loadHistory st = (Normal h, st1) ->
  ∃ p, historyPath (config st) = Some p ∧ p ≠ EmptyString ∧
       st1 = log_syscall (ReadFile p) st.
Proof.
  intros Hload. destruct (historyPath (config st)) as [p|] eqn:Hp.
  - destruct (decide (p = EmptyString)) as [->|Hne].
    + rewrite loadHistory_unset in Hload by auto. done.
    + rewrite (loadHistory_set st p Hp Hne) in Hload.
      exists p. by simplify_eq.
  - rewrite loadHistory_unset in Hload by auto. done.
Qed.

Lemma writeFile_run (path : string) (data : Text) (st : State) :
  writeFile path data st
  = let st1 := log_syscall (WriteFile path data) st in
    match fault st (WriteFile path data) with
    | Some errno =>
        (Throw (SystemError errno (WriteFile path data)),
         if torn st (WriteFile path data)
         then set_disk <[path := Malformed]> st1 else st1)
    | None => (Normal tt, set_disk <[path := data]> st1)
    end.
Proof.
  unfold writeFile. rewrite run_bind. unfold try_catch, perform.
  destruct (fault st (WriteFile path data)); [|done].
  rewrite !run_bind. unfold gets. cbn [torn log_syscall].
  by destruct (torn st (WriteFile path data)).
Qed.

Lemma saveHistory_unset (st : State) (fps : FileFingerprints) :
  historyPath (config st) = None ∨ historyPath (config st) = Some EmptyString ->
  saveHistory fps st
  = (Throw (ChangeTrackerError HISTORY_PATH_NOT_SET
              "History path must be set to track changes" None), st).
Proof.
  intros Hp. unfold saveHistory. rewrite run_bind. unfold gets.
  by destruct Hp as [-> | ->].
Qed.

Lemma saveHistory_set (st : State) (p : string) (fps : FileFingerprints) :
  historyPath (config st) = Some p -> p ≠ EmptyString ->
  saveHistory fps st
  = match fault st (Mkdir p) with
    | Some errno =>
        (Throw (ChangeTrackerError HISTORY_WRITE_ERROR
                  "Failed to save change history"
                  (Some (SystemError errno (Mkdir p)))),
         log_syscall (Mkdir p) st)
    | None =>
        let data := JSON_stringify fps in
        let st1 := log_syscall (WriteFile p data) (log_syscall (Mkdir p) st) in
        match fault st (WriteFile p data) with
        | Some errno =>
            (Throw (ChangeTrackerError HISTORY_WRITE_ERROR
                      "Failed to save change history"
                      (Some (SystemError errno (WriteFile p data)))),
             if torn st (WriteFile p data)
             then set_disk <[p := Malformed]> st1 else st1)
        | None => (Normal tt, set_disk <[p := data]> st1)
        end
    end.
Proof.
  intros Hp Hne. unfold saveHistory. rewrite run_bind. unfold gets.
  rewrite Hp. destruct p as [|a p]; [done|].
  unfold try_catch, mkdir_dirname. rewrite run_bind. unfold perform.
  destruct (fault st (Mkdir (String a p))); [done|].
  rewrite writeFile_run. cbn [fault torn log_syscall].
  by destruct (fault st (WriteFile (String a p) (JSON_stringify fps))).
Qed.

(** ** [trackChanges] with tracking enabled *)

(** Once the history is loaded and every record has a buffer, a run
    comes down to [saveHistory] in the state the two loops leave. *)
Lemma trackChanges_enabled (st st1 : State) (files : FileDataCollection)
    (h : json) :
  allocated st ->
  enabled (config st) = Some true ->
  loadHistory st = (Normal h, st1) ->
  (∀ path file, files !! path = Some file -> contents file ≠ Undefined) ->
  h ≠ JNull ∨ files = ∅ ->
  trackChanges files st
  = (saveHistory (fingerprints files);; mret (fileStates st))
      (set_heap <[fileStates st := reconciled h files]> st1).
Proof.
  intros [m Hm] Hen Hload Hok Hh.
  destruct (loadHistory_inv _ _ _ Hload) as (p & Hp & Hne & ->).
  unfold trackChanges. rewrite run_bind. unfold gets at 1.
  rewrite Hen. cbn [default from_option id negb].
  rewrite run_bind, Hload.
  rewrite run_bind, reduce_fingerprints by done.
  rewrite run_bind. unfold gets at 1. cbn [fileStates log_syscall].
  rewrite run_bind. unfold Map_keys at 1, gets at 1.
  cbn [heap log_syscall]. rewrite lookup_total_alt, Hm.
  cbn [default from_option id].
  rewrite run_bind.
  rewrite (drop_deleted_run files (fileStates st) _ m) by done.
  rewrite run_bind.
  set (m0 := filter (fun kv => is_Some (files !! kv.1)) m).
  assert (for_each (Object_entries files)
            (fun '(filepath, file) =>
               previousFingerprint ← lift (get_property h filepath);
               Map_set (fileStates st) filepath
                 (reconcile previousFingerprint
                    (Object_get (fingerprints files) filepath)))
            (set_heap <[fileStates st := m0]> (log_syscall (ReadFile p) st))
          = (Normal tt,
             set_heap <[fileStates st := reconciled h files]>
               (log_syscall (ReadFile p) st))) as ->; [|done].
  destruct Hh as [Hh | ->].
  - rewrite (set_state_list _ h _ _ m0) by (done || apply lookup_insert_eq).
    f_equal. unfold set_heap. cbn. f_equal.
    rewrite insert_insert_eq. f_equal. apply reconciled_spec.
  - unfold Object_entries. rewrite map_to_list_empty. cbn [for_each].
    unfold mret, M_ret. f_equal. unfold set_heap. cbn. do 2 f_equal.
    unfold reconciled. rewrite map_imap_empty. subst m0.
    apply map_eq. intros k. rewrite lookup_empty.
    apply map_lookup_filter_None. right. intros x _ [y Hy]. simpl in Hy.
    by rewrite lookup_empty in Hy.
Qed.

Lemma trackChanges_unset (st : State) (files : FileDataCollection) :
  enabled (config st) = Some true ->
  historyPath (config st) = None ∨ historyPath (config st) = Some EmptyString ->
  trackChanges files st
  = (Throw (ChangeTrackerError HISTORY_PATH_NOT_SET
              "History path must be set to track changes" None), st).
Proof.
  intros Hen Hp. unfold trackChanges. rewrite run_bind. unfold gets at 1.
  rewrite Hen. cbn [default from_option id negb].
  by rewrite run_bind, loadHistory_unset.
Qed.

Lemma trackChanges_invalid (st st1 : State) (files : FileDataCollection)
    (h : json) (path : string) (file : HasContents) :
  enabled (config st) = Some true ->
  loadHistory st = (Normal h, st1) ->
  files !! path = Some file -> contents file = Undefined ->
  trackChanges files st = (Throw (TypeError "ERR_INVALID_ARG_TYPE"), st1).
Proof.
  intros Hen Hload Hin Hc. unfold trackChanges.
  rewrite run_bind. unfold gets at 1.
  rewrite Hen. cbn [default from_option id negb].
  rewrite run_bind, Hload.
  by rewrite run_bind, (reduce_fingerprints_throw files st1 path file).
Qed.

Lemma trackChanges_null (st st1 : State) (files : FileDataCollection)
    (m : FileStates) :
  heap st !! fileStates st = Some m ->
  enabled (config st) = Some true ->
  loadHistory st = (Normal JNull, st1) ->
  (∀ path file, files !! path = Some file -> contents file ≠ Undefined) ->
  files ≠ ∅ ->
  trackChanges files st
  = (Throw (TypeError "Cannot read properties of null"),
     set_heap
       <[fileStates st := filter (fun kv => is_Some (files !! kv.1)) m]> st1).
Proof.
  intros Hm Hen Hload Hok Hfiles.
  destruct (loadHistory_inv _ _ _ Hload) as (p & Hp & Hne & ->).
  unfold trackChanges. rewrite run_bind. unfold gets at 1.
  rewrite Hen. cbn [default from_option id negb].
  rewrite run_bind, Hload.
  rewrite run_bind, reduce_fingerprints by done.
  rewrite run_bind. unfold gets at 1. cbn [fileStates log_syscall].
  rewrite run_bind. unfold Map_keys at 1, gets at 1.
  cbn [heap log_syscall]. rewrite lookup_total_alt, Hm.
  cbn [default from_option id].
  rewrite run_bind.
  rewrite (drop_deleted_run files (fileStates st) _ m) by done.
  rewrite run_bind. unfold Object_entries.
  destruct (map_to_list files) as [|entry entries] eqn:Hentries.
  - by apply map_to_list_empty_iff in Hentries.
  - by rewrite set_state_null.
Qed.

(** ** [trackChanges] with tracking disabled *)

Lemma foldl_untracked_lookup (u : FileChangeState) (keys : list string)
    (m : FileStates) (k : string) :
  foldl (fun acc e => <[e.1 := e.2]> acc) m
    ((fun filepath => (filepath, u)) <$> keys) !! k
  = if decide (k ∈ keys) then Some u else m !! k.
Proof.
  revert m. induction keys as [|k0 keys IH]; intros m.
  - cbn. rewrite decide_False; [done|]. apply not_elem_of_nil.
  - rewrite fmap_cons. cbn [foldl fst snd]. rewrite IH.
    destruct (decide (k = k0)) as [->|Hne].
    + rewrite lookup_insert_eq.
      rewrite (decide_True (P := k0 ∈ k0 :: keys)) by left.
      by case_decide.
    + rewrite lookup_insert_ne by congruence.
      case_decide as Hk.
      * by rewrite decide_True by by right.
      * rewrite decide_False; [done|]. rewrite elem_of_cons. tauto.
Qed.

Lemma trackChanges_disabled (st : State) (files : FileDataCollection) :
  enabled (config st) ≠ Some true ->
  trackChanges files st
  = (Normal (fresh (dom (heap st))),
     set_heap
       <[fresh (dom (heap st)) :=
           (fun _ => {| status := untracked; previousFingerprint := None |})
           <$> files]>
       st).
Proof.
  intros Hen. unfold trackChanges. rewrite run_bind. unfold gets at 1.
  assert (default false (enabled (config st)) = false) as ->.
  { by destruct (enabled (config st)) as [[]|]. }
  cbn [negb]. unfold Map_new. do 3 f_equal.
  apply map_eq. intros k. rewrite foldl_untracked_lookup, lookup_fmap.
  unfold Object_keys. case_decide as Hk.
  - apply list_elem_of_fmap in Hk as ([k' f] & -> & Hk).
    apply elem_of_map_to_list in Hk. simpl. by rewrite Hk.
  - destruct (files !! k) as [f|] eqn:Hf; [|by rewrite lookup_empty].
    exfalso. apply Hk. apply list_elem_of_fmap.
    exists (k, f). split; [done|]. by apply elem_of_map_to_list.
Qed.

(** ** Every run, case by case *)

Lemma contents_cases (files : FileDataCollection) :
  (∀ path file, files !! path = Some file -> contents file ≠ Undefined)
  ∨ (∃ path file, files !! path = Some file ∧ contents file = Undefined).
Proof.
  induction files as [|k f files Hk IH] using map_ind.
  - left. intros path file. by rewrite lookup_empty.
  - destruct (contents f) as [bytes|] eqn:Hf.
    + destruct IH as [IH | (path & file & Hin & Hc)].
      * left. intros path file.
        destruct (decide (path = k)) as [->|Hne].
        -- rewrite lookup_insert_eq. intros [= <-]. by rewrite Hf.
        -- rewrite lookup_insert_ne by congruence. apply IH.
      * right. exists path, file. split; [|done].
        rewrite lookup_insert_ne; [done|]. intros <-. congruence.
    + right. exists k, f. by rewrite lookup_insert_eq.
Qed.

Lemma history_cases (h : json) (files : FileDataCollection) :
  (h ≠ JNull ∨ files = ∅) ∨ (h = JNull ∧ files ≠ ∅).
Proof.
  destruct (decide (files = ∅)) as [|Hfiles]; [by left; right|].
  destruct h; (by right) || (by left; left).
Qed.

(** What a run that returns has done. *)
Lemma trackChanges_enabled_Normal (st st' : State)
    (files : FileDataCollection) (l : loc) :
  allocated st ->
  enabled (config st) = Some true ->
  trackChanges files st = (Normal l, st') ->
  ∃ p h,
    historyPath (config st) = Some p ∧ p ≠ EmptyString ∧
    loadHistory st = (Normal h, log_syscall (ReadFile p) st) ∧
    (∀ path file, files !! path = Some file -> contents file ≠ Undefined) ∧
    (h ≠ JNull ∨ files = ∅) ∧
    l = fileStates st ∧
    st' = set_disk <[p := JSON_stringify (fingerprints files)]>
            (log_syscall (WriteFile p (JSON_stringify (fingerprints files)))
               (log_syscall (Mkdir p)
                  (set_heap <[fileStates st := reconciled h files]>
                     (log_syscall (ReadFile p) st)))).
Proof.
  intros Hal Hen Hrun.
  destruct (historyPath (config st)) as [p|] eqn:Hp; last first.
  { rewrite trackChanges_unset in Hrun by auto. done. }
  destruct (decide (p = EmptyString)) as [->|Hne].
  { rewrite trackChanges_unset in Hrun by auto. done. }
  pose proof (loadHistory_set st p Hp Hne) as Hload.
  set (h := match fault st (ReadFile p), disk st !! p with
            | None, Some (Document value) => value
            | _, _ => JObject ∅
            end) in Hload.
  destruct (contents_cases files) as [Hok | (path & file & Hin & Hc)];
    last first.
  { rewrite (trackChanges_invalid _ _ _ _ _ _ Hen Hload Hin Hc) in Hrun.
    done. }
  destruct (history_cases h files) as [Hh | [Hnull Hfiles]]; last first.
  { rewrite Hnull in Hload. destruct Hal as [m Hm].
    rewrite (trackChanges_null _ _ _ _ Hm Hen Hload Hok Hfiles) in Hrun.
    done. }
  rewrite (trackChanges_enabled _ _ _ _ Hal Hen Hload Hok Hh) in Hrun.
  rewrite run_bind in Hrun.
  rewrite (saveHistory_set _ p) in Hrun by done.
  cbn [fault torn set_heap log_syscall] in Hrun.
  exists p, h. repeat split; try done;
    destruct (fault st (Mkdir p)); try done;
    destruct (fault st (WriteFile p (JSON_stringify (fingerprints files))));
    try done; unfold mret, M_ret in Hrun; by simplify_eq.
Qed.

(** No run changes the configuration, the [Map] the tracker points to or
    the behaviour of the file system, and none frees the tracker's map. *)
Lemma trackChanges_preserves (st st' : State) (files : FileDataCollection)
    (r : Completion loc) :
  allocated st ->
  trackChanges files st = (r, st') ->
  config st' = config st ∧ fileStates st' = fileStates st ∧
  fault st' = fault st ∧ allocated st'.
Proof.
  intros Hal Hrun.
  destruct (decide (enabled (config st) = Some true)) as [Hen|Hen]; last first.
  { rewrite trackChanges_disabled in Hrun by done. simplify_eq.
    repeat split. unfold allocated in *. cbn.
    rewrite lookup_insert_ne; [done|]. intros Heq.
    apply (is_fresh (dom (heap st))). rewrite Heq.
    by apply elem_of_dom. }
  destruct (historyPath (config st)) as [p|] eqn:Hp; last first.
  { rewrite trackChanges_unset in Hrun by auto. by simplify_eq. }
  destruct (decide (p = EmptyString)) as [->|Hne].
  { rewrite trackChanges_unset in Hrun by auto. by simplify_eq. }
  pose proof (loadHistory_set st p Hp Hne) as Hload.
  set (h := match fault st (ReadFile p), disk st !! p with
            | None, Some (Document value) => value
            | _, _ => JObject ∅
            end) in Hload.
  destruct (contents_cases files) as [Hok | (path & file & Hin & Hc)];
    last first.
  { rewrite (trackChanges_invalid _ _ _ _ _ _ Hen Hload Hin Hc) in Hrun.
    by simplify_eq. }
  destruct (history_cases h files) as [Hh | [Hnull Hfiles]].
  - rewrite (trackChanges_enabled _ _ _ _ Hal Hen Hload Hok Hh) in Hrun.
    rewrite run_bind in Hrun.
    rewrite (saveHistory_set _ p) in Hrun by done.
    cbn [fault torn set_heap log_syscall] in Hrun.
    destruct (fault st (Mkdir p));
      [|destruct (fault st (WriteFile p (JSON_stringify (fingerprints files))));
        [destruct (torn st (WriteFile p (JSON_stringify (fingerprints files))))
        |]];
      unfold mret, M_ret in Hrun; simplify_eq; repeat split;
      unfold allocated; cbn; by rewrite lookup_insert_eq.
  - rewrite Hnull in Hload. destruct Hal as [m Hm].
    rewrite (trackChanges_null _ _ _ _ Hm Hen Hload Hok Hfiles) in Hrun.
    simplify_eq. repeat split. unfold allocated. cbn.
    by rewrite lookup_insert_eq.
Qed.

(** ** The tracker's map stays allocated *)

Lemma constructor_allocated (cfg : ChangeTrackerConfig)
    (files : gmap string Text) (faults : Syscall -> option Errno)
    (tears : Syscall -> bool) :
  allocated (constructor cfg files faults tears).
Proof. exists ∅. reflexivity. Qed.

Lemma enable_allocated (options : bool + ChangeTrackerOptions) (st : State) :
  allocated st -> allocated (after (enable options) st).
Proof. by destruct options. Qed.

Lemma Map_set_allocated (l : loc) (key : string) (value : FileChangeState)
    (st : State) :
  allocated st -> allocated (after (Map_set l key value) st).
Proof.
  intros Hal. unfold allocated, after. cbn.
  destruct (decide (l = fileStates st)) as [->|Hne].
  - by rewrite lookup_insert_eq.
  - by rewrite lookup_insert_ne.
Qed.

Lemma Map_delete_allocated (l : loc) (key : string) (st : State) :
  allocated st -> allocated (after (Map_delete l key) st).
Proof.
  intros Hal. unfold allocated, after. cbn.
  destruct (decide (l = fileStates st)) as [->|Hne].
  - by rewrite lookup_insert_eq.
  - by rewrite lookup_insert_ne.
Qed.

(** ** [getFileState] and [clearHistory] *)

Lemma getFileState_run (path : string) (st : State) :
  getFileState path st
  = (Normal (Map_contents (fileStates st) st !! path), st).
Proof. reflexivity. Qed.

Lemma clearHistory_unset (st : State) :
  historyPath (config st) = None ∨ historyPath (config st) = Some EmptyString ->
  clearHistory st
  = (Throw (ChangeTrackerError HISTORY_PATH_NOT_SET
              "History path must be set to clear history" None), st).
Proof.
  intros Hp. unfold clearHistory. rewrite run_bind. unfold gets.
  by destruct Hp as [-> | ->].
Qed.

Lemma clearHistory_set (st : State) (p : string) :
  historyPath (config st) = Some p -> p ≠ EmptyString ->
  clearHistory st
  = match fault st (Rm p) with
    | Some errno =>
        (Throw (ChangeTrackerError HISTORY_WRITE_ERROR
                  "Failed to clear change history"
                  (Some (SystemError errno (Rm p)))),
         log_syscall (Rm p) st)
    | None =>
        (Normal tt,
         set_heap <[fileStates st := ∅]>
           (set_disk (delete p) (log_syscall (Rm p) st)))
    end.
Proof.
  intros Hp Hne. unfold clearHistory. rewrite run_bind. unfold gets.
  rewrite Hp. destruct p as [|a p]; [done|].
  unfold try_catch, rm_force. rewrite !run_bind. unfold perform.
  destruct (fault st (Rm (String a p))); done.
Qed.

Lemma clearHistory_allocated (st : State) :
  allocated st -> allocated (after clearHistory st).
Proof.
  intros Hal. unfold after.
  destruct (historyPath (config st)) as [p|] eqn:Hp; last first.
  { by rewrite clearHistory_unset by auto. }
  destruct (decide (p = EmptyString)) as [->|Hne].
  { by rewrite clearHistory_unset by auto. }
  rewrite (clearHistory_set st p Hp Hne).
  destruct (fault st (Rm p)); [done|].
  unfold allocated. cbn. by rewrite lookup_insert_eq.
Qed.

(** * The claims *)

(** C1, as amended.  With tracking disabled, [trackChanges] returns a
    map that gives every input path, and no other, the status
    [untracked] with no previous fingerprint; it makes no call into the
    file system and leaves the disk as it was; and the map is a new
    object, the runtime state staying as it was, so that [getFileState]
    answers after the call what it answered before. *)
Theorem disabled_run_is_bypass (st : State) (files : FileDataCollection) :
  allocated st ->
  enabled (config st) ≠ Some true ->
  ∃ l st',
    trackChanges files st = (Normal l, st') ∧
    (∀ path,
       Map_contents l st' !! path
       = (fun _ => {| status := untracked; previousFingerprint := None |})
         <$> files !! path) ∧
    disk st' = disk st ∧ syscalls st' = syscalls st ∧
    l ≠ fileStates st' ∧
    ∀ path, completion (getFileState path) st'
            = completion (getFileState path) st.
Proof.
  intros Hal Hen. eexists _, _. split; [by apply trackChanges_disabled|].
  assert (fresh (dom (heap st)) ≠ fileStates st) as Hfresh.
  { intros Heq. apply (is_fresh (dom (heap st))). rewrite Heq.
    by apply elem_of_dom. }
  repeat split; try done.
  - intros path. unfold Map_contents. cbn.
    by rewrite lookup_total_insert_eq, lookup_fmap.
  - intros path. unfold completion. rewrite !getFileState_run.
    unfold Map_contents. cbn. by rewrite lookup_total_insert_ne.
Qed.

(** A tracker built with [enabled: false], given [a.txt]. *)
Lemma disabled_run_is_bypass_witness :
  allocated disabled_tracker ∧
  enabled (config disabled_tracker) ≠ Some true ∧
  ∃ l st',
    trackChanges files_x disabled_tracker = (Normal l, st') ∧
    (∀ path,
       Map_contents l st' !! path
       = (fun _ => {| status := untracked; previousFingerprint := None |})
         <$> files_x !! path) ∧
    disk st' = disk disabled_tracker ∧
    syscalls st' = syscalls disabled_tracker ∧
    l ≠ fileStates st' ∧
    ∀ path, completion (getFileState path) st'
            = completion (getFileState path) disabled_tracker.
Proof.
  assert (allocated disabled_tracker) as Hal by (exists ∅; reflexivity).
  assert (enabled (config disabled_tracker) ≠ Some true) as Hen
    by (vm_compute; discriminate).
  exact (conj Hal (conj Hen
    (disabled_run_is_bypass disabled_tracker files_x Hal Hen))).
Defined.

(** C1, as stated, fails: a tracker built with [enabled: false] reports
    [a.txt] as untracked in the map it returns, and [getFileState] on
    that path still finds nothing. *)
Lemma disabled_run_not_recorded :
  files_x !! "a.txt"%string = Some (file_of "x") ∧
  completion (trackChanges files_x) disabled_tracker = Normal 2%positive ∧
  Map_contents 2%positive (after (trackChanges files_x) disabled_tracker)
    !! "a.txt"%string
  = Some {| status := untracked; previousFingerprint := None |} ∧
  completion (getFileState "a.txt")
    (after (trackChanges files_x) disabled_tracker)
  = Normal None.
Proof. repeat split; vm_compute; reflexivity. Qed.

(** C2.  A record whose contents are no buffer makes [createFingerprint]
    throw the [TypeError] of [hash.update]; an enabled run with a history
    path then ends with that very error, having only read the history
    file: the disk, every [Map] and so every answer of [getFileState]
    are as before the call. *)
Theorem invalid_contents_abort_run (st : State) (files : FileDataCollection)
    (p path : string) (file : HasContents) :
  enabled (config st) = Some true ->
  historyPath (config st) = Some p -> p ≠ EmptyString ->
  files !! path = Some file ->
  (∀ bytes, contents file ≠ Buffer bytes) ->
  createFingerprint file = Throw (TypeError "ERR_INVALID_ARG_TYPE") ∧
  ∃ st',
    trackChanges files st = (Throw (TypeError "ERR_INVALID_ARG_TYPE"), st') ∧
    disk st' = disk st ∧
    syscalls st' = syscalls st ++ [ReadFile p] ∧
    heap st' = heap st ∧
    ∀ q, completion (getFileState q) st' = completion (getFileState q) st.
Proof.
  intros Hen Hp Hne Hin Hc.
  assert (contents file = Undefined) as Hu.
  { destruct (contents file) as [bytes|]; [by destruct (Hc bytes)|done]. }
  split; [unfold createFingerprint; by rewrite Hu|].
  exists (log_syscall (ReadFile p) st). split; [|done].
  eapply trackChanges_invalid; [done| |done..].
  by apply loadHistory_set.
Qed.

(** The input of the test "should handle invalid file contents", next to a
    valid record. *)
Lemma invalid_contents_abort_run_witness :
  enabled (config fresh_tracker) = Some true ∧
  historyPath (config fresh_tracker) = Some history_json ∧
  history_json ≠ EmptyString ∧
  files_invalid !! "test.txt"%string = Some {| contents := Undefined |} ∧
  (∀ bytes, contents {| contents := Undefined |} ≠ Buffer bytes) ∧
  createFingerprint {| contents := Undefined |}
  = Throw (TypeError "ERR_INVALID_ARG_TYPE") ∧
  ∃ st',
    trackChanges files_invalid fresh_tracker
    = (Throw (TypeError "ERR_INVALID_ARG_TYPE"), st') ∧
    disk st' = disk fresh_tracker ∧
    syscalls st' = syscalls fresh_tracker ++ [ReadFile history_json] ∧
    heap st' = heap fresh_tracker ∧
    ∀ q, completion (getFileState q) st'
         = completion (getFileState q) fresh_tracker.
Proof.
  assert (enabled (config fresh_tracker) = Some true) as Hen by reflexivity.
  assert (historyPath (config fresh_tracker) = Some history_json) as Hp
    by reflexivity.
  assert (history_json ≠ EmptyString) as Hne by discriminate.
  assert (files_invalid !! "test.txt"%string
          = Some {| contents := Undefined |}) as Hin
    by (vm_compute; reflexivity).
  assert (∀ bytes, contents {| contents := Undefined |} ≠ Buffer bytes) as Hc
    by (intros bytes; discriminate).
  exact (conj Hen (conj Hp (conj Hne (conj Hin (conj Hc
    (invalid_contents_abort_run fresh_tracker files_invalid history_json
       "test.txt" {| contents := Undefined |} Hen Hp Hne Hin Hc)))))).
Defined.

(** C8.  When the history path is the empty string or absent, an enabled
    [trackChanges] and [clearHistory] both throw [HISTORY_PATH_NOT_SET]
    and leave the whole state as it was: no call into the file system is
    made and nothing on disk changes.  The same holds of [loadHistory]
    and [saveHistory]. *)
Theorem no_history_path_no_io (st : State) (files : FileDataCollection)
    (fingerprints : FileFingerprints) :
  historyPath (config st) = None ∨ historyPath (config st) = Some EmptyString ->
  (enabled (config st) = Some true ->
   trackChanges files st
   = (Throw (ChangeTrackerError HISTORY_PATH_NOT_SET
               "History path must be set to track changes" None), st)) ∧
  clearHistory st
  = (Throw (ChangeTrackerError HISTORY_PATH_NOT_SET
              "History path must be set to clear history" None), st) ∧
  loadHistory st
  = (Throw (ChangeTrackerError HISTORY_PATH_NOT_SET
              "History path must be set to track changes" None), st) ∧
  saveHistory fingerprints st
  = (Throw (ChangeTrackerError HISTORY_PATH_NOT_SET
              "History path must be set to track changes" None), st).
Proof.
  intros Hp. repeat split.
  - intros Hen. by apply trackChanges_unset.
  - by apply clearHistory_unset.
  - by apply loadHistory_unset.
  - by apply saveHistory_unset.
Qed.

(** A tracker built with the empty string as history path. *)
Lemma no_history_path_no_io_witness :
  (historyPath (config pathless_tracker) = None
   ∨ historyPath (config pathless_tracker) = Some EmptyString) ∧
  enabled (config pathless_tracker) = Some true ∧
  trackChanges files_x pathless_tracker
  = (Throw (ChangeTrackerError HISTORY_PATH_NOT_SET
              "History path must be set to track changes" None),
     pathless_tracker) ∧
  clearHistory pathless_tracker
  = (Throw (ChangeTrackerError HISTORY_PATH_NOT_SET
              "History path must be set to clear history" None),
     pathless_tracker) ∧
  syscalls pathless_tracker = [].
Proof.
  assert (historyPath (config pathless_tracker) = None
          ∨ historyPath (config pathless_tracker) = Some EmptyString) as Hp
    by (right; reflexivity).
  assert (enabled (config pathless_tracker) = Some true) as Hen
    by reflexivity.
  destruct (no_history_path_no_io pathless_tracker files_x ∅ Hp)
    as (Htrack & Hclear & _).
  exact (conj Hp (conj Hen (conj (Htrack Hen) (conj Hclear eq_refl)))).
Defined.

(** C10.  A [clearHistory] that throws [HISTORY_WRITE_ERROR] was refused
    the removal of the history file, wraps the error of that call, and
    has cleared nothing: every [Map], the disk and every answer of
    [getFileState] are as before the call. *)
Theorem failed_clear_keeps_runtime_state (st st' : State) (message : string)
    (cause : option Exception) :
  clearHistory st
  = (Throw (ChangeTrackerError HISTORY_WRITE_ERROR message cause), st') ->
  (∃ p errno,
     historyPath (config st) = Some p ∧ fault st (Rm p) = Some errno ∧
     cause = Some (SystemError errno (Rm p))) ∧
  heap st' = heap st ∧ fileStates st' = fileStates st ∧
  disk st' = disk st ∧
  ∀ path, completion (getFileState path) st'
          = completion (getFileState path) st.
Proof.
  intros Hclear.
  destruct (historyPath (config st)) as [p|] eqn:Hp; last first.
  { rewrite clearHistory_unset in Hclear by auto. done. }
  destruct (decide (p = EmptyString)) as [->|Hne].
  { rewrite clearHistory_unset in Hclear by auto. done. }
  rewrite (clearHistory_set st p Hp Hne) in Hclear.
  destruct (fault st (Rm p)) as [errno|] eqn:Hfault; [|done].
  simplify_eq. split; [by exists p, errno|done].
Qed.

(** A tracker that has seen [a.txt] and may not remove its history file. *)
Lemma failed_clear_keeps_runtime_state_witness :
  clearHistory undeletable_tracker
  = (Throw (ChangeTrackerError HISTORY_WRITE_ERROR
              "Failed to clear change history"
              (Some (SystemError EACCES (Rm history_json)))),
     log_syscall (Rm history_json) undeletable_tracker) ∧
  completion (getFileState "a.txt") undeletable_tracker
  = Normal (Some {| status := new; previousFingerprint := None |}) ∧
  completion (getFileState "a.txt")
    (log_syscall (Rm history_json) undeletable_tracker)
  = completion (getFileState "a.txt") undeletable_tracker.
Proof.
  assert (clearHistory undeletable_tracker
          = (Throw (ChangeTrackerError HISTORY_WRITE_ERROR
                      "Failed to clear change history"
                      (Some (SystemError EACCES (Rm history_json)))),
             log_syscall (Rm history_json) undeletable_tracker)) as Hclear
    by (vm_compute; reflexivity).
  assert (completion (getFileState "a.txt") undeletable_tracker
          = Normal (Some {| status := new; previousFingerprint := None |}))
    as Hbefore by (vm_compute; reflexivity).
  exact (conj Hclear (conj Hbefore
    (proj2 (proj2 (proj2 (proj2
       (failed_clear_keeps_runtime_state _ _ _ _ Hclear)))) "a.txt"%string))).
Defined.

(** ** Fingerprints and reconciliation *)

Lemma digest_hex_nonempty (bytes : list byte) :
  MD5.digest_hex bytes ≠ EmptyString.
Proof.
  unfold MD5.digest_hex.
  destruct (MD5.digest _) as [[[a b] c] d]. discriminate.
Qed.

Lemma fingerprints_lookup (files : FileDataCollection) (path : string) :
  fingerprints files !! path
  = if decide (path = "__proto__"%string) then None
    else files !! path ≫= fun file => completed (createFingerprint file).
Proof.
  unfold fingerprints. case_decide as Hp.
  - subst path. apply lookup_delete_eq.
  - rewrite lookup_delete_ne by done. apply lookup_omap.
Qed.

(** What [newFingerprints[filepath]] gives for an input path: the digest
    of its buffer, and under [__proto__] the object [Object.prototype]. *)
Lemma current_fingerprint (files : FileDataCollection) (path : string)
    (file : HasContents) (bytes : list byte) :
  files !! path = Some file -> contents file = Buffer bytes ->
  Object_get (fingerprints files) path
  = Some (if decide (path = "__proto__"%string)
          then Prototype Object_prototype
          else Parsed (JString (MD5.digest_hex bytes))).
Proof.
  intros Hin Hc. rewrite Object_get_lookup, fingerprints_lookup.
  case_decide as Hp.
  - by subst path.
  - rewrite Hin. cbn. unfold createFingerprint. by rewrite Hc.
Qed.

Lemma reconciled_lookup (h : json) (files : FileDataCollection)
    (path : string) :
  reconciled h files !! path
  = (fun _ =>
       reconcile (property h path) (Object_get (fingerprints files) path))
    <$> files !! path.
Proof.
  unfold reconciled. rewrite map_lookup_imap.
  by destruct (files !! path).
Qed.

Lemma truthy_falsy (v : option value) : truthy v = false ↔ falsy v.
Proof.
  unfold falsy. split.
  - destruct v as [[[|[]|n|s| |]| |]|]; cbn; try done; auto 6.
    + intros Hn. apply negb_false_iff, Z.eqb_eq in Hn. subst n. auto 6.
    + intros Hs. apply negb_false_iff, String.eqb_eq in Hs. subst s. auto 6.
  - by intros [->|[->|[->|[->| ->]]]].
Qed.

Lemma reconcile_falsy (previous current : option value) :
  falsy previous ->
  reconcile previous current
  = {| status := new; previousFingerprint := None |}.
Proof.
  intros Hf. apply truthy_falsy in Hf. unfold reconcile. by rewrite Hf.
Qed.

Lemma reconcile_modified (old current : string) :
  old ≠ EmptyString -> old ≠ current ->
  reconcile (Some (Parsed (JString old))) (Some (Parsed (JString current)))
  = {| status := modified;
       previousFingerprint := Some (Parsed (JString old)) |}.
Proof.
  intros Hne Hdiff. unfold reconcile, truthy, strict_neq.
  apply String.eqb_neq in Hne, Hdiff. by rewrite Hne, Hdiff.
Qed.

Lemma reconcile_unchanged (current : string) :
  current ≠ EmptyString ->
  reconcile (Some (Parsed (JString current)))
    (Some (Parsed (JString current)))
  = {| status := unchanged;
       previousFingerprint := Some (Parsed (JString current)) |}.
Proof.
  intros Hne. unfold reconcile, truthy, strict_neq.
  apply String.eqb_neq in Hne. by rewrite Hne, String.eqb_refl.
Qed.

Lemma reconcile_previous (previous current : option value) :
  is_Some (previousFingerprint (reconcile previous current))
  ↔ status (reconcile previous current) = modified
    ∨ status (reconcile previous current) = unchanged.
Proof.
  unfold reconcile. destruct (truthy previous) eqn:Ht; simpl.
  - split.
    + intros _. destruct (strict_neq previous current); auto.
    + intros _. destruct previous; [eauto|done].
  - split; [by intros [? ?]|]. by intros [?|?].
Qed.

(** The state of a path when the history is the empty object. *)
Lemma reconcile_fresh_start (files : FileDataCollection) (path : string)
    (file : HasContents) (bytes : list byte) :
  files !! path = Some file -> contents file = Buffer bytes ->
  reconcile (property (JObject ∅) path)
    (Object_get (fingerprints files) path)
  = fresh_start path.
Proof.
  intros Hin Hc. rewrite (current_fingerprint _ _ _ _ Hin Hc).
  rewrite property_object, lookup_empty, inherited_name_spec.
  unfold fresh_start. case_decide as Hp.
  - subst path. reflexivity.
  - apply String.eqb_neq in Hp. rewrite Hp.
    by destruct (has_method Object_prototype path).
Qed.

Lemma reconciled_fresh_start (files : FileDataCollection) (path : string) :
  (∀ path file, files !! path = Some file -> contents file ≠ Undefined) ->
  reconciled (JObject ∅) files !! path
  = (fun _ => fresh_start path) <$> files !! path.
Proof.
  intros Hok. rewrite reconciled_lookup.
  destruct (files !! path) as [file|] eqn:Hin; [|done]. cbn.
  pose proof (Hok path file Hin) as Hbuf.
  destruct (contents file) as [bytes|] eqn:Hc; [|done].
  f_equal. by apply (reconcile_fresh_start files path file bytes).
Qed.

Lemma fresh_start_new (path : string) :
  inherited_name path = false ->
  fresh_start path = {| status := new; previousFingerprint := None |}.
Proof.
  unfold inherited_name, fresh_start.
  by intros [-> ->]%orb_false_elim.
Qed.

(** C3, where the code departs from it.  A new tracker with no history
    file is given one file, named [constructor].  The history it loads
    is the empty object, which has no fingerprint for that path, so the
    state of the path should be [new] with no previous fingerprint.
    [trackChanges] reads [loadedHistory["constructor"]], finds the
    function that every object inherits under that name, and reports
    the path [modified] with that function as its previous fingerprint.
    In the same way a file named [__proto__] is reported [unchanged] on
    a second run, with [Object.prototype] as previous fingerprint,
    although its contents have changed and the history that run loaded
    has no fingerprint for the path. *)
Theorem inherited_path_is_reported_modified :
  files_constructor !! "constructor"%string = Some (file_of "x") ∧
  completion loadHistory fresh_tracker = Normal (JObject ∅) ∧
  own_property (JObject ∅) "constructor" = None ∧
  completion (trackChanges files_constructor;; getFileState "constructor")
    fresh_tracker
  = Normal (Some {| status := modified;
                    previousFingerprint :=
                      Some (Method Object_prototype "constructor") |}) ∧
  files_proto !! "__proto__"%string = Some (file_of "x") ∧
  files_proto_y !! "__proto__"%string = Some (file_of "y") ∧
  createFingerprint (file_of "x") ≠ createFingerprint (file_of "y") ∧
  completion (trackChanges files_proto;; loadHistory) fresh_tracker
  = Normal history_x ∧
  own_property history_x "__proto__" = None ∧
  completion (trackChanges files_proto;; trackChanges files_proto_y;;
              getFileState "__proto__") fresh_tracker
  = Normal (Some {| status := unchanged;
                    previousFingerprint :=
                      Some (Prototype Object_prototype) |}).
Proof. repeat split; vm_compute; (reflexivity || discriminate). Qed.

(** C4, where the code departs from it.  A new tracker is given two
    files, [__proto__] and [a.txt], both with a buffer.  The run
    returns, and the history file it has written maps [a.txt] to its
    digest and has nothing for [__proto__]: the assignment
    [acc["__proto__"] = fingerprint] reached the setter of
    [Object.prototype] and stored nothing, so that input path is missing
    from the persisted history. *)
Theorem proto_path_is_not_saved :
  files_proto !! "__proto__"%string = Some (file_of "x") ∧
  files_proto !! "a.txt"%string = Some (file_of "x") ∧
  createFingerprint (file_of "x")
  = Normal "9dd4e461268c8034f5c8564e155c67a6"%string ∧
  completion (trackChanges files_proto) fresh_tracker = Normal 1%positive ∧
  disk (after (trackChanges files_proto) fresh_tracker) !! history_json
  = Some (Document history_x) ∧
  history_x
  = JObject {[ "a.txt"%string := JString "9dd4e461268c8034f5c8564e155c67a6" ]} ∧
  own_property history_x "__proto__" = None.
Proof. repeat split; vm_compute; reflexivity. Qed.

(** C5.  Of two consecutive enabled runs, let the second return.  A path
    that the first run was given and the second was not is absent from
    the map the second run returns, and [getFileState] finds nothing
    under it afterwards. *)
Theorem deleted_path_is_pruned (st0 st1 st2 : State)
    (files1 files2 : FileDataCollection) (r1 : Completion loc) (l : loc)
    (path : string) :
  allocated st0 ->
  enabled (config st0) = Some true ->
  trackChanges files1 st0 = (r1, st1) ->
  trackChanges files2 st1 = (Normal l, st2) ->
  is_Some (files1 !! path) ->
  files2 !! path = None ->
  Map_contents l st2 !! path = None ∧
  getFileState path st2 = (Normal None, st2).
Proof.
  intros Hal Hen Hrun1 Hrun2 _ Hnone.
  destruct (trackChanges_preserves _ _ _ _ Hal Hrun1)
    as (Hcfg & _ & _ & Hal1).
  rewrite <- Hcfg in Hen.
  destruct (trackChanges_enabled_Normal _ _ _ _ Hal1 Hen Hrun2)
    as (p & h & Hp & Hne & Hload & Hok & Hh & -> & ->).
  rewrite getFileState_run. unfold Map_contents. cbn.
  rewrite lookup_total_insert_eq, reconciled_lookup, Hnone. done.
Qed.

(** [a.txt] is given to the first run and not to the second. *)
Lemma deleted_path_is_pruned_witness :
  allocated fresh_tracker ∧
  enabled (config fresh_tracker) = Some true ∧
  trackChanges files_x fresh_tracker = (Normal 1%positive, seen_x) ∧
  trackChanges files_b seen_x
  = (Normal 1%positive, after (trackChanges files_b) seen_x) ∧
  is_Some (files_x !! "a.txt"%string) ∧
  files_b !! "a.txt"%string = None ∧
  Map_contents 1%positive (after (trackChanges files_b) seen_x)
    !! "a.txt"%string = None ∧
  getFileState "a.txt" (after (trackChanges files_b) seen_x)
  = (Normal None, after (trackChanges files_b) seen_x).
Proof.
  assert (allocated fresh_tracker) as Hal by (exists ∅; reflexivity).
  assert (enabled (config fresh_tracker) = Some true) as Hen by reflexivity.
  assert (trackChanges files_x fresh_tracker = (Normal 1%positive, seen_x))
    as Hrun1 by (vm_compute; reflexivity).
  assert (trackChanges files_b seen_x
          = (Normal 1%positive, after (trackChanges files_b) seen_x))
    as Hrun2 by (vm_compute; reflexivity).
  assert (is_Some (files_x !! "a.txt"%string)) as Hin
    by (eexists; vm_compute; reflexivity).
  assert (files_b !! "a.txt"%string = None) as Hout
    by (vm_compute; reflexivity).
  exact (conj Hal (conj Hen (conj Hrun1 (conj Hrun2 (conj Hin (conj Hout
    (deleted_path_is_pruned _ _ _ _ _ _ _ _
       Hal Hen Hrun1 Hrun2 Hin Hout))))))).
Defined.

(** C6, as amended.  With a history path configured, [loadHistory] never
    throws.  When the history file is missing, cannot be read or is not
    valid JSON it yields the empty object, and the run goes on: if every
    record has a buffer, the run returns or fails in [saveHistory], and
    either way the tracker's map holds exactly the input paths, each of
    them [new] with no previous fingerprint unless it names a property
    that the empty object inherits from [Object.prototype].  When the
    file can be read and is valid JSON, the value it denotes is the
    history, whatever its shape. *)
Theorem unreadable_history_is_fresh_start (st : State)
    (files : FileDataCollection) (p : string) :
  allocated st ->
  enabled (config st) = Some true ->
  historyPath (config st) = Some p -> p ≠ EmptyString ->
  (∃ h, loadHistory st = (Normal h, log_syscall (ReadFile p) st)) ∧
  (∀ value,
     fault st (ReadFile p) = None -> disk st !! p = Some (Document value) ->
     loadHistory st = (Normal value, log_syscall (ReadFile p) st)) ∧
  (fault st (ReadFile p) ≠ None ∨ disk st !! p = None
   ∨ disk st !! p = Some Malformed ->
   loadHistory st = (Normal (JObject ∅), log_syscall (ReadFile p) st) ∧
   ((∀ path file, files !! path = Some file -> contents file ≠ Undefined) ->
    ∃ r st',
      trackChanges files st = (r, st') ∧
      (r = Normal (fileStates st)
       ∨ ∃ cause, r = Throw (ChangeTrackerError HISTORY_WRITE_ERROR
                               "Failed to save change history" (Some cause))) ∧
      (∀ path,
         is_Some (Map_contents (fileStates st) st' !! path)
         ↔ is_Some (files !! path)) ∧
      ∀ path,
        inherited_name path = false ->
        Map_contents (fileStates st) st' !! path
        = (fun _ => {| status := new; previousFingerprint := None |})
          <$> files !! path)).
Proof.
  intros Hal Hen Hp Hne. split.
  { eexists. by apply loadHistory_set. }
  split.
  { intros value Hread Hdisk. rewrite (loadHistory_set st p Hp Hne).
    by rewrite Hread, Hdisk. }
  intros Hbad.
  assert (loadHistory st = (Normal (JObject ∅), log_syscall (ReadFile p) st))
    as Hload.
  { rewrite (loadHistory_set st p Hp Hne). do 2 f_equal.
    destruct (fault st (ReadFile p)); [done|].
    destruct Hbad as [?|[-> | ->]]; done. }
  split; [done|]. intros Hok.
  assert (JObject ∅ ≠ JNull ∨ files = ∅) as Hh by by left.
  rewrite (trackChanges_enabled _ _ _ _ Hal Hen Hload Hok Hh).
  rewrite run_bind, (saveHistory_set _ p) by done.
  cbn [fault torn set_heap log_syscall].
  assert (∀ path,
            is_Some (reconciled (JObject ∅) files !! path)
            ↔ is_Some (files !! path)) as Hdom.
  { intros path. rewrite reconciled_lookup. apply fmap_is_Some. }
  assert (∀ path,
            inherited_name path = false ->
            reconciled (JObject ∅) files !! path
            = (fun _ => {| status := new; previousFingerprint := None |})
              <$> files !! path) as Hnew.
  { intros path Hpath. rewrite (reconciled_fresh_start files path Hok).
    by rewrite (fresh_start_new path Hpath). }
  destruct (fault st (Mkdir p));
    [|destruct (fault st (WriteFile p (JSON_stringify (fingerprints files))));
      [destruct (torn st (WriteFile p (JSON_stringify (fingerprints files))))
      |]];
    eexists _, _; (split; [reflexivity|]); (split; [by eauto|]);
    (split; intros path; unfold Map_contents; cbn;
     rewrite lookup_total_insert_eq; [apply Hdom | apply Hnew]).
Qed.

(** A history file that is not JSON. *)
Lemma unreadable_history_is_fresh_start_witness :
  allocated corrupted_tracker ∧
  enabled (config corrupted_tracker) = Some true ∧
  historyPath (config corrupted_tracker) = Some history_json ∧
  history_json ≠ EmptyString ∧
  disk corrupted_tracker !! history_json = Some Malformed ∧
  loadHistory corrupted_tracker
  = (Normal (JObject ∅), log_syscall (ReadFile history_json) corrupted_tracker) ∧
  ((∀ path file, files_x !! path = Some file -> contents file ≠ Undefined) ->
    ∃ r st',
      trackChanges files_x corrupted_tracker = (r, st') ∧
      (r = Normal (fileStates corrupted_tracker)
       ∨ ∃ cause, r = Throw (ChangeTrackerError HISTORY_WRITE_ERROR
                               "Failed to save change history" (Some cause))) ∧
      (∀ path,
         is_Some (Map_contents (fileStates corrupted_tracker) st' !! path)
         ↔ is_Some (files_x !! path)) ∧
      ∀ path,
        inherited_name path = false ->
        Map_contents (fileStates corrupted_tracker) st' !! path
        = (fun _ => {| status := new; previousFingerprint := None |})
          <$> files_x !! path).
Proof.
  assert (allocated corrupted_tracker) as Hal by (exists ∅; reflexivity).
  assert (enabled (config corrupted_tracker) = Some true) as Hen
    by reflexivity.
  assert (historyPath (config corrupted_tracker) = Some history_json) as Hp
    by reflexivity.
  assert (history_json ≠ EmptyString) as Hne by discriminate.
  assert (disk corrupted_tracker !! history_json = Some Malformed) as Hbad
    by (vm_compute; reflexivity).
  exact (conj Hal (conj Hen (conj Hp (conj Hne (conj Hbad
    (proj2 (proj2 (unreadable_history_is_fresh_start corrupted_tracker
                     files_x history_json Hal Hen Hp Hne))
       (or_intror (or_intror Hbad)))))))).
Defined.

(** C6, as stated, fails: a history file that is valid JSON is used as
    parsed, whatever its shape.  With [{"a.txt": 42}] on disk the load
    yields that object, not an empty mapping, and [a.txt] is reported
    [modified] with previous fingerprint [42]; with [null] on disk the
    run throws a [TypeError]. *)
Lemma unvalidated_history_is_used :
  disk tampered_tracker !! history_json = Some (Document tampered_history) ∧
  completion loadHistory tampered_tracker = Normal tampered_history ∧
  completion (getFileState "a.txt")
    (after (trackChanges files_x) tampered_tracker)
  = Normal (Some {| status := modified;
                    previousFingerprint := Some (Parsed (JNumber 42)) |}) ∧
  completion (trackChanges files_x) null_history_tracker
  = Throw (TypeError "Cannot read properties of null").
Proof. repeat split; vm_compute; reflexivity. Qed.

(** C7.  Let an enabled run reach [saveHistory] and let the file system
    refuse to create the directory or to write the file.  The run throws
    [HISTORY_WRITE_ERROR] wrapping the error of the refused call, and
    [getFileState] already answers with the states of this run: for
    every input path the state built from what the loaded history has
    under the path and from the fingerprint just computed (under
    [__proto__], from [Object.prototype], which is what
    [newFingerprints] has there), and nothing for any other path.  On
    disk nothing has been recorded: every file is as before, or, when
    the write was refused after the file had been opened, the history
    file holds a part of the text. *)
Theorem failed_save_keeps_current_states (st st1 : State)
    (files : FileDataCollection) (h : json) (p : string) (errno : Errno)
    (call : Syscall) :
  allocated st ->
  enabled (config st) = Some true ->
  historyPath (config st) = Some p ->
  loadHistory st = (Normal h, st1) ->
  (∀ path file, files !! path = Some file -> contents file ≠ Undefined) ->
  h ≠ JNull ∨ files = ∅ ->
  (call = Mkdir p ∧ fault st call = Some errno)
  ∨ (call = WriteFile p (JSON_stringify (fingerprints files)) ∧
     fault st (Mkdir p) = None ∧ fault st call = Some errno) ->
  ∃ st',
    trackChanges files st
    = (Throw (ChangeTrackerError HISTORY_WRITE_ERROR
                "Failed to save change history"
                (Some (SystemError errno call))), st') ∧
    partly_written p (disk st) (disk st') ∧
    (call = Mkdir p ∨ torn st call = false -> disk st' = disk st) ∧
    (∀ path, files !! path = None ->
             completion (getFileState path) st' = Normal None) ∧
    ∀ path file,
      files !! path = Some file ->
      ∃ bytes,
        contents file = Buffer bytes ∧
        completion (getFileState path) st'
        = Normal (Some (reconcile (property h path)
                          (Some (if decide (path = "__proto__"%string)
                                 then Prototype Object_prototype
                                 else Parsed
                                        (JString (MD5.digest_hex bytes)))))).
Proof.
  intros Hal Hen Hp Hload Hok Hh Hfail.
  destruct (loadHistory_inv _ _ _ Hload) as (p' & Hp' & Hne & ->).
  assert (p' = p) as -> by congruence.
  rewrite (trackChanges_enabled _ _ _ _ Hal Hen Hload Hok Hh).
  rewrite run_bind, (saveHistory_set _ p) by done.
  cbn [fault torn set_heap log_syscall].
  assert (∀ s : State,
            heap s = <[fileStates st := reconciled h files]> (heap st) ->
            fileStates s = fileStates st ->
            (∀ path, files !! path = None ->
                     completion (getFileState path) s = Normal None) ∧
            ∀ path file,
              files !! path = Some file ->
              ∃ bytes,
                contents file = Buffer bytes ∧
                completion (getFileState path) s
                = Normal (Some (reconcile (property h path)
                                  (Some (if decide (path = "__proto__"%string)
                                         then Prototype Object_prototype
                                         else Parsed
                                                (JString
                                                   (MD5.digest_hex bytes)))))))
    as Hstates.
  { intros s Hheap Hfs. split.
    - intros path Hnone. unfold completion. rewrite getFileState_run.
      unfold Map_contents. rewrite Hheap, Hfs, lookup_total_insert_eq.
      by rewrite reconciled_lookup, Hnone.
    - intros path file Hin. pose proof (Hok path file Hin) as Hbuf.
      destruct (contents file) as [bytes|] eqn:Hc; [|done].
      exists bytes. split; [done|].
      unfold completion. rewrite getFileState_run.
      unfold Map_contents. rewrite Hheap, Hfs, lookup_total_insert_eq.
      rewrite reconciled_lookup, Hin. cbn.
      by rewrite (current_fingerprint _ _ _ _ Hin Hc). }
  destruct Hfail as [[-> Hmk] | (-> & Hmk & Hwr)].
  - rewrite Hmk. eexists. split; [reflexivity|].
    split; [by left|]. split; [done|]. by apply Hstates.
  - rewrite Hmk. cbn zeta. rewrite Hwr.
    destruct (torn st (WriteFile p (JSON_stringify (fingerprints files))))
      eqn:Htorn.
    + eexists. split; [reflexivity|]. split; [by right|].
      split; [by intros [?|?]|]. by apply Hstates.
    + eexists. split; [reflexivity|]. split; [by left|].
      split; [done|]. by apply Hstates.
Qed.

(** The disk is full when a tracker that has a history for [a.txt] is
    given [a.txt] with other contents and [b.txt]: the write is refused
    after the history file was opened. *)
Lemma failed_save_keeps_current_states_witness :
  allocated full_disk_tracker ∧
  enabled (config full_disk_tracker) = Some true ∧
  historyPath (config full_disk_tracker) = Some history_json ∧
  loadHistory full_disk_tracker
  = (Normal history_x, after loadHistory full_disk_tracker) ∧
  (∀ path file, files_y !! path = Some file -> contents file ≠ Undefined) ∧
  fault full_disk_tracker
    (WriteFile history_json (JSON_stringify (fingerprints files_y)))
  = Some ENOSPC ∧
  completion (getFileState "a.txt")
    (after (trackChanges files_y) full_disk_tracker)
  = Normal (Some {| status := modified;
                    previousFingerprint :=
                      Some (Parsed (JString
                        "9dd4e461268c8034f5c8564e155c67a6")) |}) ∧
  completion (getFileState "b.txt")
    (after (trackChanges files_y) full_disk_tracker)
  = Normal (Some {| status := new; previousFingerprint := None |}) ∧
  disk (after (trackChanges files_y) full_disk_tracker) !! history_json
  = Some Malformed ∧
  ∃ st',
    trackChanges files_y full_disk_tracker
    = (Throw (ChangeTrackerError HISTORY_WRITE_ERROR
                "Failed to save change history"
                (Some (SystemError ENOSPC
                         (WriteFile history_json
                            (JSON_stringify (fingerprints files_y)))))),
       st') ∧
    partly_written history_json (disk full_disk_tracker) (disk st') ∧
    (WriteFile history_json (JSON_stringify (fingerprints files_y))
     = Mkdir history_json
     ∨ torn full_disk_tracker
         (WriteFile history_json (JSON_stringify (fingerprints files_y)))
       = false ->
     disk st' = disk full_disk_tracker) ∧
    (∀ path, files_y !! path = None ->
             completion (getFileState path) st' = Normal None) ∧
    ∀ path file,
      files_y !! path = Some file ->
      ∃ bytes,
        contents file = Buffer bytes ∧
        completion (getFileState path) st'
        = Normal (Some (reconcile (property history_x path)
                          (Some (if decide (path = "__proto__"%string)
                                 then Prototype Object_prototype
                                 else Parsed
                                        (JString (MD5.digest_hex bytes)))))).
Proof.
  assert (allocated full_disk_tracker) as Hal by (exists ∅; reflexivity).
  assert (enabled (config full_disk_tracker) = Some true) as Hen
    by reflexivity.
  assert (historyPath (config full_disk_tracker) = Some history_json) as Hp
    by reflexivity.
  assert (loadHistory full_disk_tracker
          = (Normal history_x, after loadHistory full_disk_tracker))
    as Hload by (vm_compute; reflexivity).
  assert (∀ path file, files_y !! path = Some file ->
                       contents file ≠ Undefined) as Hok.
  { intros path file Hin. unfold files_y in Hin.
    apply lookup_insert_Some in Hin as [[_ <-]|[_ Hin]]; [discriminate|].
    apply lookup_singleton_Some in Hin as [_ <-]. discriminate. }
  assert (fault full_disk_tracker (Mkdir history_json) = None) as Hmk
    by reflexivity.
  assert (fault full_disk_tracker
            (WriteFile history_json (JSON_stringify (fingerprints files_y)))
          = Some ENOSPC) as Hwr by reflexivity.
  assert (history_x ≠ JNull ∨ files_y = ∅) as Hh by (left; discriminate).
  pose proof (failed_save_keeps_current_states full_disk_tracker
                (after loadHistory full_disk_tracker) files_y history_x
                history_json ENOSPC
                (WriteFile history_json
                   (JSON_stringify (fingerprints files_y)))) as Hthm.
  pose proof (Hthm Hal) as Hthm1. pose proof (Hthm1 Hen) as Hthm2.
  pose proof (Hthm2 Hp) as Hthm3. pose proof (Hthm3 Hload) as Hthm4.
  pose proof (Hthm4 Hok) as Hthm5. pose proof (Hthm5 Hh) as Hthm6.
  pose proof (Hthm6 (or_intror (conj eq_refl (conj Hmk Hwr)))) as Hthm7.
  assert (completion (getFileState "a.txt")
            (after (trackChanges files_y) full_disk_tracker)
          = Normal (Some {| status := modified;
                            previousFingerprint :=
                              Some (Parsed (JString
                                "9dd4e461268c8034f5c8564e155c67a6")) |}))
    as Ha by (vm_compute; reflexivity).
  assert (completion (getFileState "b.txt")
            (after (trackChanges files_y) full_disk_tracker)
          = Normal (Some {| status := new; previousFingerprint := None |}))
    as Hb by (vm_compute; reflexivity).
  assert (disk (after (trackChanges files_y) full_disk_tracker)
            !! history_json = Some Malformed) as Hdisk
    by (vm_compute; reflexivity).
  exact (conj Hal (conj Hen (conj Hp (conj Hload (conj Hok (conj Hwr
    (conj Ha (conj Hb (conj Hdisk Hthm7))))))))).
Defined.

(** ** What the caller can do with the returned map *)

Lemma getFileState_after_set (l : loc) (key path : string)
    (value : FileChangeState) (st : State) :
  completion (getFileState path) (after (Map_set l key value) st)
  = Normal (if decide (l = fileStates st)
            then <[key := value]> (Map_contents l st) !! path
            else Map_contents (fileStates st) st !! path).
Proof.
  unfold completion, after. rewrite getFileState_run.
  unfold Map_contents. cbn. f_equal. case_decide as Hl.
  - subst l. by rewrite lookup_total_insert_eq.
  - by rewrite lookup_total_insert_ne.
Qed.

Lemma getFileState_after_delete (l : loc) (key path : string) (st : State) :
  completion (getFileState path) (after (Map_delete l key) st)
  = Normal (if decide (l = fileStates st)
            then delete key (Map_contents l st) !! path
            else Map_contents (fileStates st) st !! path).
Proof.
  unfold completion, after. rewrite getFileState_run.
  unfold Map_contents. cbn. f_equal. case_decide as Hl.
  - subst l. by rewrite lookup_total_insert_eq.
  - by rewrite lookup_total_insert_ne.
Qed.

(** Whatever the caller does to a [Map] replaces its entries. *)
Lemma Map_set_after (l : loc) (key : string) (value : FileChangeState)
    (st : State) :
  after (Map_set l key value) st
  = set_heap <[l := <[key := value]> (Map_contents l st)]> st.
Proof. reflexivity. Qed.

Lemma Map_delete_after (l : loc) (key : string) (st : State) :
  after (Map_delete l key) st
  = set_heap <[l := delete key (Map_contents l st)]> st.
Proof. reflexivity. Qed.

Lemma Map_clear_after (l : loc) (st : State) :
  after (Map_clear l) st = set_heap <[l := ∅]> st.
Proof. reflexivity. Qed.

(** A [Map] other than the tracker's own is out of a run's reach: the run
    goes the same way whatever that map holds, and leaves it alone. *)
Lemma trackChanges_frame (st : State) (files : FileDataCollection) (l : loc)
    (X : FileStates) :
  allocated st ->
  l ≠ fileStates st ->
  is_Some (heap st !! l) ->
  trackChanges files (set_heap <[l := X]> st)
  = (completion (trackChanges files) st,
     set_heap <[l := X]> (after (trackChanges files) st)).
Proof.
  intros Hal Hl Hin. unfold completion, after.
  assert (allocated (set_heap <[l := X]> st)) as Hal'.
  { unfold allocated. cbn. by rewrite lookup_insert_ne. }
  destruct (decide (enabled (config st) = Some true)) as [Hen|Hen]; last first.
  { rewrite !trackChanges_disabled by done. cbn.
    assert (dom (<[l := X]> (heap st)) = dom (heap st)) as ->.
    { rewrite dom_insert_L. apply subseteq_union_1_L.
      apply singleton_subseteq_l. by apply elem_of_dom. }
    f_equal. unfold set_heap. cbn. f_equal. apply insert_insert_ne.
    intros Heq. apply (is_fresh (dom (heap st))). rewrite Heq.
    by apply elem_of_dom. }
  destruct (historyPath (config st)) as [p|] eqn:Hp; last first.
  { by rewrite !trackChanges_unset by auto. }
  destruct (decide (p = EmptyString)) as [->|Hne].
  { by rewrite !trackChanges_unset by auto. }
  pose proof (loadHistory_set st p Hp Hne) as Hload.
  pose proof (loadHistory_set (set_heap <[l := X]> st) p Hp Hne) as Hload'.
  cbn [fault disk set_heap] in Hload'.
  set (h := match fault st (ReadFile p), disk st !! p with
            | None, Some (Document value) => value
            | _, _ => JObject ∅
            end) in Hload, Hload'.
  destruct (contents_cases files) as [Hok | (path & file & Hfile & Hc)];
    last first.
  { rewrite (trackChanges_invalid _ _ _ _ _ _ Hen Hload Hfile Hc).
    by rewrite (trackChanges_invalid (set_heap <[l := X]> st) _ _ _ _ _
                  Hen Hload' Hfile Hc). }
  destruct (history_cases h files) as [Hh | [Hnull Hfiles]].
  - rewrite (trackChanges_enabled _ _ _ _ Hal Hen Hload Hok Hh).
    rewrite (trackChanges_enabled _ _ _ _ Hal' Hen Hload' Hok Hh).
    rewrite !run_bind, !(saveHistory_set _ p) by done.
    cbn [fault torn fileStates set_heap log_syscall].
    assert (fileStates st ≠ l) as Hl' by congruence.
    destruct (fault st (Mkdir p));
      [|destruct (fault st (WriteFile p (JSON_stringify (fingerprints files))));
        [destruct (torn st (WriteFile p (JSON_stringify (fingerprints files))))
        |]];
      unfold mret, M_ret, set_heap, set_disk, log_syscall; cbn;
      by rewrite (insert_insert_ne (heap st) (fileStates st) l).
  - rewrite Hnull in Hload, Hload'. destruct Hal as [m Hm].
    rewrite (trackChanges_null _ _ _ _ Hm Hen Hload Hok Hfiles).
    assert (heap (set_heap <[l := X]> st)
              !! fileStates (set_heap <[l := X]> st) = Some m) as Hm'.
    { cbn. by rewrite lookup_insert_ne. }
    rewrite (trackChanges_null _ _ _ _ Hm' Hen Hload' Hok Hfiles).
    assert (fileStates st ≠ l) as Hl' by congruence.
    unfold set_heap, log_syscall. cbn.
    by rewrite (insert_insert_ne (heap st) (fileStates st) l).
Qed.

(** The tracker's own map is rebuilt by an enabled run that gets as far as
    reconciling: what it held before does not matter. *)
Lemma trackChanges_rebuilds (st : State) (files : FileDataCollection)
    (X : FileStates) (l : loc) (st' : State) :
  allocated st ->
  enabled (config st) = Some true ->
  trackChanges files st = (Normal l, st') ->
  trackChanges files (set_heap <[fileStates st := X]> st) = (Normal l, st').
Proof.
  intros Hal Hen Hrun.
  destruct (trackChanges_enabled_Normal _ _ _ _ Hal Hen Hrun)
    as (p & h & Hp & Hne & Hload & Hok & Hh & _ & _).
  pose proof (loadHistory_set (set_heap <[fileStates st := X]> st) p Hp Hne)
    as Hload'.
  rewrite (loadHistory_set st p Hp Hne) in Hload.
  injection Hload as Hh'. cbn [fault disk set_heap] in Hload'.
  rewrite Hh' in Hload'.
  assert (allocated (set_heap <[fileStates st := X]> st)) as Hal'.
  { unfold allocated. cbn. by rewrite lookup_insert_eq. }
  rewrite (trackChanges_enabled _ _ _ _ Hal' Hen Hload' Hok Hh).
  rewrite <- Hrun.
  rewrite (trackChanges_enabled st _ files h Hal Hen) by
    (done || (rewrite (loadHistory_set st p Hp Hne); by rewrite Hh')).
  f_equal. unfold set_heap. cbn. f_equal. apply insert_insert_eq.
Qed.

(** C9, as amended.  With tracking disabled the map a run returns is a
    new object: whatever entries [X] the caller leaves in it by setting,
    deleting or clearing, [getFileState] answers as before, and a later
    run completes the same way, returns a map with the same entries and
    leaves [getFileState] the same answers.
    With tracking enabled the map a run returns is the tracker's own
    runtime state: what the caller sets under a key is what
    [getFileState] then returns for it, and a key the caller deletes is
    no longer found; a later run that returns is not affected. *)
Theorem returned_map_sharing (st st' : State) (files : FileDataCollection)
    (l : loc) :
  allocated st ->
  trackChanges files st = (Normal l, st') ->
  (enabled (config st) ≠ Some true ->
   l ≠ fileStates st' ∧
   ∀ X path files2,
     completion (getFileState path) (set_heap <[l := X]> st')
     = completion (getFileState path) st' ∧
     completion (l2 ← trackChanges files2; Map_get l2 path)
       (set_heap <[l := X]> st')
     = completion (l2 ← trackChanges files2; Map_get l2 path) st' ∧
     completion (trackChanges files2;; getFileState path)
       (set_heap <[l := X]> st')
     = completion (trackChanges files2;; getFileState path) st') ∧
  (enabled (config st) = Some true ->
   l = fileStates st' ∧
   ∀ key value,
     completion (getFileState key) (after (Map_set l key value) st')
     = Normal (Some value) ∧
     completion (getFileState key) (after (Map_delete l key) st')
     = Normal None ∧
     ∀ files2 l2 st2,
       trackChanges files2 st' = (Normal l2, st2) ->
       trackChanges files2 (after (Map_set l key value) st') = (Normal l2, st2)
       ∧ trackChanges files2 (after (Map_delete l key) st')
         = (Normal l2, st2)).
Proof.
  intros Hal Hrun.
  destruct (trackChanges_preserves _ _ _ _ Hal Hrun)
    as (Hcfg & Hfs & _ & Hal').
  split.
  - intros Hen. pose proof Hrun as Hrun'.
    rewrite trackChanges_disabled in Hrun' by done.
    injection Hrun' as Hl Hst'.
    assert (l ≠ fileStates st') as Hfresh.
    { rewrite Hfs, <- Hl. intros Heq. apply (is_fresh (dom (heap st))).
      rewrite Heq. by apply elem_of_dom. }
    assert (is_Some (heap st' !! l)) as Hin.
    { rewrite <- Hst', <- Hl. cbn. by rewrite lookup_insert_eq. }
    split; [done|]. intros X path files2.
    assert (∀ s : State, l ≠ fileStates s ->
              completion (getFileState path) (set_heap <[l := X]> s)
              = completion (getFileState path) s) as Hget.
    { intros s Hs. unfold completion. rewrite !getFileState_run.
      unfold Map_contents. cbn. by rewrite lookup_total_insert_ne. }
    split; [by apply Hget|].
    unfold completion. rewrite !run_bind.
    rewrite (trackChanges_frame st' files2 l X Hal' Hfresh Hin).
    unfold completion, after.
    destruct (trackChanges files2 st') as [r2 s2] eqn:Hrun2.
    destruct (trackChanges_preserves _ _ _ _ Hal' Hrun2)
      as (Hcfg2 & Hfs2 & _ & _).
    cbn [fst snd]. destruct r2 as [l2|e]; [|done]. split.
    + unfold Map_get, gets. cbn. do 2 f_equal.
      rewrite lookup_total_insert_ne; [done|]. intros <-.
      destruct (decide (enabled (config st') = Some true)) as [Hen2|Hen2].
      * destruct (trackChanges_enabled_Normal _ _ _ _ Hal' Hen2 Hrun2)
          as (_ & _ & _ & _ & _ & _ & _ & Hl2 & _). done.
      * rewrite trackChanges_disabled in Hrun2 by done.
        injection Hrun2 as Hl2 _. apply (is_fresh (dom (heap st'))).
        rewrite Hl2. by apply elem_of_dom.
    + apply Hget. by rewrite Hfs2.
  - intros Hen.
    destruct (trackChanges_enabled_Normal _ _ _ _ Hal Hen Hrun)
      as (p & h & _ & _ & _ & _ & _ & Hl & _).
    rewrite <- Hfs in Hl. split; [done|]. intros key value.
    rewrite getFileState_after_set, getFileState_after_delete.
    rewrite !decide_True by done.
    rewrite lookup_insert_eq, lookup_delete_eq. do 2 (split; [done|]).
    intros files2 l2 st2 Hrun2. rewrite <- Hcfg in Hen. subst l. split.
    + by apply (trackChanges_rebuilds st' files2
                  (<[key := value]> (heap st' !!! fileStates st'))).
    + by apply (trackChanges_rebuilds st' files2
                  (delete key (heap st' !!! fileStates st'))).
Qed.

(** The first run of a tracker with tracking enabled. *)
Lemma returned_map_sharing_witness :
  allocated fresh_tracker ∧
  trackChanges files_x fresh_tracker = (Normal 1%positive, seen_x) ∧
  enabled (config fresh_tracker) = Some true ∧
  1%positive = fileStates seen_x ∧
  ∀ key value,
    completion (getFileState key) (after (Map_set 1%positive key value) seen_x)
    = Normal (Some value) ∧
    completion (getFileState key) (after (Map_delete 1%positive key) seen_x)
    = Normal None ∧
    ∀ files2 l2 st2,
      trackChanges files2 seen_x = (Normal l2, st2) ->
      trackChanges files2 (after (Map_set 1%positive key value) seen_x)
      = (Normal l2, st2)
      ∧ trackChanges files2 (after (Map_delete 1%positive key) seen_x)
        = (Normal l2, st2).
Proof.
  assert (allocated fresh_tracker) as Hal by (exists ∅; reflexivity).
  assert (trackChanges files_x fresh_tracker = (Normal 1%positive, seen_x))
    as Hrun by (vm_compute; reflexivity).
  assert (enabled (config fresh_tracker) = Some true) as Hen by reflexivity.
  pose proof (returned_map_sharing fresh_tracker seen_x files_x 1%positive)
    as Hthm.
  pose proof (Hthm Hal) as Hthm1. pose proof (Hthm1 Hrun) as Hthm2.
  exact (conj Hal (conj Hrun (conj Hen (proj2 Hthm2 Hen)))).
Defined.

(** C9, as stated, fails: after an enabled run the caller deletes
    [a.txt] from the map it was handed, or overwrites its entry, and
    [getFileState] follows. *)
Lemma returned_map_is_runtime_state :
  trackChanges files_x fresh_tracker = (Normal 1%positive, seen_x) ∧
  completion (getFileState "a.txt") seen_x
  = Normal (Some {| status := new; previousFingerprint := None |}) ∧
  completion (getFileState "a.txt")
    (after (Map_delete 1%positive "a.txt") seen_x)
  = Normal None ∧
  completion (getFileState "a.txt")
    (after (Map_set 1%positive "a.txt"
              {| status := unchanged;
                 previousFingerprint := Some (Parsed (JString "forged")) |})
       seen_x)
  = Normal (Some {| status := unchanged;
                    previousFingerprint :=
                      Some (Parsed (JString "forged")) |}).
Proof. repeat split; vm_compute; reflexivity. Qed.

(** ** The scenario of the test suite *)

Example first_run_reports_new :
  completion (trackChanges files_x;; getFileState "a.txt") fresh_tracker
  = Normal (Some {| status := new; previousFingerprint := None |}).
Proof. vm_compute. reflexivity. Qed.

Example same_content_reports_unchanged :
  completion (trackChanges files_x;; trackChanges files_x;;
              getFileState "a.txt") fresh_tracker
  = Normal (Some {| status := unchanged;
                    previousFingerprint :=
                      Some (Parsed (JString
                        "9dd4e461268c8034f5c8564e155c67a6")) |}).
Proof. vm_compute. reflexivity. Qed.

Example new_content_reports_modified :
  completion (trackChanges files_x;; trackChanges files_y;;
              getFileState "a.txt") fresh_tracker
  = Normal (Some {| status := modified;
                    previousFingerprint :=
                      Some (Parsed (JString
                        "9dd4e461268c8034f5c8564e155c67a6")) |}).
Proof. vm_compute. reflexivity. Qed.

Example removed_file_disappears :
  completion (trackChanges files_x;; trackChanges ∅;;
              getFileState "a.txt") fresh_tracker
  = Normal None.
Proof. vm_compute. reflexivity. Qed.

Example clearHistory_then_new :
  completion (trackChanges files_x;; clearHistory;; trackChanges files_x;;
              getFileState "a.txt") fresh_tracker
  = Normal (Some {| status := new; previousFingerprint := None |}).
Proof. vm_compute. reflexivity. Qed.

Example disabled_run_keeps_earlier_state :
  completion (trackChanges files_x;; enable (inl false);;
              trackChanges files_y;; getFileState "a.txt") fresh_tracker
  = Normal (Some {| status := new; previousFingerprint := None |}).
Proof. vm_compute. reflexivity. Qed.

Example enable_false_then_untracked :
  ∃ st, (enable (inl false);; trackChanges files_x) fresh_tracker
        = (Normal 2%positive, st) ∧
        Map_contents 2%positive st !! "a.txt"%string
        = Some {| status := untracked; previousFingerprint := None |}.
Proof. eexists. split; vm_compute; reflexivity. Qed.

Example invalid_contents_throw :
  completion (trackChanges files_invalid) fresh_tracker
  = Throw (TypeError "ERR_INVALID_ARG_TYPE").
Proof. vm_compute. reflexivity. Qed.

Example corrupted_history_reports_new :
  completion (trackChanges files_x;; getFileState "a.txt") corrupted_tracker
  = Normal (Some {| status := new; previousFingerprint := None |}).
Proof. vm_compute. reflexivity. Qed.

(** ** Scenarios beyond the test suite *)

(** A write refused on a full disk leaves a history file that the next
    run cannot parse, so that run starts afresh. *)
Example torn_history_is_fresh_start :
  disk (after (trackChanges files_y) full_disk_tracker) !! history_json
  = Some Malformed ∧
  completion loadHistory (after (trackChanges files_y) full_disk_tracker)
  = Normal (JObject ∅).
Proof. split; vm_compute; reflexivity. Qed.

(** [enable({ historyPath, enabled: undefined })] turns tracking off;
    [enable({ historyPath })] leaves it on. *)
Example enable_undefined_turns_off :
  completion (enable move_history_undefined;;
              states ← trackChanges files_x; Map_get states "a.txt")
    fresh_tracker
  = Normal (Some {| status := untracked; previousFingerprint := None |}) ∧
  syscalls (after (enable move_history_undefined;; trackChanges files_x)
              fresh_tracker) = [].
Proof. split; vm_compute; reflexivity. Qed.

Example enable_without_flag_keeps_tracking :
  completion (enable move_history;;
              states ← trackChanges files_x; Map_get states "a.txt")
    fresh_tracker
  = Normal (Some {| status := new; previousFingerprint := None |}) ∧
  syscalls (after (enable move_history;; trackChanges files_x) fresh_tracker)
  = [ReadFile other_json; Mkdir other_json;
     WriteFile other_json (JSON_stringify (fingerprints files_x))].
Proof. split; vm_compute; reflexivity. Qed.

(** What is read under a path from histories of other shapes. *)
Example properties_of_parsed_values :
  property (JArray [JString "a"]) "0" = Some (Parsed (JString "a")) ∧
  property (JArray [JString "a"]) "length" = Some (Parsed (JNumber 1)) ∧
  property (JArray [JString "a"]) "push" = Some (Method Array_prototype "push") ∧
  property (JArray [JString "a"]) "a.txt" = None ∧
  property (JString "abc") "1" = Some (Parsed (JString "b")) ∧
  property (JString "abc") "trimLeft"
  = Some (Method String_prototype "trimStart") ∧
  property (JString "abc") "hasOwnProperty"
  = Some (Method Object_prototype "hasOwnProperty") ∧
  property (JNumber 7) "toFixed" = Some (Method Number_prototype "toFixed") ∧
  property (JBool true) "__proto__" = Some (Prototype Boolean_prototype) ∧
  property (JObject {[ "__proto__"%string := JNull ]}) "__proto__"
  = Some (Parsed JNull) ∧
  property (JObject ∅) "a.txt" = None.
Proof. repeat split; vm_compute; reflexivity. Qed.
(** ** Test vectors of the digest *)

Example md5_empty :
  MD5.digest_hex (Buffer_from EmptyString) = "d41d8cd98f00b204e9800998ecf8427e"%string.
Proof. vm_compute. reflexivity. Qed.

Example md5_abc :
  MD5.digest_hex (Buffer_from "abc") = "900150983cd24fb0d6963f7d28e17f72"%string.
Proof. vm_compute. reflexivity. Qed.

Example md5_test_content :
  MD5.digest_hex (Buffer_from "test content")
  = "9473fdd0d880a43c21b7778d34872157"%string.
Proof. vm_compute. reflexivity. Qed.

Example md5_two_blocks :
  MD5.digest_hex (Buffer_from
    "12345678901234567890123456789012345678901234567890123456789012345678901234567890")
  = "57edf4a22be3c955ac49da2e2107b67a"%string.
Proof. vm_compute. reflexivity. Qed.

Example md5_56 :
  MD5.digest_hex (repeat "a"%byte 56) = "3b0c8ac703f828b04c6c197006d17218"%string.
Proof. vm_compute. reflexivity. Qed.


(** * Further properties *)

(** ** Runs that return *)

(** A run that returns was refused nothing by the file system. *)
Lemma trackChanges_enabled_Normal_faults (st st' : State)
    (files : FileDataCollection) (l : loc) (p : string) :
  allocated st ->
  enabled (config st) = Some true ->
  historyPath (config st) = Some p ->
  trackChanges files st = (Normal l, st') ->
  fault st (Mkdir p) = None ∧
  fault st (WriteFile p (JSON_stringify (fingerprints files))) = None.
Proof.
  intros Hal Hen Hp Hrun.
  destruct (trackChanges_enabled_Normal _ _ _ _ Hal Hen Hrun)
    as (p' & h & Hp' & Hne & Hload & Hok & Hh & _ & _).
  assert (p' = p) as -> by congruence.
  rewrite (trackChanges_enabled _ _ _ _ Hal Hen Hload Hok Hh) in Hrun.
  rewrite run_bind, (saveHistory_set _ p) in Hrun by done.
  cbn [fault torn set_heap log_syscall] in Hrun.
  destruct (fault st (Mkdir p)); [done|].
  by destruct (fault st (WriteFile p (JSON_stringify (fingerprints files)))).
Qed.

(** The other way round: what makes an enabled run return, and the state
    it returns in. *)
Lemma trackChanges_enabled_returns (st st1 : State)
    (files : FileDataCollection) (h : json) (p : string) :
  allocated st ->
  enabled (config st) = Some true ->
  historyPath (config st) = Some p ->
  loadHistory st = (Normal h, st1) ->
  (∀ path file, files !! path = Some file -> contents file ≠ Undefined) ->
  h ≠ JNull ∨ files = ∅ ->
  fault st (Mkdir p) = None ->
  fault st (WriteFile p (JSON_stringify (fingerprints files))) = None ->
  trackChanges files st
  = (Normal (fileStates st),
     set_disk <[p := JSON_stringify (fingerprints files)]>
       (log_syscall (WriteFile p (JSON_stringify (fingerprints files)))
          (log_syscall (Mkdir p)
             (set_heap <[fileStates st := reconciled h files]>
                (log_syscall (ReadFile p) st))))).
Proof.
  intros Hal Hen Hp Hload Hok Hh Hmk Hwr.
  destruct (loadHistory_inv _ _ _ Hload) as (p' & Hp' & Hne & ->).
  assert (p' = p) as -> by congruence.
  rewrite (trackChanges_enabled _ _ _ _ Hal Hen Hload Hok Hh).
  rewrite run_bind, (saveHistory_set _ p) by done.
  cbn [fault torn set_heap log_syscall]. by rewrite Hmk, Hwr.
Qed.

(** The history a run finds after a run that returned. *)
Lemma loadHistory_after_run (st st' : State) (files : FileDataCollection)
    (l : loc) (p : string) :
  allocated st ->
  enabled (config st) = Some true ->
  historyPath (config st) = Some p ->
  fault st (ReadFile p) = None ->
  trackChanges files st = (Normal l, st') ->
  loadHistory st'
  = (Normal (JObject (JString <$> fingerprints files)),
     log_syscall (ReadFile p) st').
Proof.
  intros Hal Hen Hp Hread Hrun.
  destruct (trackChanges_enabled_Normal _ _ _ _ Hal Hen Hrun)
    as (p' & h & Hp' & Hne & Hload & Hok & Hh & _ & ->).
  assert (p' = p) as -> by congruence.
  rewrite (loadHistory_set _ p) by done. cbn.
  by rewrite Hread, lookup_insert_eq.
Qed.

(** What the history saved by a run holds, own or inherited, under a
    path. *)
Lemma property_of_fingerprints (files : FileDataCollection) (path : string) :
  property (JObject (JString <$> fingerprints files)) path
  = if decide (path = "__proto__"%string)
    then Some (Prototype Object_prototype)
    else match files !! path ≫= fun file => completed (createFingerprint file)
         with
         | Some fingerprint => Some (Parsed (JString fingerprint))
         | None => if has_method Object_prototype path
                   then Some (Method Object_prototype path)
                   else None
         end.
Proof.
  rewrite property_object, lookup_fmap, fingerprints_lookup.
  rewrite inherited_name_spec. case_decide as Hp.
  - by subst path.
  - apply String.eqb_neq in Hp. rewrite Hp.
    by destruct (files !! path ≫= _).
Qed.

(** X2.  Of two consecutive enabled runs that return, with the history
    file readable in between, the second reports each of its paths by
    comparison with the first.  A path other than [__proto__] is [new]
    when the first run was not given it and it names nothing in
    [Object.prototype], [modified] with the inherited function as
    previous fingerprint when it does name one, [unchanged] when the two
    fingerprints are the same and [modified] when they differ, the
    previous fingerprint then being the one of the first run.  The path
    [__proto__] is always [unchanged], with [Object.prototype] as
    previous fingerprint. *)
Theorem second_run_compares_with_first (st0 st1 st2 : State)
    (files1 files2 : FileDataCollection) (l1 l2 : loc) (p path : string)
    (bytes2 : list byte) :
  allocated st0 ->
  enabled (config st0) = Some true ->
  historyPath (config st0) = Some p ->
  fault st0 (ReadFile p) = None ->
  trackChanges files1 st0 = (Normal l1, st1) ->
  trackChanges files2 st1 = (Normal l2, st2) ->
  files2 !! path = Some {| contents := Buffer bytes2 |} ->
  (path ≠ "__proto__"%string ->
   (files1 !! path = None -> inherited_name path = false ->
    Map_contents l2 st2 !! path
    = Some {| status := new; previousFingerprint := None |}) ∧
   (files1 !! path = None -> inherited_name path = true ->
    Map_contents l2 st2 !! path
    = Some {| status := modified;
              previousFingerprint := Some (Method Object_prototype path) |}) ∧
   (∀ bytes1, files1 !! path = Some {| contents := Buffer bytes1 |} ->
      MD5.digest_hex bytes1 = MD5.digest_hex bytes2 ->
      Map_contents l2 st2 !! path
      = Some {| status := unchanged;
                previousFingerprint :=
                  Some (Parsed (JString (MD5.digest_hex bytes1))) |}) ∧
   (∀ bytes1, files1 !! path = Some {| contents := Buffer bytes1 |} ->
      MD5.digest_hex bytes1 ≠ MD5.digest_hex bytes2 ->
      Map_contents l2 st2 !! path
      = Some {| status := modified;
                previousFingerprint :=
                  Some (Parsed (JString (MD5.digest_hex bytes1))) |})) ∧
  (path = "__proto__"%string ->
   Map_contents l2 st2 !! path
   = Some {| status := unchanged;
             previousFingerprint := Some (Prototype Object_prototype) |}).
Proof.
  intros Hal Hen Hp Hread Hrun1 Hrun2 Hin2.
  pose proof (loadHistory_after_run _ _ _ _ _ Hal Hen Hp Hread Hrun1)
    as Hload1.
  destruct (trackChanges_preserves _ _ _ _ Hal Hrun1)
    as (Hcfg & _ & _ & Hal1).
  rewrite <- Hcfg in Hen.
  destruct (trackChanges_enabled_Normal _ _ _ _ Hal1 Hen Hrun2)
    as (p' & h & _ & _ & Hload & _ & _ & -> & ->).
  rewrite Hload1 in Hload. injection Hload as <- _.
  unfold Map_contents. cbn.
  rewrite lookup_total_insert_eq, reconciled_lookup, Hin2. cbn.
  rewrite (current_fingerprint files2 path _ bytes2 Hin2 eq_refl).
  rewrite property_of_fingerprints. split.
  - intros Hpath. rewrite !decide_False by done.
    assert (has_method Object_prototype path = inherited_name path) as ->.
    { unfold inherited_name. apply String.eqb_neq in Hpath.
      by rewrite Hpath. }
    repeat split.
    + by intros -> ->.
    + by intros -> ->.
    + intros bytes1 -> Heq. cbn. rewrite Heq.
      f_equal. apply reconcile_unchanged, digest_hex_nonempty.
    + intros bytes1 -> Hdiff. cbn.
      f_equal. apply reconcile_modified; [apply digest_hex_nonempty|done].
  - intros ->. reflexivity.
Qed.

(** X3.  Running again on the same input, with the history file
    readable, returns again, leaves the disk as the first run left it,
    and reports every input path [unchanged]: the previous fingerprint
    is the digest of the record, and [Object.prototype] for the path
    [__proto__]. *)
Theorem rerun_reports_unchanged (st0 st1 : State)
    (files : FileDataCollection) (l : loc) (p : string) :
  allocated st0 ->
  enabled (config st0) = Some true ->
  historyPath (config st0) = Some p ->
  fault st0 (ReadFile p) = None ->
  trackChanges files st0 = (Normal l, st1) ->
  ∃ st2,
    trackChanges files st1 = (Normal l, st2) ∧
    disk st2 = disk st1 ∧
    (∀ path, files !! path = None -> Map_contents l st2 !! path = None) ∧
    ∀ path file,
      files !! path = Some file ->
      ∃ bytes,
        contents file = Buffer bytes ∧
        Map_contents l st2 !! path
        = Some {| status := unchanged;
                  previousFingerprint :=
                    Some (if decide (path = "__proto__"%string)
                          then Prototype Object_prototype
                          else Parsed (JString (MD5.digest_hex bytes))) |}.
Proof.
  intros Hal Hen Hp Hread Hrun.
  pose proof (loadHistory_after_run _ _ _ _ _ Hal Hen Hp Hread Hrun)
    as Hload1.
  destruct (trackChanges_enabled_Normal_faults _ _ _ _ _ Hal Hen Hp Hrun)
    as [Hmk Hwr].
  destruct (trackChanges_preserves _ _ _ _ Hal Hrun)
    as (Hcfg & Hfs & Hfault & Hal1).
  destruct (trackChanges_enabled_Normal _ _ _ _ Hal Hen Hrun)
    as (p' & h & Hp' & Hne & _ & Hok & _ & Hl & Hst1).
  assert (p' = p) as -> by congruence.
  rewrite <- Hcfg in Hen, Hp. rewrite <- Hfault in Hmk, Hwr.
  rewrite (trackChanges_enabled_returns st1 _ files _ p Hal1 Hen Hp Hload1)
    by (done || by left).
  rewrite Hfs, <- Hl. eexists. split; [reflexivity|]. split.
  { cbn. rewrite Hst1. cbn. by rewrite insert_insert_eq. }
  split.
  - intros path Hnone. unfold Map_contents. cbn.
    by rewrite lookup_total_insert_eq, reconciled_lookup, Hnone.
  - intros path file Hin. pose proof (Hok path file Hin) as Hbuf.
    destruct (contents file) as [bytes|] eqn:Hc; [|done].
    exists bytes. split; [done|].
    unfold Map_contents. cbn.
    rewrite lookup_total_insert_eq, reconciled_lookup, Hin. cbn.
    assert (property (JObject (JString <$> fingerprints files)) path
            = Object_get (fingerprints files) path) as -> by reflexivity.
    rewrite (current_fingerprint _ _ _ _ Hin Hc). f_equal.
    case_decide; [reflexivity|].
    apply reconcile_unchanged, digest_hex_nonempty.
Qed.

(** [a.txt] goes from content [x] to content [y]. *)
Lemma second_run_compares_with_first_witness :
  allocated fresh_tracker ∧
  enabled (config fresh_tracker) = Some true ∧
  historyPath (config fresh_tracker) = Some history_json ∧
  fault fresh_tracker (ReadFile history_json) = None ∧
  trackChanges files_x fresh_tracker = (Normal 1%positive, seen_x) ∧
  trackChanges files_y seen_x
  = (Normal 1%positive, after (trackChanges files_y) seen_x) ∧
  files_y !! "a.txt"%string = Some {| contents := Buffer (Buffer_from "y") |} ∧
  "a.txt"%string ≠ "__proto__"%string ∧
  Map_contents 1%positive (after (trackChanges files_y) seen_x)
    !! "a.txt"%string
  = Some {| status := modified;
            previousFingerprint :=
              Some (Parsed (JString (MD5.digest_hex (Buffer_from "x")))) |}.
Proof.
  assert (allocated fresh_tracker) as Hal by (exists ∅; reflexivity).
  assert (enabled (config fresh_tracker) = Some true) as Hen by reflexivity.
  assert (historyPath (config fresh_tracker) = Some history_json) as Hp
    by reflexivity.
  assert (fault fresh_tracker (ReadFile history_json) = None) as Hread
    by reflexivity.
  assert (trackChanges files_x fresh_tracker = (Normal 1%positive, seen_x))
    as Hrun1 by (vm_compute; reflexivity).
  assert (trackChanges files_y seen_x
          = (Normal 1%positive, after (trackChanges files_y) seen_x))
    as Hrun2 by (vm_compute; reflexivity).
  assert (files_y !! "a.txt"%string
          = Some {| contents := Buffer (Buffer_from "y") |}) as Hin2
    by (vm_compute; reflexivity).
  assert (files_x !! "a.txt"%string
          = Some {| contents := Buffer (Buffer_from "x") |}) as Hin1
    by (vm_compute; reflexivity).
  assert ("a.txt"%string ≠ "__proto__"%string) as Hpath by discriminate.
  assert (MD5.digest_hex (Buffer_from "x") ≠ MD5.digest_hex (Buffer_from "y"))
    as Hdiff by (vm_compute; discriminate).
  pose proof (second_run_compares_with_first fresh_tracker seen_x
                (after (trackChanges files_y) seen_x) files_x files_y
                1%positive 1%positive history_json "a.txt"
                (Buffer_from "y")) as Hthm.
  pose proof (Hthm Hal) as Hthm1. pose proof (Hthm1 Hen) as Hthm2.
  pose proof (Hthm2 Hp) as Hthm3. pose proof (Hthm3 Hread) as Hthm4.
  pose proof (Hthm4 Hrun1) as Hthm5. pose proof (Hthm5 Hrun2) as Hthm6.
  pose proof (Hthm6 Hin2) as Hthm7.
  pose proof (proj1 Hthm7 Hpath) as Hthm8.
  pose proof (proj2 (proj2 (proj2 Hthm8)) (Buffer_from "x") Hin1) as Hthm9.
  exact (conj Hal (conj Hen (conj Hp (conj Hread (conj Hrun1 (conj Hrun2
    (conj Hin2 (conj Hpath (Hthm9 Hdiff))))))))).
Defined.

(** The second run of a tracker on [a.txt] with content [x]. *)
Lemma rerun_reports_unchanged_witness :
  allocated fresh_tracker ∧
  enabled (config fresh_tracker) = Some true ∧
  historyPath (config fresh_tracker) = Some history_json ∧
  fault fresh_tracker (ReadFile history_json) = None ∧
  trackChanges files_x fresh_tracker = (Normal 1%positive, seen_x) ∧
  ∃ st2,
    trackChanges files_x seen_x = (Normal 1%positive, st2) ∧
    disk st2 = disk seen_x ∧
    (∀ path, files_x !! path = None ->
             Map_contents 1%positive st2 !! path = None) ∧
    ∀ path file,
      files_x !! path = Some file ->
      ∃ bytes,
        contents file = Buffer bytes ∧
        Map_contents 1%positive st2 !! path
        = Some {| status := unchanged;
                  previousFingerprint :=
                    Some (if decide (path = "__proto__"%string)
                          then Prototype Object_prototype
                          else Parsed (JString (MD5.digest_hex bytes))) |}.
Proof.
  assert (allocated fresh_tracker) as Hal by (exists ∅; reflexivity).
  assert (enabled (config fresh_tracker) = Some true) as Hen by reflexivity.
  assert (historyPath (config fresh_tracker) = Some history_json) as Hp
    by reflexivity.
  assert (fault fresh_tracker (ReadFile history_json) = None) as Hread
    by reflexivity.
  assert (trackChanges files_x fresh_tracker = (Normal 1%positive, seen_x))
    as Hrun1 by (vm_compute; reflexivity).
  pose proof (rerun_reports_unchanged fresh_tracker seen_x files_x
                1%positive history_json) as Hthm.
  pose proof (Hthm Hal) as Hthm1. pose proof (Hthm1 Hen) as Hthm2.
  pose proof (Hthm2 Hp) as Hthm3. pose proof (Hthm3 Hread) as Hthm4.
  exact (conj Hal (conj Hen (conj Hp (conj Hread (conj Hrun1
    (Hthm4 Hrun1)))))).
Defined.

(** ** [clearHistory] *)

(** X4.  With a history path and a file system that lets [rm] through,
    [clearHistory] returns, makes the one call [rm], removes the history
    file and no other, and empties the runtime state; this holds whether
    or not the history file existed, and calling it again changes
    nothing but the log of calls. *)
Theorem clearHistory_clears (st : State) (p : string) :
  historyPath (config st) = Some p -> p ≠ EmptyString ->
  fault st (Rm p) = None ->
  ∃ st',
    clearHistory st = (Normal tt, st') ∧
    syscalls st' = syscalls st ++ [Rm p] ∧
    disk st' = delete p (disk st) ∧
    (∀ path, completion (getFileState path) st' = Normal None) ∧
    ∃ st'',
      clearHistory st' = (Normal tt, st'') ∧
      disk st'' = disk st' ∧ heap st'' = heap st'.
Proof.
  intros Hp Hne Hrm.
  rewrite (clearHistory_set st p Hp Hne), Hrm.
  eexists. split; [reflexivity|]. split; [done|]. split; [done|]. split.
  - intros path. unfold completion. rewrite getFileState_run.
    unfold Map_contents. cbn. by rewrite lookup_total_insert_eq.
  - rewrite (clearHistory_set _ p) by done. cbn [fault set_heap set_disk
      log_syscall]. rewrite Hrm.
    eexists. split; [reflexivity|]. cbn. split.
    + apply delete_delete_eq.
    + apply insert_insert_eq.
Qed.

(** A tracker that has seen [a.txt] clears its history. *)
Lemma clearHistory_clears_witness :
  historyPath (config seen_x) = Some history_json ∧
  history_json ≠ EmptyString ∧
  fault seen_x (Rm history_json) = None ∧
  is_Some (disk seen_x !! history_json) ∧
  ∃ st',
    clearHistory seen_x = (Normal tt, st') ∧
    syscalls st' = syscalls seen_x ++ [Rm history_json] ∧
    disk st' = delete history_json (disk seen_x) ∧
    (∀ path, completion (getFileState path) st' = Normal None) ∧
    ∃ st'',
      clearHistory st' = (Normal tt, st'') ∧
      disk st'' = disk st' ∧ heap st'' = heap st'.
Proof.
  assert (historyPath (config seen_x) = Some history_json) as Hp
    by (vm_compute; reflexivity).
  assert (history_json ≠ EmptyString) as Hne by discriminate.
  assert (fault seen_x (Rm history_json) = None) as Hrm
    by (vm_compute; reflexivity).
  assert (is_Some (disk seen_x !! history_json)) as Hfile
    by (eexists; vm_compute; reflexivity).
  pose proof (clearHistory_clears seen_x history_json) as Hthm.
  pose proof (Hthm Hp) as Hthm1. pose proof (Hthm1 Hne) as Hthm2.
  exact (conj Hp (conj Hne (conj Hrm (conj Hfile (Hthm2 Hrm))))).
Defined.

(** X5.  After a [clearHistory] that returned, an enabled run on records
    with buffers returns or fails in [saveHistory], and either way finds
    the empty object as history: every input path is [new] with no
    previous fingerprint, unless it names a property of
    [Object.prototype], which makes it [modified] with the inherited
    function as previous fingerprint, or [unchanged] with
    [Object.prototype] itself for the path [__proto__]. *)
Theorem clearHistory_then_all_new (st st1 : State)
    (files : FileDataCollection) :
  allocated st ->
  enabled (config st) = Some true ->
  clearHistory st = (Normal tt, st1) ->
  (∀ path file, files !! path = Some file -> contents file ≠ Undefined) ->
  ∃ r st2,
    trackChanges files st1 = (r, st2) ∧
    (r = Normal (fileStates st)
     ∨ ∃ cause, r = Throw (ChangeTrackerError HISTORY_WRITE_ERROR
                             "Failed to save change history" (Some cause))) ∧
    (∀ path,
       inherited_name path = false ->
       completion (getFileState path) st2
       = Normal ((fun _ => {| status := new; previousFingerprint := None |})
                 <$> files !! path)) ∧
    (∀ path,
       path ≠ "__proto__"%string -> inherited_name path = true ->
       completion (getFileState path) st2
       = Normal ((fun _ => {| status := modified;
                              previousFingerprint :=
                                Some (Method Object_prototype path) |})
                 <$> files !! path)) ∧
    completion (getFileState "__proto__") st2
    = Normal ((fun _ => {| status := unchanged;
                           previousFingerprint :=
                             Some (Prototype Object_prototype) |})
              <$> files !! "__proto__"%string).
Proof.
  intros Hal Hen Hclear Hok.
  destruct (historyPath (config st)) as [p|] eqn:Hp; last first.
  { rewrite clearHistory_unset in Hclear by auto. done. }
  destruct (decide (p = EmptyString)) as [->|Hne].
  { rewrite clearHistory_unset in Hclear by auto. done. }
  rewrite (clearHistory_set st p Hp Hne) in Hclear.
  destruct (fault st (Rm p)); [done|]. injection Hclear as <-.
  set (st1 := set_heap <[fileStates st := ∅]>
                (set_disk (delete p) (log_syscall (Rm p) st))).
  assert (allocated st1) as Hal1.
  { unfold allocated. cbn. by rewrite lookup_insert_eq. }
  assert (loadHistory st1
          = (Normal (JObject ∅), log_syscall (ReadFile p) st1)) as Hload.
  { rewrite (loadHistory_set st1 p Hp Hne). cbn.
    rewrite lookup_delete_eq. by destruct (fault st (ReadFile p)). }
  assert (JObject ∅ ≠ JNull ∨ files = ∅) as Hh by by left.
  rewrite (trackChanges_enabled _ _ _ _ Hal1 Hen Hload Hok Hh).
  rewrite run_bind, (saveHistory_set _ p) by done.
  subst st1. cbn [fault torn fileStates set_heap set_disk log_syscall].
  assert (∀ s : State,
            heap s
            = <[fileStates st := reconciled (JObject ∅) files]>
                (<[fileStates st := ∅]> (heap st)) ->
            fileStates s = fileStates st ->
            ∀ path,
              completion (getFileState path) s
              = Normal ((fun _ => fresh_start path) <$> files !! path))
    as Hstates.
  { intros s Hheap Hfs path. unfold completion. rewrite getFileState_run.
    unfold Map_contents. rewrite Hheap, Hfs, lookup_total_insert_eq.
    by rewrite reconciled_fresh_start. }
  assert (∀ s : State,
            (∀ path,
               completion (getFileState path) s
               = Normal ((fun _ => fresh_start path) <$> files !! path)) ->
            (∀ path,
               inherited_name path = false ->
               completion (getFileState path) s
               = Normal ((fun _ => {| status := new;
                                      previousFingerprint := None |})
                         <$> files !! path)) ∧
            (∀ path,
               path ≠ "__proto__"%string -> inherited_name path = true ->
               completion (getFileState path) s
               = Normal ((fun _ => {| status := modified;
                                      previousFingerprint :=
                                        Some (Method Object_prototype path) |})
                         <$> files !! path)) ∧
            completion (getFileState "__proto__") s
            = Normal ((fun _ => {| status := unchanged;
                                   previousFingerprint :=
                                     Some (Prototype Object_prototype) |})
                      <$> files !! "__proto__"%string)) as Hcases.
  { intros s Hs. repeat split.
    - intros path Hpath. by rewrite Hs, (fresh_start_new path Hpath).
    - intros path Hproto Hpath. rewrite Hs. unfold fresh_start.
      unfold inherited_name in Hpath. apply String.eqb_neq in Hproto.
      rewrite Hproto in Hpath |- *. rewrite orb_false_l in Hpath.
      by rewrite Hpath.
    - by rewrite Hs. }
  destruct (fault st (Mkdir p));
    [|destruct (fault st (WriteFile p (JSON_stringify (fingerprints files))));
      [destruct (torn st (WriteFile p (JSON_stringify (fingerprints files))))
      |]];
    eexists _, _; (split; [reflexivity|]); (split; [by eauto|]);
    apply Hcases; by apply Hstates.
Qed.

(** The test "should clear history file and states". *)
Lemma clearHistory_then_all_new_witness :
  allocated seen_x ∧
  enabled (config seen_x) = Some true ∧
  clearHistory seen_x = (Normal tt, after clearHistory seen_x) ∧
  (∀ path file, files_x !! path = Some file -> contents file ≠ Undefined) ∧
  inherited_name "a.txt" = false ∧
  ∃ r st2,
    trackChanges files_x (after clearHistory seen_x) = (r, st2) ∧
    (r = Normal (fileStates seen_x)
     ∨ ∃ cause, r = Throw (ChangeTrackerError HISTORY_WRITE_ERROR
                             "Failed to save change history" (Some cause))) ∧
    (∀ path,
       inherited_name path = false ->
       completion (getFileState path) st2
       = Normal ((fun _ => {| status := new; previousFingerprint := None |})
                 <$> files_x !! path)) ∧
    (∀ path,
       path ≠ "__proto__"%string -> inherited_name path = true ->
       completion (getFileState path) st2
       = Normal ((fun _ => {| status := modified;
                              previousFingerprint :=
                                Some (Method Object_prototype path) |})
                 <$> files_x !! path)) ∧
    completion (getFileState "__proto__") st2
    = Normal ((fun _ => {| status := unchanged;
                           previousFingerprint :=
                             Some (Prototype Object_prototype) |})
              <$> files_x !! "__proto__"%string).
Proof.
  assert (allocated seen_x) as Hal by (eexists; vm_compute; reflexivity).
  assert (enabled (config seen_x) = Some true) as Hen
    by (vm_compute; reflexivity).
  assert (clearHistory seen_x = (Normal tt, after clearHistory seen_x))
    as Hclear by (vm_compute; reflexivity).
  assert (∀ path file, files_x !! path = Some file ->
                       contents file ≠ Undefined) as Hok.
  { intros path file Hin. unfold files_x in Hin.
    apply lookup_singleton_Some in Hin as [_ <-]. discriminate. }
  assert (inherited_name "a.txt" = false) as Hname by reflexivity.
  pose proof (clearHistory_then_all_new seen_x (after clearHistory seen_x)
                files_x) as Hthm.
  pose proof (Hthm Hal) as Hthm1. pose proof (Hthm1 Hen) as Hthm2.
  pose proof (Hthm2 Hclear) as Hthm3.
  exact (conj Hal (conj Hen (conj Hclear (conj Hok (conj Hname
    (Hthm3 Hok)))))).
Defined.

(** ** Every way a run can go *)

Lemma trackChanges_outcomes (st st' : State) (files : FileDataCollection)
    (r : Completion loc) :
  allocated st ->
  trackChanges files st = (r, st') ->
  (enabled (config st) ≠ Some true ∧
   r = Normal (fresh (dom (heap st))) ∧
   st' = set_heap
           <[fresh (dom (heap st)) :=
               (fun _ => {| status := untracked; previousFingerprint := None |})
               <$> files]> st)
  ∨ (enabled (config st) = Some true ∧
     r = Throw (ChangeTrackerError HISTORY_PATH_NOT_SET
                  "History path must be set to track changes" None) ∧
     st' = st)
  ∨ (∃ p h,
       enabled (config st) = Some true ∧
       historyPath (config st) = Some p ∧ p ≠ EmptyString ∧
       loadHistory st = (Normal h, log_syscall (ReadFile p) st) ∧
       ((r = Throw (TypeError "ERR_INVALID_ARG_TYPE") ∧
         st' = log_syscall (ReadFile p) st)
        ∨ (∃ m, heap st !! fileStates st = Some m ∧
             r = Throw (TypeError "Cannot read properties of null") ∧
             st' = set_heap
                     <[fileStates st :=
                         filter (fun kv => is_Some (files !! kv.1)) m]>
                     (log_syscall (ReadFile p) st))
        ∨ (∃ errno,
             fault st (Mkdir p) = Some errno ∧
             r = Throw (ChangeTrackerError HISTORY_WRITE_ERROR
                          "Failed to save change history"
                          (Some (SystemError errno (Mkdir p)))) ∧
             st' = log_syscall (Mkdir p)
                     (set_heap <[fileStates st := reconciled h files]>
                        (log_syscall (ReadFile p) st)))
        ∨ (∃ errno,
             fault st (Mkdir p) = None ∧
             fault st (WriteFile p (JSON_stringify (fingerprints files)))
             = Some errno ∧
             r = Throw (ChangeTrackerError HISTORY_WRITE_ERROR
                          "Failed to save change history"
                          (Some (SystemError errno
                                   (WriteFile p
                                      (JSON_stringify (fingerprints files)))))) ∧
             st' = (if torn st
                         (WriteFile p (JSON_stringify (fingerprints files)))
                    then set_disk <[p := Malformed]> else id)
                     (log_syscall
                        (WriteFile p (JSON_stringify (fingerprints files)))
                        (log_syscall (Mkdir p)
                           (set_heap <[fileStates st := reconciled h files]>
                              (log_syscall (ReadFile p) st)))))
        ∨ (r = Normal (fileStates st) ∧
           st' = set_disk <[p := JSON_stringify (fingerprints files)]>
                   (log_syscall
                      (WriteFile p (JSON_stringify (fingerprints files)))
                      (log_syscall (Mkdir p)
                         (set_heap <[fileStates st := reconciled h files]>
                            (log_syscall (ReadFile p) st))))))).
Proof.
  intros Hal Hrun.
  destruct (decide (enabled (config st) = Some true)) as [Hen|Hen]; last first.
  { left. rewrite trackChanges_disabled in Hrun by done. by simplify_eq. }
  right.
  destruct (historyPath (config st)) as [p|] eqn:Hp; last first.
  { left. rewrite trackChanges_unset in Hrun by auto. by simplify_eq. }
  destruct (decide (p = EmptyString)) as [->|Hne].
  { left. rewrite trackChanges_unset in Hrun by auto. by simplify_eq. }
  right.
  pose proof (loadHistory_set st p Hp Hne) as Hload.
  set (h := match fault st (ReadFile p), disk st !! p with
            | None, Some (Document value) => value
            | _, _ => JObject ∅
            end) in Hload.
  exists p, h. do 4 (split; [done|]).
  destruct (contents_cases files) as [Hok | (path & file & Hin & Hc)];
    last first.
  { left. rewrite (trackChanges_invalid _ _ _ _ _ _ Hen Hload Hin Hc) in Hrun.
    by simplify_eq. }
  right.
  destruct (history_cases h files) as [Hh | [Hnull Hfiles]]; last first.
  { left. rewrite Hnull in Hload. destruct Hal as [m Hm]. exists m.
    rewrite (trackChanges_null _ _ _ _ Hm Hen Hload Hok Hfiles) in Hrun.
    by simplify_eq. }
  right.
  rewrite (trackChanges_enabled _ _ _ _ Hal Hen Hload Hok Hh) in Hrun.
  rewrite run_bind, (saveHistory_set _ p) in Hrun by done.
  cbn [fault torn set_heap log_syscall] in Hrun.
  destruct (fault st (Mkdir p)) as [errno|] eqn:Hmk.
  { left. exists errno. by simplify_eq. }
  right.
  destruct (fault st (WriteFile p (JSON_stringify (fingerprints files))))
    as [errno|] eqn:Hwr.
  { left. exists errno. cbn zeta in Hrun.
    destruct (torn st (WriteFile p (JSON_stringify (fingerprints files))));
      by simplify_eq. }
  right. unfold mret, M_ret in Hrun. by simplify_eq.
Qed.

Lemma reconcile_stored (previous current : option value) :
  stored_state (reconcile previous current).
Proof.
  split; [|apply reconcile_previous].
  unfold reconcile. destruct (truthy previous); [|done]. cbn.
  by destruct (strict_neq previous current).
Qed.

(** ** What the runtime state can hold *)

(** The invariant behind X6: the tracker's map exists and holds stored
    states only. *)
Lemma trackChanges_stored (st st' : State) (files : FileDataCollection)
    (r : Completion loc) :
  allocated st ->
  (∀ path s, Map_contents (fileStates st) st !! path = Some s ->
             stored_state s) ->
  trackChanges files st = (r, st') ->
  ∀ path s, Map_contents (fileStates st') st' !! path = Some s ->
            stored_state s.
Proof.
  intros Hal Hinv Hrun path s.
  destruct (trackChanges_outcomes _ _ _ _ Hal Hrun)
    as [(Hen & _ & ->)
       |[(_ & _ & ->)
        |(p & h & _ & _ & _ & _ &
          [[_ ->]
          |[(m & Hm & _ & ->)
           |[(errno & _ & _ & ->)
            |[(errno & _ & _ & _ & ->)|[_ ->]]]]])]];
    unfold Map_contents; cbn.
  - rewrite lookup_total_insert_ne; [apply Hinv|].
    intros Heq. apply (is_fresh (dom (heap st))). rewrite Heq.
    by apply elem_of_dom.
  - apply Hinv.
  - apply Hinv.
  - rewrite lookup_total_insert_eq. intros Hs.
    apply map_lookup_filter_Some in Hs as [Hs _].
    apply (Hinv path). unfold Map_contents.
    by rewrite lookup_total_alt, Hm.
  - rewrite lookup_total_insert_eq, reconciled_lookup.
    destruct (files !! path); [|done]. intros [= <-]. apply reconcile_stored.
  - destruct (torn st (WriteFile p (JSON_stringify (fingerprints files))));
      cbn; rewrite lookup_total_insert_eq, reconciled_lookup;
      (destruct (files !! path); [|done]); intros [= <-];
      apply reconcile_stored.
  - rewrite lookup_total_insert_eq, reconciled_lookup.
    destruct (files !! path); [|done]. intros [= <-]. apply reconcile_stored.
Qed.

Lemma session_invariant (calls : list Call) (st : State) :
  allocated st ->
  (∀ path s, Map_contents (fileStates st) st !! path = Some s ->
             stored_state s) ->
  allocated (session calls st) ∧
  ∀ path s,
    Map_contents (fileStates (session calls st)) (session calls st) !! path
    = Some s ->
    stored_state s.
Proof.
  revert st. induction calls as [|c calls IH]; intros st Hal Hinv; [done|].
  cbn [session foldl]. apply IH; destruct c as [files|filepath| |options].
  - destruct (trackChanges files st) as [r st'] eqn:Hrun.
    unfold call, after. rewrite Hrun.
    by destruct (trackChanges_preserves _ _ _ _ Hal Hrun) as (_ & _ & _ & ?).
  - done.
  - by apply clearHistory_allocated.
  - by apply enable_allocated.
  - destruct (trackChanges files st) as [r st'] eqn:Hrun.
    unfold call, after. rewrite Hrun. cbn [snd].
    by apply (trackChanges_stored st st' files r).
  - done.
  - unfold call, after.
    destruct (historyPath (config st)) as [p|] eqn:Hp; last first.
    { by rewrite clearHistory_unset by auto. }
    destruct (decide (p = EmptyString)) as [->|Hne].
    { by rewrite clearHistory_unset by auto. }
    rewrite (clearHistory_set st p Hp Hne).
    destruct (fault st (Rm p)); [done|].
    intros path s. unfold Map_contents. cbn.
    by rewrite lookup_total_insert_eq, lookup_empty.
  - by destruct options.
Qed.

(** X6.  Whatever calls are made on a tracker, in whatever order and
    whether they return or throw, a state that [getFileState] returns
    never has the status [untracked], and has a previous fingerprint
    exactly when its status is [modified] or [unchanged]. *)
Theorem getFileState_returns_stored_states (cfg : ChangeTrackerConfig)
    (files : gmap string Text) (faults : Syscall -> option Errno)
    (tears : Syscall -> bool) (calls : list Call) (path : string)
    (s : FileChangeState) :
  completion (getFileState path)
    (session calls (constructor cfg files faults tears))
  = Normal (Some s) ->
  status s ≠ untracked ∧
  (is_Some (previousFingerprint s)
   ↔ status s = modified ∨ status s = unchanged).
Proof.
  intros Hget.
  destruct (session_invariant calls (constructor cfg files faults tears))
    as [_ Hinv].
  - apply constructor_allocated.
  - intros path' s'. unfold Map_contents. cbn.
    by rewrite lookup_total_singleton_eq, lookup_empty.
  - unfold completion in Hget. rewrite getFileState_run in Hget.
    injection Hget as Hget. exact (Hinv path s Hget).
Qed.

(** A tracker is used with tracking on, off and on again. *)
Lemma getFileState_returns_stored_states_witness :
  completion (getFileState "a.txt")
    (session [call_trackChanges files_x; call_enable (inl false);
              call_trackChanges files_y; call_enable (inl true);
              call_trackChanges files_y]
       (constructor sample_config ∅ no_faults no_tears))
  = Normal (Some {| status := modified;
                    previousFingerprint := Some (Parsed (JString
                      "9dd4e461268c8034f5c8564e155c67a6")) |}) ∧
  modified ≠ untracked ∧
  (is_Some (Some (Parsed (JString "9dd4e461268c8034f5c8564e155c67a6")))
   ↔ modified = modified ∨ modified = unchanged).
Proof.
  assert (completion (getFileState "a.txt")
            (session [call_trackChanges files_x; call_enable (inl false);
                      call_trackChanges files_y; call_enable (inl true);
                      call_trackChanges files_y]
               (constructor sample_config ∅ no_faults no_tears))
          = Normal (Some {| status := modified;
                            previousFingerprint := Some (Parsed (JString
                              "9dd4e461268c8034f5c8564e155c67a6")) |}))
    as Hget by (vm_compute; reflexivity).
  pose proof (getFileState_returns_stored_states sample_config ∅ no_faults
                no_tears
                [call_trackChanges files_x; call_enable (inl false);
                 call_trackChanges files_y; call_enable (inl true);
                 call_trackChanges files_y] "a.txt"
                {| status := modified;
                   previousFingerprint := Some (Parsed (JString
                     "9dd4e461268c8034f5c8564e155c67a6")) |}) as Hthm.
  exact (conj Hget (Hthm Hget)).
Defined.

(** ** What is thrown *)

(** X7.  An error that [trackChanges] or [clearHistory] throws is
    [HISTORY_PATH_NOT_SET] without a cause, [HISTORY_WRITE_ERROR] around
    the error of a file-system call, or a [TypeError] of the platform:
    never [HISTORY_READ_ERROR], and never a bare file-system or JSON
    error. *)
Theorem thrown_errors (st st' : State) (files : FileDataCollection)
    (e : Exception) :
  allocated st ->
  trackChanges files st = (Throw e, st') ∨ clearHistory st = (Throw e, st') ->
  surfaced e = true ∧
  (∀ message cause, e ≠ ChangeTrackerError HISTORY_READ_ERROR message cause).
Proof.
  intros Hal Hthrow.
  assert (surfaced e = true) as Hs.
  { destruct Hthrow as [Hrun | Hclear].
    - destruct (trackChanges_outcomes _ _ _ _ Hal Hrun)
        as [(_ & Hr & _)
           |[(_ & Hr & _)
            |(p & h & _ & _ & _ & _ &
              [[Hr _]
              |[(m & _ & Hr & _)
               |[(errno & _ & Hr & _)
                |[(errno & _ & _ & Hr & _)|[Hr _]]]]])]];
        by simplify_eq.
    - destruct (historyPath (config st)) as [p|] eqn:Hp; last first.
      { rewrite clearHistory_unset in Hclear by auto. by simplify_eq. }
      destruct (decide (p = EmptyString)) as [->|Hne].
      { rewrite clearHistory_unset in Hclear by auto. by simplify_eq. }
      rewrite (clearHistory_set st p Hp Hne) in Hclear.
      destruct (fault st (Rm p)); by simplify_eq. }
  split; [done|]. intros message cause ->. done.
Qed.

(** A save that is refused. *)
Lemma thrown_errors_witness :
  allocated unwritable_tracker ∧
  trackChanges files_x unwritable_tracker
  = (Throw (ChangeTrackerError HISTORY_WRITE_ERROR
              "Failed to save change history"
              (Some (SystemError EACCES (Mkdir history_json)))),
     after (trackChanges files_x) unwritable_tracker) ∧
  surfaced (ChangeTrackerError HISTORY_WRITE_ERROR
              "Failed to save change history"
              (Some (SystemError EACCES (Mkdir history_json)))) = true ∧
  (∀ message cause,
     ChangeTrackerError HISTORY_WRITE_ERROR "Failed to save change history"
       (Some (SystemError EACCES (Mkdir history_json)))
     ≠ ChangeTrackerError HISTORY_READ_ERROR message cause).
Proof.
  assert (allocated unwritable_tracker) as Hal by (exists ∅; reflexivity).
  assert (trackChanges files_x unwritable_tracker
          = (Throw (ChangeTrackerError HISTORY_WRITE_ERROR
                      "Failed to save change history"
                      (Some (SystemError EACCES (Mkdir history_json)))),
             after (trackChanges files_x) unwritable_tracker)) as Hrun
    by (vm_compute; reflexivity).
  pose proof (thrown_errors unwritable_tracker
                (after (trackChanges files_x) unwritable_tracker) files_x
                (ChangeTrackerError HISTORY_WRITE_ERROR
                   "Failed to save change history"
                   (Some (SystemError EACCES (Mkdir history_json)))))
    as Hthm.
  pose proof (Hthm Hal) as Hthm1.
  exact (conj Hal (conj Hrun (Hthm1 (or_introl Hrun)))).
Defined.

(** ** What a run does to the file system *)

(** X8.  The calls a run makes into the file system are an initial
    segment of: read the history file, create its directory, write it.
    A run never removes a file and never changes a file other than the
    history file.  A run that returns with tracking enabled has made all
    three calls, and the disk differs from before in the history file
    only, which holds the object written: it maps every input path but
    [__proto__] to the digest of its buffer and has no other property.
    A run that throws leaves every file as it was or the history file
    with a part of the text. *)
Theorem run_footprint (st st' : State) (files : FileDataCollection)
    (r : Completion loc) :
  allocated st ->
  trackChanges files st = (r, st') ->
  ∃ calls,
    syscalls st' = syscalls st ++ calls ∧
    (calls = []
     ∨ ∃ p, historyPath (config st) = Some p ∧
            calls `prefix_of`
              [ReadFile p; Mkdir p;
               WriteFile p (JSON_stringify (fingerprints files))]) ∧
    (∀ q, historyPath (config st) ≠ Some q -> disk st' !! q = disk st !! q) ∧
    (∀ q, is_Some (disk st !! q) -> is_Some (disk st' !! q)) ∧
    (∀ l p, r = Normal l -> enabled (config st) = Some true ->
            historyPath (config st) = Some p ->
            calls = [ReadFile p; Mkdir p;
                     WriteFile p (JSON_stringify (fingerprints files))] ∧
            disk st' = <[p := JSON_stringify (fingerprints files)]> (disk st) ∧
            fingerprints files !! "__proto__"%string = None ∧
            ∀ path,
              path ≠ "__proto__"%string ->
              match files !! path with
              | Some file =>
                  ∃ bytes, contents file = Buffer bytes ∧
                           fingerprints files !! path
                           = Some (MD5.digest_hex bytes)
              | None => fingerprints files !! path = None
              end) ∧
    (∀ e, r = Throw e ->
          disk st' = disk st
          ∨ ∃ p, historyPath (config st) = Some p ∧
                 disk st' = <[p := Malformed]> (disk st)).
Proof.
  intros Hal Hrun.
  destruct (trackChanges_outcomes _ _ _ _ Hal Hrun)
    as [(Hen & Hr & ->)
       |[(_ & Hr & ->)
        |(p & h & Hen & Hp & Hne & Hload &
          [[Hr ->]
          |[(m & _ & Hr & ->)
           |[(errno & _ & Hr & ->)
            |[(errno & _ & _ & Hr & ->)|[Hr ->]]]]])]].
  - exists []. rewrite app_nil_r. repeat split; try by auto.
    all: intros; congruence.
  - exists []. rewrite app_nil_r. repeat split; try by auto.
    all: intros; congruence.
  - exists [ReadFile p]. repeat split; try by auto.
    + right. exists p. split; [done|]. by eexists [_; _].
    + intros; congruence.
    + intros; congruence.
    + intros; congruence.
    + intros; congruence.
  - exists [ReadFile p]. repeat split; try by auto.
    + right. exists p. split; [done|]. by eexists [_; _].
    + intros; congruence.
    + intros; congruence.
    + intros; congruence.
    + intros; congruence.
  - exists [ReadFile p; Mkdir p]. repeat split; try by auto.
    + cbn. by rewrite <- app_assoc.
    + right. exists p. split; [done|]. by eexists [_].
    + intros; congruence.
    + intros; congruence.
    + intros; congruence.
    + intros; congruence.
  - exists [ReadFile p; Mkdir p;
            WriteFile p (JSON_stringify (fingerprints files))].
    destruct (torn st (WriteFile p (JSON_stringify (fingerprints files))));
      cbn [id]; repeat split; try by auto.
    all: try (intros; congruence).
    + cbn. by rewrite <- !app_assoc.
    + right. exists p. split; [done|]. by exists [].
    + intros q Hq. cbn. rewrite lookup_insert_ne; [done|]. congruence.
    + intros q Hq. cbn. destruct (decide (p = q)) as [->|Hpq].
      * by rewrite lookup_insert_eq.
      * by rewrite lookup_insert_ne.
    + intros e _. right. by exists p.
    + cbn. by rewrite <- !app_assoc.
    + right. exists p. split; [done|]. by exists [].
  - exists [ReadFile p; Mkdir p;
            WriteFile p (JSON_stringify (fingerprints files))].
    repeat split.
    + cbn. by rewrite <- !app_assoc.
    + right. exists p. split; [done|]. by exists [].
    + intros q Hq. cbn. rewrite lookup_insert_ne; [done|]. congruence.
    + intros q Hq. cbn. destruct (decide (p = q)) as [->|Hpq].
      * by rewrite lookup_insert_eq.
      * by rewrite lookup_insert_ne.
    + congruence.
    + assert (p0 = p) as -> by congruence. done.
    + by rewrite fingerprints_lookup.
    + intros path Hpath. rewrite fingerprints_lookup, decide_False by done.
      rewrite Hr in Hrun.
      destruct (trackChanges_enabled_Normal _ _ _ _ Hal Hen Hrun)
        as (_ & _ & _ & _ & _ & Hok & _).
      destruct (files !! path) as [file|] eqn:Hin; [|done].
      pose proof (Hok path file Hin) as Hbuf.
      destruct (contents file) as [bytes|] eqn:Hc; [|done].
      exists bytes. split; [done|]. cbn. unfold createFingerprint.
      by rewrite Hc.
    + intros e He. congruence.
Qed.

(** The first run of a tracker. *)
Lemma run_footprint_witness :
  allocated fresh_tracker ∧
  trackChanges files_x fresh_tracker = (Normal 1%positive, seen_x) ∧
  ∃ calls,
    syscalls seen_x = syscalls fresh_tracker ++ calls ∧
    (calls = []
     ∨ ∃ p, historyPath (config fresh_tracker) = Some p ∧
            calls `prefix_of`
              [ReadFile p; Mkdir p;
               WriteFile p (JSON_stringify (fingerprints files_x))]) ∧
    (∀ q, historyPath (config fresh_tracker) ≠ Some q ->
          disk seen_x !! q = disk fresh_tracker !! q) ∧
    (∀ q, is_Some (disk fresh_tracker !! q) -> is_Some (disk seen_x !! q)) ∧
    (∀ l p, Normal 1%positive = Normal l ->
            enabled (config fresh_tracker) = Some true ->
            historyPath (config fresh_tracker) = Some p ->
            calls = [ReadFile p; Mkdir p;
                     WriteFile p (JSON_stringify (fingerprints files_x))] ∧
            disk seen_x
            = <[p := JSON_stringify (fingerprints files_x)]>
                (disk fresh_tracker) ∧
            fingerprints files_x !! "__proto__"%string = None ∧
            ∀ path,
              path ≠ "__proto__"%string ->
              match files_x !! path with
              | Some file =>
                  ∃ bytes, contents file = Buffer bytes ∧
                           fingerprints files_x !! path
                           = Some (MD5.digest_hex bytes)
              | None => fingerprints files_x !! path = None
              end) ∧
    (∀ e, Normal 1%positive = Throw e ->
          disk seen_x = disk fresh_tracker
          ∨ ∃ p, historyPath (config fresh_tracker) = Some p ∧
                 disk seen_x = <[p := Malformed]> (disk fresh_tracker)).
Proof.
  assert (allocated fresh_tracker) as Hal by (exists ∅; reflexivity).
  assert (trackChanges files_x fresh_tracker = (Normal 1%positive, seen_x))
    as Hrun by (vm_compute; reflexivity).
  pose proof (run_footprint fresh_tracker seen_x files_x (Normal 1%positive))
    as Hthm.
  pose proof (Hthm Hal) as Hthm1.
  exact (conj Hal (conj Hrun (Hthm1 Hrun))).
Defined.

(** ** Edge cases of a run *)

Lemma fingerprints_empty : fingerprints ∅ = ∅.
Proof. unfold fingerprints. by rewrite omap_empty, delete_empty. Qed.

(** X10.  An enabled run on no files, on a file system that lets the
    save through, returns whatever the history file holds (even [null]
    or text that is not JSON): it leaves the runtime state empty and the
    history file holding the empty object. *)
Theorem empty_input_resets (st : State) (p : string) :
  allocated st ->
  enabled (config st) = Some true ->
  historyPath (config st) = Some p -> p ≠ EmptyString ->
  fault st (Mkdir p) = None ->
  fault st (WriteFile p (JSON_stringify ∅)) = None ->
  ∃ st',
    trackChanges ∅ st = (Normal (fileStates st), st') ∧
    disk st' !! p = Some (Document (JObject ∅)) ∧
    ∀ path, completion (getFileState path) st' = Normal None.
Proof.
  intros Hal Hen Hp Hne Hmk Hwr.
  pose proof (loadHistory_set st p Hp Hne) as Hload.
  assert (∀ path file, (∅ : FileDataCollection) !! path = Some file ->
                       contents file ≠ Undefined) as Hok.
  { intros path file. by rewrite lookup_empty. }
  rewrite <- fingerprints_empty in Hwr.
  rewrite (trackChanges_enabled_returns st _ ∅ _ p Hal Hen Hp Hload Hok
             (or_intror eq_refl) Hmk Hwr).
  eexists. split; [reflexivity|]. split.
  - cbn. rewrite lookup_insert_eq, fingerprints_empty. unfold JSON_stringify.
    by rewrite fmap_empty.
  - intros path. unfold completion. rewrite getFileState_run.
    unfold Map_contents. cbn.
    by rewrite lookup_total_insert_eq, reconciled_lookup, lookup_empty.
Qed.

(** The history file holds [null]. *)
Lemma empty_input_resets_witness :
  allocated null_history_tracker ∧
  enabled (config null_history_tracker) = Some true ∧
  historyPath (config null_history_tracker) = Some history_json ∧
  history_json ≠ EmptyString ∧
  fault null_history_tracker (Mkdir history_json) = None ∧
  fault null_history_tracker (WriteFile history_json (JSON_stringify ∅))
  = None ∧
  ∃ st',
    trackChanges ∅ null_history_tracker
    = (Normal (fileStates null_history_tracker), st') ∧
    disk st' !! history_json = Some (Document (JObject ∅)) ∧
    ∀ path, completion (getFileState path) st' = Normal None.
Proof.
  assert (allocated null_history_tracker) as Hal by (exists ∅; reflexivity).
  assert (enabled (config null_history_tracker) = Some true) as Hen
    by reflexivity.
  assert (historyPath (config null_history_tracker) = Some history_json)
    as Hp by reflexivity.
  assert (history_json ≠ EmptyString) as Hne by discriminate.
  assert (fault null_history_tracker (Mkdir history_json) = None) as Hmk
    by reflexivity.
  assert (fault null_history_tracker
            (WriteFile history_json (JSON_stringify ∅)) = None) as Hwr
    by reflexivity.
  pose proof (empty_input_resets null_history_tracker history_json) as Hthm.
  pose proof (Hthm Hal) as Hthm1. pose proof (Hthm1 Hen) as Hthm2.
  pose proof (Hthm2 Hp) as Hthm3. pose proof (Hthm3 Hne) as Hthm4.
  pose proof (Hthm4 Hmk) as Hthm5.
  exact (conj Hal (conj Hen (conj Hp (conj Hne (conj Hmk (conj Hwr
    (Hthm5 Hwr))))))).
Defined.

(** X11.  When the history file holds the JSON text [null], an enabled
    run on at least one file, all with buffers, throws a [TypeError]
    after the read: nothing is saved and the disk is as before, yet the
    states of the paths missing from the input have already been dropped
    from the runtime state, the other states being left as they were. *)
Theorem null_history_throws (st : State) (files : FileDataCollection)
    (p : string) :
  allocated st ->
  enabled (config st) = Some true ->
  historyPath (config st) = Some p -> p ≠ EmptyString ->
  fault st (ReadFile p) = None ->
  disk st !! p = Some (Document JNull) ->
  (∀ path file, files !! path = Some file -> contents file ≠ Undefined) ->
  files ≠ ∅ ->
  ∃ st',
    trackChanges files st
    = (Throw (TypeError "Cannot read properties of null"), st') ∧
    disk st' = disk st ∧
    syscalls st' = syscalls st ++ [ReadFile p] ∧
    ∀ path,
      (is_Some (files !! path) ->
       completion (getFileState path) st'
       = completion (getFileState path) st) ∧
      (files !! path = None ->
       completion (getFileState path) st' = Normal None).
Proof.
  intros [m Hm] Hen Hp Hne Hread Hdisk Hok Hfiles.
  pose proof (loadHistory_set st p Hp Hne) as Hload.
  rewrite Hread, Hdisk in Hload.
  rewrite (trackChanges_null _ _ _ _ Hm Hen Hload Hok Hfiles).
  eexists. split; [reflexivity|]. do 2 (split; [done|]).
  intros path. unfold completion. rewrite !getFileState_run.
  unfold Map_contents. cbn.
  rewrite lookup_total_insert_eq, (lookup_total_alt (heap st)), Hm. cbn.
  split.
  - intros Hin. f_equal. destruct (m !! path) as [s|] eqn:Hs.
    + by apply map_lookup_filter_Some.
    + apply map_lookup_filter_None. by left.
  - intros Hout. f_equal. apply map_lookup_filter_None. right.
    intros s _ [file Hfile]. cbn in Hfile. congruence.
Qed.

(** [b.txt] is no longer given; the history file holds [null]. *)
Lemma null_history_throws_witness :
  allocated nulled_tracker ∧
  enabled (config nulled_tracker) = Some true ∧
  historyPath (config nulled_tracker) = Some history_json ∧
  history_json ≠ EmptyString ∧
  fault nulled_tracker (ReadFile history_json) = None ∧
  disk nulled_tracker !! history_json = Some (Document JNull) ∧
  (∀ path file, files_x !! path = Some file -> contents file ≠ Undefined) ∧
  files_x ≠ ∅ ∧
  completion (getFileState "b.txt") nulled_tracker
  = Normal (Some {| status := new; previousFingerprint := None |}) ∧
  ∃ st',
    trackChanges files_x nulled_tracker
    = (Throw (TypeError "Cannot read properties of null"), st') ∧
    disk st' = disk nulled_tracker ∧
    syscalls st' = syscalls nulled_tracker ++ [ReadFile history_json] ∧
    ∀ path,
      (is_Some (files_x !! path) ->
       completion (getFileState path) st'
       = completion (getFileState path) nulled_tracker) ∧
      (files_x !! path = None ->
       completion (getFileState path) st' = Normal None).
Proof.
  assert (allocated nulled_tracker) as Hal
    by (eexists; vm_compute; reflexivity).
  assert (enabled (config nulled_tracker) = Some true) as Hen
    by (vm_compute; reflexivity).
  assert (historyPath (config nulled_tracker) = Some history_json) as Hp
    by (vm_compute; reflexivity).
  assert (history_json ≠ EmptyString) as Hne by discriminate.
  assert (fault nulled_tracker (ReadFile history_json) = None) as Hread
    by (vm_compute; reflexivity).
  assert (disk nulled_tracker !! history_json = Some (Document JNull))
    as Hdisk by (vm_compute; reflexivity).
  assert (∀ path file, files_x !! path = Some file ->
                       contents file ≠ Undefined) as Hok.
  { intros path file Hin. unfold files_x in Hin.
    apply lookup_singleton_Some in Hin as [_ <-]. discriminate. }
  assert (files_x ≠ ∅) as Hfiles.
  { unfold files_x. apply insert_non_empty. }
  assert (completion (getFileState "b.txt") nulled_tracker
          = Normal (Some {| status := new; previousFingerprint := None |}))
    as Hb by (vm_compute; reflexivity).
  pose proof (null_history_throws nulled_tracker files_x history_json)
    as Hthm.
  pose proof (Hthm Hal) as Hthm1. pose proof (Hthm1 Hen) as Hthm2.
  pose proof (Hthm2 Hp) as Hthm3. pose proof (Hthm3 Hne) as Hthm4.
  pose proof (Hthm4 Hread) as Hthm5. pose proof (Hthm5 Hdisk) as Hthm6.
  pose proof (Hthm6 Hok) as Hthm7.
  exact (conj Hal (conj Hen (conj Hp (conj Hne (conj Hread (conj Hdisk
    (conj Hok (conj Hfiles (conj Hb (Hthm7 Hfiles)))))))))).
Defined.

(** ** The status, read backwards *)

Lemma Intrinsic_eqb_eq (a b : Intrinsic) : Intrinsic_eqb a b = true ↔ a = b.
Proof. by destruct a, b. Qed.

(** [!==] against a fingerprint read from [newFingerprints]. *)
Lemma strict_neq_string (previous : option value) (current : string) :
  strict_neq previous (Some (Parsed (JString current))) = false
  ↔ previous = Some (Parsed (JString current)).
Proof.
  split.
  - destruct previous as [[[| | |s| |]| |]|]; cbn; try done.
    intros Hs. apply negb_false_iff, String.eqb_eq in Hs. by subst s.
  - intros ->. cbn. by rewrite String.eqb_refl.
Qed.

Lemma strict_neq_prototype (previous : option value) (proto : Intrinsic) :
  strict_neq previous (Some (Prototype proto)) = false
  ↔ previous = Some (Prototype proto).
Proof.
  split.
  - destruct previous as [[[| | | | |]| |q]|]; cbn; try done.
    intros Hq. apply negb_false_iff, Intrinsic_eqb_eq in Hq. by subst q.
  - intros ->. cbn. apply negb_false_iff. by apply Intrinsic_eqb_eq.
Qed.

Lemma reconcile_status (previous : option value) (current : value) :
  truthy (Some current) = true ->
  (strict_neq previous (Some current) = false ↔ previous = Some current) ->
  (status (reconcile previous (Some current)) = unchanged
   ↔ previous = Some current) ∧
  (status (reconcile previous (Some current)) = new ↔ falsy previous) ∧
  (status (reconcile previous (Some current)) = modified
   ↔ ¬ falsy previous ∧ previous ≠ Some current) ∧
  (status (reconcile previous (Some current)) = new ->
   previousFingerprint (reconcile previous (Some current)) = None) ∧
  (status (reconcile previous (Some current)) ≠ new ->
   previousFingerprint (reconcile previous (Some current)) = previous).
Proof.
  intros Hcurrent Hneq. rewrite <- truthy_falsy. unfold reconcile.
  destruct (truthy previous) eqn:Ht; cbn.
  - destruct (strict_neq previous (Some current)) eqn:Hs; cbn.
    + repeat split; try done.
      * intros Heq. apply Hneq in Heq. congruence.
      * intros Heq. apply Hneq in Heq. congruence.
    + pose proof (proj1 Hneq eq_refl) as ->.
      repeat split; try done. by intros [_ ?].
  - repeat split; try done.
    + intros ->. congruence.
    + by intros [? _].
Qed.

(** X12.  In an enabled run that returns, the status given to an input
    path tells what reading the loaded history under that path gave:
    [unchanged] exactly when it gave the fingerprint just computed (for
    the path [__proto__], the object [Object.prototype]); [new] exactly
    when it gave [undefined], [null], [false], zero or the empty string;
    [modified] in every other case, whether the value was another
    fingerprint, no string at all, or a function inherited from a
    prototype.  The previous fingerprint is the value read, unless the
    status is [new]. *)
Theorem status_tells_history (st st1 st' : State)
    (files : FileDataCollection) (h : json) (l : loc) (path : string)
    (bytes : list byte) :
  allocated st ->
  enabled (config st) = Some true ->
  loadHistory st = (Normal h, st1) ->
  trackChanges files st = (Normal l, st') ->
  files !! path = Some {| contents := Buffer bytes |} ->
  ∃ s current,
    Map_contents l st' !! path = Some s ∧
    current = (if decide (path = "__proto__"%string)
               then Prototype Object_prototype
               else Parsed (JString (MD5.digest_hex bytes))) ∧
    (status s = unchanged ↔ property h path = Some current) ∧
    (status s = new ↔ falsy (property h path)) ∧
    (status s = modified
     ↔ ¬ falsy (property h path) ∧ property h path ≠ Some current) ∧
    (status s = new -> previousFingerprint s = None) ∧
    (status s ≠ new -> previousFingerprint s = property h path) ∧
    (∀ members own,
       h = JObject members -> members !! path = Some own ->
       property h path = Some (Parsed own)) ∧
    (∀ members,
       h = JObject members -> members !! path = None ->
       inherited_name path = false -> property h path = None) ∧
    (∀ members,
       h = JObject members -> members !! path = None ->
       inherited_name path = true ->
       property h path
       = Some (if decide (path = "__proto__"%string)
               then Prototype Object_prototype
               else Method Object_prototype path)).
Proof.
  intros Hal Hen Hload Hrun Hin.
  destruct (trackChanges_enabled_Normal _ _ _ _ Hal Hen Hrun)
    as (p & h' & Hp & Hne & Hload' & Hok & Hh & -> & ->).
  rewrite Hload in Hload'. injection Hload' as -> _.
  eexists _, _. split.
  { unfold Map_contents. cbn.
    rewrite lookup_total_insert_eq, reconciled_lookup, Hin. cbn.
    by rewrite (current_fingerprint files path _ bytes Hin eq_refl). }
  split; [reflexivity|].
  assert (∀ A B C D E F G H : Prop,
            A ∧ B ∧ C ∧ D ∧ E -> F -> G -> H ->
            A ∧ B ∧ C ∧ D ∧ E ∧ F ∧ G ∧ H)
    as Hjoin by tauto.
  apply Hjoin.
  - apply reconcile_status.
    + case_decide; [done|]. cbn. apply negb_true_iff, String.eqb_neq.
      apply digest_hex_nonempty.
    + case_decide.
      * apply strict_neq_prototype.
      * apply strict_neq_string.
  - intros members own -> Hown. by rewrite property_object, Hown.
  - intros members -> Hnone Hname.
    rewrite property_object, Hnone. by apply inherited_name_false.
  - intros members -> Hnone Hname.
    rewrite property_object, Hnone, inherited_name_spec.
    unfold inherited_name in Hname. case_decide as Hproto.
    + by subst path.
    + apply String.eqb_neq in Hproto. rewrite Hproto in Hname |- *.
      rewrite orb_false_l in Hname. by rewrite Hname.
Qed.

(** A history that maps [a.txt] to a number. *)
Lemma status_tells_history_witness :
  allocated tampered_tracker ∧
  enabled (config tampered_tracker) = Some true ∧
  loadHistory tampered_tracker
  = (Normal tampered_history, after loadHistory tampered_tracker) ∧
  trackChanges files_x tampered_tracker
  = (Normal 1%positive, after (trackChanges files_x) tampered_tracker) ∧
  files_x !! "a.txt"%string = Some {| contents := Buffer (Buffer_from "x") |} ∧
  property tampered_history "a.txt" = Some (Parsed (JNumber 42)) ∧
  ∃ s current,
    Map_contents 1%positive (after (trackChanges files_x) tampered_tracker)
      !! "a.txt"%string = Some s ∧
    current = (if decide ("a.txt"%string = "__proto__"%string)
               then Prototype Object_prototype
               else Parsed (JString (MD5.digest_hex (Buffer_from "x")))) ∧
    (status s = unchanged
     ↔ property tampered_history "a.txt" = Some current) ∧
    (status s = new ↔ falsy (property tampered_history "a.txt")) ∧
    (status s = modified
     ↔ ¬ falsy (property tampered_history "a.txt")
       ∧ property tampered_history "a.txt" ≠ Some current) ∧
    (status s = new -> previousFingerprint s = None) ∧
    (status s ≠ new ->
     previousFingerprint s = property tampered_history "a.txt") ∧
    (∀ members own,
       tampered_history = JObject members ->
       members !! "a.txt"%string = Some own ->
       property tampered_history "a.txt" = Some (Parsed own)) ∧
    (∀ members,
       tampered_history = JObject members ->
       members !! "a.txt"%string = None ->
       inherited_name "a.txt" = false ->
       property tampered_history "a.txt" = None) ∧
    (∀ members,
       tampered_history = JObject members ->
       members !! "a.txt"%string = None ->
       inherited_name "a.txt" = true ->
       property tampered_history "a.txt"
       = Some (if decide ("a.txt"%string = "__proto__"%string)
               then Prototype Object_prototype
               else Method Object_prototype "a.txt")).
Proof.
  assert (allocated tampered_tracker) as Hal by (exists ∅; reflexivity).
  assert (enabled (config tampered_tracker) = Some true) as Hen
    by reflexivity.
  assert (loadHistory tampered_tracker
          = (Normal tampered_history, after loadHistory tampered_tracker))
    as Hload by (vm_compute; reflexivity).
  assert (trackChanges files_x tampered_tracker
          = (Normal 1%positive,
             after (trackChanges files_x) tampered_tracker))
    as Hrun by (vm_compute; reflexivity).
  assert (files_x !! "a.txt"%string
          = Some {| contents := Buffer (Buffer_from "x") |}) as Hin
    by (vm_compute; reflexivity).
  assert (property tampered_history "a.txt" = Some (Parsed (JNumber 42)))
    as Hold by (vm_compute; reflexivity).
  pose proof (status_tells_history tampered_tracker
                (after loadHistory tampered_tracker)
                (after (trackChanges files_x) tampered_tracker)
                files_x tampered_history 1%positive "a.txt"
                (Buffer_from "x")) as Hthm.
  pose proof (Hthm Hal) as Hthm1. pose proof (Hthm1 Hen) as Hthm2.
  pose proof (Hthm2 Hload) as Hthm3. pose proof (Hthm3 Hrun) as Hthm4.
  exact (conj Hal (conj Hen (conj Hload (conj Hrun (conj Hin (conj Hold
    (Hthm4 Hin))))))).
Defined.

(** ** [enable] *)

(** X13.  [enable(false)] takes effect at once and touches the flag
    only: the next run returns a new map giving every input path the
    status [untracked], makes no call into the file system and leaves
    the disk, the history path and the answers of [getFileState] as they
    were.  On a tracker that was enabled, [enable(false)] followed by
    [enable(true)] gives back the very state it started from. *)
Theorem enable_flag_only (st : State) (files : FileDataCollection) :
  allocated st ->
  (∃ l st',
     (enable (inl false);; trackChanges files) st = (Normal l, st') ∧
     (∀ path,
        Map_contents l st' !! path
        = (fun _ => {| status := untracked; previousFingerprint := None |})
          <$> files !! path) ∧
     disk st' = disk st ∧ syscalls st' = syscalls st ∧
     historyPath (config st') = historyPath (config st) ∧
     l ≠ fileStates st' ∧
     ∀ path, completion (getFileState path) st'
             = completion (getFileState path) st) ∧
  (enabled (config st) = Some true ->
   after (enable (inl false);; enable (inl true)) st = st).
Proof.
  intros Hal. split.
  - rewrite run_bind. cbn [enable modify].
    set (st1 := set_config _ st).
    assert (enabled (config st1) ≠ Some true) as Hen by done.
    rewrite (trackChanges_disabled st1 files Hen). subst st1.
    eexists _, _. split; [reflexivity|]. cbn.
    assert (fresh (dom (heap st)) ≠ fileStates st) as Hfresh.
    { intros Heq. apply (is_fresh (dom (heap st))). rewrite Heq.
      by apply elem_of_dom. }
    repeat split; try done.
    + intros path. unfold Map_contents. cbn.
      by rewrite lookup_total_insert_eq, lookup_fmap.
    + intros path. unfold completion. rewrite !getFileState_run.
      unfold Map_contents. cbn. by rewrite lookup_total_insert_ne.
  - intros Hen. destruct st as [[hp en] fs hp' d f sc]. cbn in Hen.
    subst en. reflexivity.
Qed.

(** The test "should affect tracking behavior immediately". *)
Lemma enable_flag_only_witness :
  allocated seen_x ∧
  enabled (config seen_x) = Some true ∧
  (∃ l st',
     (enable (inl false);; trackChanges files_y) seen_x = (Normal l, st') ∧
     (∀ path,
        Map_contents l st' !! path
        = (fun _ => {| status := untracked; previousFingerprint := None |})
          <$> files_y !! path) ∧
     disk st' = disk seen_x ∧ syscalls st' = syscalls seen_x ∧
     historyPath (config st') = historyPath (config seen_x) ∧
     l ≠ fileStates st' ∧
     ∀ path, completion (getFileState path) st'
             = completion (getFileState path) seen_x) ∧
  after (enable (inl false);; enable (inl true)) seen_x = seen_x.
Proof.
  assert (allocated seen_x) as Hal by (eexists; vm_compute; reflexivity).
  assert (enabled (config seen_x) = Some true) as Hen
    by (vm_compute; reflexivity).
  pose proof (enable_flag_only seen_x files_y) as Hthm.
  pose proof (Hthm Hal) as Hthm1.
  exact (conj Hal (conj Hen (conj (proj1 Hthm1) (proj2 Hthm1 Hen)))).
Defined.

(** X14.  [enable] with a configuration object that names a history
    path moves the tracker to that file, and sets the flag to whatever
    the object has under [enabled]: the current flag when the object
    leaves the field out, the value of the field when it is written,
    [undefined] included.  When the flag is then true, a run that
    returns has read, created the directory of and written the new
    path, the disk differs from before in that file only, and a file at
    the old path is left as it was.  When the flag is then not true, as
    after [enable({ historyPath, enabled: undefined })], the run is a
    disabled one: it makes no call and changes no file.  An object that
    has only [enabled] does what the boolean does, and an object whose
    [historyPath] is [undefined] leaves the tracker without a path. *)
Theorem enable_moves_history (st st2 : State) (files : FileDataCollection)
    (q : string) (field : Field bool) (l : loc) :
  allocated st ->
  trackChanges files
    (after (enable (inr {| historyPath_field := Present (Some q);
                           enabled_field := field |})) st)
  = (Normal l, st2) ->
  (field = Present (Some true)
   ∨ (field = Absent ∧ enabled (config st) = Some true) ->
   syscalls st2
   = syscalls st ++ [ReadFile q; Mkdir q;
                     WriteFile q (JSON_stringify (fingerprints files))] ∧
   disk st2 = <[q := JSON_stringify (fingerprints files)]> (disk st) ∧
   (∀ p, p ≠ q -> disk st2 !! p = disk st !! p)) ∧
  (field = Present None ∨ field = Present (Some false)
   ∨ (field = Absent ∧ enabled (config st) ≠ Some true) ->
   syscalls st2 = syscalls st ∧ disk st2 = disk st ∧
   l ≠ fileStates st ∧
   ∀ path,
     Map_contents l st2 !! path
     = (fun _ => {| status := untracked; previousFingerprint := None |})
       <$> files !! path) ∧
  (∀ flag,
     after (enable (inr {| historyPath_field := Absent;
                           enabled_field := Present (Some flag) |})) st
     = after (enable (inl flag)) st) ∧
  (enabled (config st) = Some true ->
   completion (trackChanges files)
     (after (enable (inr {| historyPath_field := Present None;
                            enabled_field := Absent |})) st)
   = Throw (ChangeTrackerError HISTORY_PATH_NOT_SET
              "History path must be set to track changes" None)).
Proof.
  intros Hal Hrun.
  set (st1 := after (enable
                (inr {| historyPath_field := Present (Some q);
                        enabled_field := field |})) st) in Hrun.
  assert (allocated st1) as Hal1 by by apply enable_allocated.
  assert (historyPath (config st1) = Some q) as Hq by done.
  assert (enabled (config st1) = spread (enabled (config st)) field) as Hflag
    by done.
  split; [|split; [|split]].
  - intros Hon.
    assert (enabled (config st1) = Some true) as Hen.
    { rewrite Hflag. by destruct Hon as [-> | [-> ?]]. }
    destruct (trackChanges_enabled_Normal _ _ _ _ Hal1 Hen Hrun)
      as (p & h & Hp & Hne & _ & _ & _ & _ & ->).
    assert (p = q) as -> by congruence.
    subst st1. cbn. repeat split.
    + by rewrite <- !app_assoc.
    + intros p Hpq. by rewrite lookup_insert_ne.
  - intros Hoff.
    assert (enabled (config st1) ≠ Some true) as Hen.
    { rewrite Hflag. by destruct Hoff as [-> | [-> | [-> ?]]]. }
    rewrite (trackChanges_disabled st1 files Hen) in Hrun.
    injection Hrun as <- <-. subst st1. cbn.
    assert (fresh (dom (heap st)) ≠ fileStates st) as Hfresh.
    { intros Heq. apply (is_fresh (dom (heap st))). rewrite Heq.
      by apply elem_of_dom. }
    repeat split; try done.
    intros path. unfold Map_contents. cbn.
    by rewrite lookup_total_insert_eq, lookup_fmap.
  - done.
  - intros Hen. unfold completion.
    by rewrite trackChanges_unset by (done || by left).
Qed.

(** The test "should update config with ChangeTrackerConfig parameter":
    a tracker with a history at [history.json] is moved to
    [other.json]. *)
Lemma enable_moves_history_witness :
  allocated seen_x ∧
  trackChanges files_x (after (enable switch_history) seen_x)
  = (Normal 1%positive,
     after (trackChanges files_x) (after (enable switch_history) seen_x)) ∧
  syscalls (after (trackChanges files_x) (after (enable switch_history) seen_x))
  = syscalls seen_x
    ++ [ReadFile other_json; Mkdir other_json;
        WriteFile other_json (JSON_stringify (fingerprints files_x))] ∧
  disk (after (trackChanges files_x) (after (enable switch_history) seen_x))
  = <[other_json := JSON_stringify (fingerprints files_x)]> (disk seen_x) ∧
  (∀ p, p ≠ other_json ->
        disk (after (trackChanges files_x)
                (after (enable switch_history) seen_x)) !! p
        = disk seen_x !! p) ∧
  completion (getFileState "a.txt")
    (after (trackChanges files_x) (after (enable switch_history) seen_x))
  = Normal (Some {| status := new; previousFingerprint := None |}).
Proof.
  assert (allocated seen_x) as Hal by (eexists; vm_compute; reflexivity).
  assert (trackChanges files_x (after (enable switch_history) seen_x)
          = (Normal 1%positive,
             after (trackChanges files_x)
               (after (enable switch_history) seen_x)))
    as Hrun by (vm_compute; reflexivity).
  assert (completion (getFileState "a.txt")
            (after (trackChanges files_x)
               (after (enable switch_history) seen_x))
          = Normal (Some {| status := new; previousFingerprint := None |}))
    as Hnew by (vm_compute; reflexivity).
  pose proof (enable_moves_history seen_x
                (after (trackChanges files_x)
                   (after (enable switch_history) seen_x))
                files_x other_json (Present (Some true)) 1%positive) as Hthm.
  pose proof (Hthm Hal) as Hthm1. pose proof (Hthm1 Hrun) as Hthm2.
  destruct (proj1 Hthm2 (or_introl eq_refl)) as (H1 & H2 & H3).
  exact (conj Hal (conj Hrun (conj H1 (conj H2 (conj H3 Hnew))))).
Defined.

(** ** A disabled run between enabled runs *)

(** An enabled run does not look at a [Map] other than the tracker's
    own, whether it exists or not. *)
Lemma trackChanges_frame_enabled (st : State) (files : FileDataCollection)
    (l : loc) (X : FileStates) :
  allocated st ->
  enabled (config st) = Some true ->
  l ≠ fileStates st ->
  trackChanges files (set_heap <[l := X]> st)
  = (completion (trackChanges files) st,
     set_heap <[l := X]> (after (trackChanges files) st)).
Proof.
  intros Hal Hen Hl. unfold completion, after.
  assert (allocated (set_heap <[l := X]> st)) as Hal'.
  { unfold allocated. cbn. by rewrite lookup_insert_ne. }
  assert (fileStates st ≠ l) as Hl' by congruence.
  destruct (historyPath (config st)) as [p|] eqn:Hp; last first.
  { by rewrite !trackChanges_unset by auto. }
  destruct (decide (p = EmptyString)) as [->|Hne].
  { by rewrite !trackChanges_unset by auto. }
  pose proof (loadHistory_set st p Hp Hne) as Hload.
  pose proof (loadHistory_set (set_heap <[l := X]> st) p Hp Hne) as Hload'.
  cbn [fault disk set_heap] in Hload'.
  set (h := match fault st (ReadFile p), disk st !! p with
            | None, Some (Document value) => value
            | _, _ => JObject ∅
            end) in Hload, Hload'.
  destruct (contents_cases files) as [Hok | (path & file & Hfile & Hc)];
    last first.
  { rewrite (trackChanges_invalid _ _ _ _ _ _ Hen Hload Hfile Hc).
    by rewrite (trackChanges_invalid (set_heap <[l := X]> st) _ _ _ _ _
                  Hen Hload' Hfile Hc). }
  destruct (history_cases h files) as [Hh | [Hnull Hfiles]].
  - rewrite (trackChanges_enabled _ _ _ _ Hal Hen Hload Hok Hh).
    rewrite (trackChanges_enabled _ _ _ _ Hal' Hen Hload' Hok Hh).
    rewrite !run_bind, !(saveHistory_set _ p) by done.
    cbn [fault torn fileStates set_heap log_syscall].
    destruct (fault st (Mkdir p));
      [|destruct (fault st (WriteFile p (JSON_stringify (fingerprints files))));
        [destruct (torn st (WriteFile p (JSON_stringify (fingerprints files))))
        |]];
      unfold mret, M_ret, set_heap, set_disk, log_syscall; cbn;
      by rewrite (insert_insert_ne (heap st) (fileStates st) l).
  - rewrite Hnull in Hload, Hload'. destruct Hal as [m Hm].
    rewrite (trackChanges_null _ _ _ _ Hm Hen Hload Hok Hfiles).
    assert (heap (set_heap <[l := X]> st)
              !! fileStates (set_heap <[l := X]> st) = Some m) as Hm'.
    { cbn. by rewrite lookup_insert_ne. }
    rewrite (trackChanges_null _ _ _ _ Hm' Hen Hload' Hok Hfiles).
    unfold set_heap, log_syscall. cbn.
    by rewrite (insert_insert_ne (heap st) (fileStates st) l).
Qed.

(** X15.  A run made while tracking is disabled leaves no trace for the
    tracker: once tracking is enabled again, the next run completes the
    same way, leaves the same disk and the same answers of
    [getFileState], and has made the same calls, as if the disabled run
    had never been made. *)
Theorem disabled_run_leaves_no_trace (st : State)
    (files1 files2 : FileDataCollection) (path : string) :
  allocated st ->
  enabled (config st) ≠ Some true ->
  let with_run :=
    after (trackChanges files1;; enable (inl true);; trackChanges files2) st in
  let without :=
    after (enable (inl true);; trackChanges files2) st in
  completion (trackChanges files1;; enable (inl true);; trackChanges files2) st
  = completion (enable (inl true);; trackChanges files2) st ∧
  disk with_run = disk without ∧
  syscalls with_run = syscalls without ∧
  completion (getFileState path) with_run
  = completion (getFileState path) without.
Proof.
  intros Hal Hen. cbn zeta. unfold completion, after.
  rewrite !run_bind, (trackChanges_disabled st files1 Hen).
  rewrite !run_bind. cbn [enable modify].
  set (l := fresh (dom (heap st))).
  set (X := (fun _ => {| status := untracked; previousFingerprint := None |})
            <$> files1).
  set (st1 := set_config
                (fun cfg => {| historyPath := historyPath cfg;
                               enabled := Some true |}) st).
  assert (set_config
            (fun cfg => {| historyPath := historyPath cfg;
                           enabled := Some true |})
            (set_heap <[l := X]> st)
          = set_heap <[l := X]> st1) as -> by reflexivity.
  assert (allocated st1) as Hal1 by done.
  assert (l ≠ fileStates st1) as Hl.
  { subst l. intros Heq. apply (is_fresh (dom (heap st))). rewrite Heq.
    by apply elem_of_dom. }
  rewrite (trackChanges_frame_enabled st1 files2 l X Hal1 eq_refl Hl).
  unfold completion, after.
  destruct (trackChanges files2 st1) as [r2 st2] eqn:Hrun2. cbn [fst snd].
  destruct (trackChanges_preserves _ _ _ _ Hal1 Hrun2) as (_ & Hfs & _ & _).
  repeat split.
  rewrite !getFileState_run. unfold Map_contents. cbn.
  rewrite lookup_total_insert_ne; [done|]. by rewrite Hfs.
Qed.

(** The test "should enable tracking with boolean parameter". *)
Lemma disabled_run_leaves_no_trace_witness :
  allocated disabled_tracker ∧
  enabled (config disabled_tracker) ≠ Some true ∧
  completion (trackChanges files_y;; enable (inl true);; trackChanges files_x)
    disabled_tracker
  = completion (enable (inl true);; trackChanges files_x) disabled_tracker ∧
  disk (after (trackChanges files_y;; enable (inl true);;
               trackChanges files_x) disabled_tracker)
  = disk (after (enable (inl true);; trackChanges files_x) disabled_tracker) ∧
  syscalls (after (trackChanges files_y;; enable (inl true);;
                   trackChanges files_x) disabled_tracker)
  = syscalls (after (enable (inl true);; trackChanges files_x)
                disabled_tracker) ∧
  completion (getFileState "a.txt")
    (after (trackChanges files_y;; enable (inl true);;
            trackChanges files_x) disabled_tracker)
  = completion (getFileState "a.txt")
      (after (enable (inl true);; trackChanges files_x) disabled_tracker).
Proof.
  assert (allocated disabled_tracker) as Hal by (exists ∅; reflexivity).
  assert (enabled (config disabled_tracker) ≠ Some true) as Hen
    by (vm_compute; discriminate).
  pose proof (disabled_run_leaves_no_trace disabled_tracker files_y files_x
                "a.txt") as Hthm.
  pose proof (Hthm Hal) as Hthm1.
  exact (conj Hal (conj Hen (Hthm1 Hen))).
Defined.

(** ** A new tracker *)

(** X16.  A tracker constructed without [enabled] tracks: it has made no
    call into the file system and knows no path, and its first run, with
    no history file on disk, records with buffers and a file system that
    lets the save through, returns the tracker's map and writes the
    history.  Every input path that names nothing in [Object.prototype]
    is [new]; a path that names a function of [Object.prototype] is
    [modified], with that function as previous fingerprint, and the path
    [__proto__] is [unchanged], with [Object.prototype] as previous
    fingerprint. *)
Theorem new_tracker_tracks (p : string) (files0 : gmap string Text)
    (faults : Syscall -> option Errno) (tears : Syscall -> bool)
    (files : FileDataCollection) :
  p ≠ EmptyString ->
  files0 !! p = None ->
  faults (Mkdir p) = None ->
  faults (WriteFile p (JSON_stringify (fingerprints files))) = None ->
  (∀ path file, files !! path = Some file -> contents file ≠ Undefined) ->
  let st := constructor {| historyPath := Some p; enabled := None |}
              files0 faults tears in
  syscalls st = [] ∧
  (∀ path, completion (getFileState path) st = Normal None) ∧
  ∃ st',
    trackChanges files st = (Normal (fileStates st), st') ∧
    disk st' = <[p := JSON_stringify (fingerprints files)]> files0 ∧
    (∀ path,
       inherited_name path = false ->
       completion (getFileState path) st'
       = Normal ((fun _ => {| status := new; previousFingerprint := None |})
                 <$> files !! path)) ∧
    (∀ path,
       path ≠ "__proto__"%string -> inherited_name path = true ->
       completion (getFileState path) st'
       = Normal ((fun _ => {| status := modified;
                              previousFingerprint :=
                                Some (Method Object_prototype path) |})
                 <$> files !! path)) ∧
    completion (getFileState "__proto__") st'
    = Normal ((fun _ => {| status := unchanged;
                           previousFingerprint :=
                             Some (Prototype Object_prototype) |})
              <$> files !! "__proto__"%string).
Proof.
  intros Hne Hnone Hmk Hwr Hok st. split; [done|]. split.
  { intros path. unfold completion. rewrite getFileState_run.
    unfold Map_contents. cbn [heap fileStates constructor st].
    by rewrite lookup_total_singleton_eq, lookup_empty. }
  assert (allocated st) as Hal by apply constructor_allocated.
  assert (loadHistory st
          = (Normal (JObject ∅), log_syscall (ReadFile p) st)) as Hload.
  { rewrite (loadHistory_set st p eq_refl Hne).
    cbn [fault disk constructor st].
    rewrite Hnone. by destruct (faults (ReadFile p)). }
  assert (enabled (config st) = Some true) as Hen by reflexivity.
  assert (historyPath (config st) = Some p) as Hp by reflexivity.
  assert (JObject ∅ ≠ JNull ∨ files = ∅) as Hh by (left; discriminate).
  pose proof (trackChanges_enabled_returns st _ files _ p
                Hal Hen Hp Hload Hok Hh) as Hrun.
  assert (fault st (Mkdir p) = None) as Hmk' by exact Hmk.
  assert (fault st (WriteFile p (JSON_stringify (fingerprints files)))
          = None) as Hwr' by exact Hwr.
  rewrite (Hrun Hmk' Hwr').
  eexists. split; [reflexivity|]. split; [reflexivity|].
  assert (∀ path,
            completion (getFileState path)
              (set_disk <[p := JSON_stringify (fingerprints files)]>
                 (log_syscall
                    (WriteFile p (JSON_stringify (fingerprints files)))
                    (log_syscall (Mkdir p)
                       (set_heap
                          <[fileStates st := reconciled (JObject ∅) files]>
                          (log_syscall (ReadFile p) st)))))
            = Normal ((fun _ => fresh_start path) <$> files !! path))
    as Hstates.
  { intros path. unfold completion. rewrite getFileState_run.
    unfold Map_contents.
    cbn [heap fileStates set_disk set_heap log_syscall].
    by rewrite lookup_total_insert_eq, reconciled_fresh_start. }
  repeat split.
  - intros path Hpath. by rewrite Hstates, (fresh_start_new path Hpath).
  - intros path Hproto Hpath. rewrite Hstates. unfold fresh_start.
    unfold inherited_name in Hpath. apply String.eqb_neq in Hproto.
    rewrite Hproto in Hpath |- *. rewrite orb_false_l in Hpath.
    by rewrite Hpath.
  - by rewrite Hstates.
Qed.

(** The test "should mark new files correctly". *)
Lemma new_tracker_tracks_witness :
  history_json ≠ EmptyString ∧
  (∅ : gmap string Text) !! history_json = None ∧
  no_faults (Mkdir history_json) = None ∧
  no_faults (WriteFile history_json (JSON_stringify (fingerprints files_x)))
  = None ∧
  (∀ path file, files_x !! path = Some file -> contents file ≠ Undefined) ∧
  inherited_name "a.txt" = false ∧
  syscalls fresh_tracker = [] ∧
  (∀ path, completion (getFileState path) fresh_tracker = Normal None) ∧
  ∃ st',
    trackChanges files_x fresh_tracker
    = (Normal (fileStates fresh_tracker), st') ∧
    disk st' = <[history_json := JSON_stringify (fingerprints files_x)]> ∅ ∧
    (∀ path,
       inherited_name path = false ->
       completion (getFileState path) st'
       = Normal ((fun _ => {| status := new; previousFingerprint := None |})
                 <$> files_x !! path)) ∧
    (∀ path,
       path ≠ "__proto__"%string -> inherited_name path = true ->
       completion (getFileState path) st'
       = Normal ((fun _ => {| status := modified;
                              previousFingerprint :=
                                Some (Method Object_prototype path) |})
                 <$> files_x !! path)) ∧
    completion (getFileState "__proto__") st'
    = Normal ((fun _ => {| status := unchanged;
                           previousFingerprint :=
                             Some (Prototype Object_prototype) |})
              <$> files_x !! "__proto__"%string).
Proof.
  assert (history_json ≠ EmptyString) as Hne by discriminate.
  assert ((∅ : gmap string Text) !! history_json = None) as Hnone
    by apply lookup_empty.
  assert (no_faults (Mkdir history_json) = None) as Hmk by reflexivity.
  assert (no_faults (WriteFile history_json
                       (JSON_stringify (fingerprints files_x))) = None)
    as Hwr by reflexivity.
  assert (∀ path file, files_x !! path = Some file ->
                       contents file ≠ Undefined) as Hok.
  { intros path file Hin. unfold files_x in Hin.
    apply lookup_singleton_Some in Hin as [_ <-]. discriminate. }
  assert (inherited_name "a.txt" = false) as Hname by reflexivity.
  pose proof (new_tracker_tracks history_json ∅ no_faults no_tears files_x)
    as Hthm.
  pose proof (Hthm Hne) as Hthm1. pose proof (Hthm1 Hnone) as Hthm2.
  pose proof (Hthm2 Hmk) as Hthm3. pose proof (Hthm3 Hwr) as Hthm4.
  exact (conj Hne (conj Hnone (conj Hmk (conj Hwr (conj Hok (conj Hname
    (Hthm4 Hok))))))).
Defined.

(** ** The steps of [loadHistory] and [saveHistory] *)

(** X17.  [loadHistory] only reads: whatever it returns or throws, the
    disk, the runtime state and the configuration are as before, and it
    has made at most the one call that reads the history file.  When
    that file can be read and is valid JSON, the value it denotes is
    returned as it is, whatever its shape. *)
Theorem loadHistory_reads_only (st st' : State) (r : Completion json) :
  loadHistory st = (r, st') ->
  disk st' = disk st ∧ heap st' = heap st ∧ config st' = config st ∧
  (syscalls st' = syscalls st
   ∨ ∃ p, historyPath (config st) = Some p ∧
          syscalls st' = syscalls st ++ [ReadFile p]) ∧
  (∀ p value,
     historyPath (config st) = Some p -> p ≠ EmptyString ->
     fault st (ReadFile p) = None ->
     disk st !! p = Some (Document value) ->
     r = Normal value).
Proof.
  intros Hload.
  destruct (historyPath (config st)) as [p|] eqn:Hp; last first.
  { rewrite loadHistory_unset in Hload by auto. simplify_eq.
    repeat split; auto. intros; congruence. }
  destruct (decide (p = EmptyString)) as [->|Hne].
  { rewrite loadHistory_unset in Hload by auto. simplify_eq.
    repeat split; auto. intros; congruence. }
  rewrite (loadHistory_set st p Hp Hne) in Hload. simplify_eq.
  repeat split; [by eauto|].
  intros p' value [= <-] _ Hread Hdisk. by rewrite Hread, Hdisk.
Qed.

(** A history file that maps a path to a number. *)
Lemma loadHistory_reads_only_witness :
  loadHistory tampered_tracker
  = (Normal tampered_history, after loadHistory tampered_tracker) ∧
  disk (after loadHistory tampered_tracker) = disk tampered_tracker ∧
  heap (after loadHistory tampered_tracker) = heap tampered_tracker ∧
  config (after loadHistory tampered_tracker) = config tampered_tracker ∧
  (syscalls (after loadHistory tampered_tracker) = syscalls tampered_tracker
   ∨ ∃ p, historyPath (config tampered_tracker) = Some p ∧
          syscalls (after loadHistory tampered_tracker)
          = syscalls tampered_tracker ++ [ReadFile p]) ∧
  (∀ p value,
     historyPath (config tampered_tracker) = Some p -> p ≠ EmptyString ->
     fault tampered_tracker (ReadFile p) = None ->
     disk tampered_tracker !! p = Some (Document value) ->
     Normal tampered_history = Normal value).
Proof.
  assert (loadHistory tampered_tracker
          = (Normal tampered_history, after loadHistory tampered_tracker))
    as Hload by (vm_compute; reflexivity).
  pose proof (loadHistory_reads_only tampered_tracker
                (after loadHistory tampered_tracker)
                (Normal tampered_history)) as Hthm.
  exact (conj Hload (Hthm Hload)).
Defined.

(** X18.  [saveHistory] creates the directory, then writes the file, and
    stops at the first call the file system refuses: it returns exactly
    when both calls are let through, and then the history file holds the
    serialised fingerprints.  After a refused [mkdir] no write was
    attempted and the disk is as before.  After a refused write the
    disk is as before when the file was not opened, and otherwise
    differs in the history file only, which holds a part of the text
    and is no longer JSON.  The runtime state is never touched. *)
Theorem saveHistory_steps (st st' : State) (fps : FileFingerprints)
    (p : string) (r : Completion unit) :
  historyPath (config st) = Some p -> p ≠ EmptyString ->
  saveHistory fps st = (r, st') ->
  heap st' = heap st ∧
  (r = Normal tt
   ↔ fault st (Mkdir p) = None ∧
     fault st (WriteFile p (JSON_stringify fps)) = None) ∧
  (r = Normal tt -> disk st' = <[p := JSON_stringify fps]> (disk st)) ∧
  (r ≠ Normal tt ->
   fault st (Mkdir p) ≠ None ∨ torn st (WriteFile p (JSON_stringify fps)) = false ->
   disk st' = disk st) ∧
  (r ≠ Normal tt ->
   fault st (Mkdir p) = None ->
   torn st (WriteFile p (JSON_stringify fps)) = true ->
   disk st' = <[p := Malformed]> (disk st)) ∧
  (fault st (Mkdir p) ≠ None -> syscalls st' = syscalls st ++ [Mkdir p]) ∧
  (fault st (Mkdir p) = None ->
   syscalls st'
   = syscalls st ++ [Mkdir p; WriteFile p (JSON_stringify fps)]).
Proof.
  intros Hp Hne Hsave.
  rewrite (saveHistory_set st p fps Hp Hne) in Hsave.
  destruct (fault st (Mkdir p)) as [e1|] eqn:Hmk.
  { simplify_eq. repeat split; try done; by intros [? ?]. }
  cbn zeta in Hsave.
  destruct (fault st (WriteFile p (JSON_stringify fps))) as [e2|] eqn:Hwr.
  - destruct (torn st (WriteFile p (JSON_stringify fps))) eqn:Htorn;
      simplify_eq; repeat split; try done.
    + by intros [? ?].
    + by intros _ [?|?].
    + cbn. by rewrite <- app_assoc.
    + by intros [? ?].
    + cbn. by rewrite <- app_assoc.
  - simplify_eq. repeat split; try done.
    cbn. by rewrite <- app_assoc.
Qed.

(** The disk is full: the write is refused after the history file was
    opened. *)
Lemma saveHistory_steps_witness :
  historyPath (config full_disk_tracker) = Some history_json ∧
  history_json ≠ EmptyString ∧
  saveHistory (fingerprints files_x) full_disk_tracker
  = (Throw (ChangeTrackerError HISTORY_WRITE_ERROR
              "Failed to save change history"
              (Some (SystemError ENOSPC
                       (WriteFile history_json
                          (JSON_stringify (fingerprints files_x)))))),
     after (saveHistory (fingerprints files_x)) full_disk_tracker) ∧
  fault full_disk_tracker (Mkdir history_json) = None ∧
  torn full_disk_tracker
    (WriteFile history_json (JSON_stringify (fingerprints files_x))) = true ∧
  disk full_disk_tracker !! history_json = Some (Document history_x) ∧
  disk (after (saveHistory (fingerprints files_x)) full_disk_tracker)
  = <[history_json := Malformed]> (disk full_disk_tracker) ∧
  syscalls (after (saveHistory (fingerprints files_x)) full_disk_tracker)
  = syscalls full_disk_tracker
    ++ [Mkdir history_json;
        WriteFile history_json (JSON_stringify (fingerprints files_x))].
Proof.
  assert (historyPath (config full_disk_tracker) = Some history_json)
    as Hp by reflexivity.
  assert (history_json ≠ EmptyString) as Hne by discriminate.
  assert (saveHistory (fingerprints files_x) full_disk_tracker
          = (Throw (ChangeTrackerError HISTORY_WRITE_ERROR
                      "Failed to save change history"
                      (Some (SystemError ENOSPC
                               (WriteFile history_json
                                  (JSON_stringify (fingerprints files_x)))))),
             after (saveHistory (fingerprints files_x)) full_disk_tracker))
    as Hsave by (vm_compute; reflexivity).
  assert (fault full_disk_tracker (Mkdir history_json) = None) as Hmk
    by reflexivity.
  assert (torn full_disk_tracker
            (WriteFile history_json (JSON_stringify (fingerprints files_x)))
          = true) as Htorn by reflexivity.
  assert (disk full_disk_tracker !! history_json = Some (Document history_x))
    as Hdisk by (vm_compute; reflexivity).
  pose proof (saveHistory_steps full_disk_tracker
                (after (saveHistory (fingerprints files_x))
                   full_disk_tracker)
                (fingerprints files_x) history_json
                (Throw (ChangeTrackerError HISTORY_WRITE_ERROR
                          "Failed to save change history"
                          (Some (SystemError ENOSPC
                                   (WriteFile history_json
                                      (JSON_stringify
                                         (fingerprints files_x))))))))
    as Hthm.
  pose proof (Hthm Hp) as Hthm1. pose proof (Hthm1 Hne) as Hthm2.
  pose proof (Hthm2 Hsave) as Hthm3.
  destruct Hthm3 as (_ & _ & _ & _ & Hdisk' & _ & Hcalls).
  assert (Throw (ChangeTrackerError HISTORY_WRITE_ERROR
                   "Failed to save change history"
                   (Some (SystemError ENOSPC
                            (WriteFile history_json
                               (JSON_stringify (fingerprints files_x))))))
          ≠ Normal tt) as Hthrow by discriminate.
  exact (conj Hp (conj Hne (conj Hsave (conj Hmk (conj Htorn (conj Hdisk
    (conj (Hdisk' Hthrow Hmk Htorn) (Hcalls Hmk)))))))).
Defined.
